(** * Clinic scheduling: conflict checker, appointment store and dashboards

    A shallow embedding of the scheduling logic of the clinic application:
    the 30-minute conflict check of the nurse's create and edit forms, the
    status updates issued by the dashboards, the doctor's queue view, the
    nurse's list view and the reschedule webhook.

    Conventions.
    - Text fields (ids, dates, times, names) are [string]s; a character
      stands for one UTF-16 code unit of the browser's strings.
    - The [appointments] table is a [list] of rows.  A query or an update
      against it succeeds; the response record still carries the [error]
      and [data] members the forms inspect.
    - A numeric value of the browser is [JS.number]: an exact integer or
      [NaN].  [JS.Number] reads the decimal digit strings that clock times
      are made of ("09", "30", "00"), where the browser's number is that
      integer; the other spellings of a number (white space around it, a
      sign, a decimal point, an exponent, a 0x prefix) and the rounding of
      integers above 2^53 are outside the embedding, so the properties of
      the conflict check are stated on clock times, or on texts whose
      reading does not depend on [Number] at all.
    - Handlers that write to the table are functions from the table to the
      new table; what the store fills in by itself (row ids, timestamps)
      is passed in explicitly. *)

From Stdlib Require Import String Ascii List ZArith Lia Bool Arith.
From Stdlib Require Import Sorting.Sorted Sorting.Permutation.
From Stdlib Require Import Relations.Relation_Operators.
Import ListNotations.

Open Scope string_scope.
Open Scope list_scope.

(* ================================================================== *)
(** ** Values of the host language *)

Module JS.

Inductive number : Type :=
| NaN
| Num (z : Z).

Definition mul (a b : number) : number :=
  match a, b with
  | Num x, Num y => Num (x * y)
  | _, _ => NaN
  end.

Definition add (a b : number) : number :=
  match a, b with
  | Num x, Num y => Num (x + y)
  | _, _ => NaN
  end.

Definition sub (a b : number) : number :=
  match a, b with
  | Num x, Num y => Num (x - y)
  | _, _ => NaN
  end.

(** [Math.abs] *)
Definition abs (a : number) : number :=
  match a with
  | Num x => Num (Z.abs x)
  | NaN => NaN
  end.

(** [a < b]; every comparison with [NaN] is false. *)
Definition lt (a b : number) : bool :=
  match a, b with
  | Num x, Num y => (x <? y)%Z
  | _, _ => false
  end.

Definition digit (c : ascii) : option Z :=
  let n := nat_of_ascii c in
  if (48 <=? n)%nat && (n <=? 57)%nat then Some (Z.of_nat (n - 48)) else None.

Fixpoint digits (acc : Z) (s : string) : option Z :=
  match s with
  | EmptyString => Some acc
  | String c rest =>
      match digit c with
      | Some d => digits (10 * acc + d) rest
      | None => None
      end
  end.

(** [Number(text)] on runs of decimal digits, the fields of a clock time;
    [Number('')] is [0].  Exact for values up to 2^53. *)
Definition Number (s : string) : number :=
  match digits 0 s with
  | Some z => Num z
  | None => NaN
  end.

(** [text.split(sep)] for a one-character separator. *)
Fixpoint split (sep : ascii) (s : string) : list string :=
  match s with
  | EmptyString => [EmptyString]
  | String c rest =>
      if Ascii.eqb c sep then EmptyString :: split sep rest
      else match split sep rest with
           | [] => [String c EmptyString]
           | part :: parts => String c part :: parts
           end
  end.

(** Element [i] of an array of numbers used as an arithmetic operand:
    a missing element is [undefined], which arithmetic turns into [NaN]. *)
Definition operand (arr : list number) (i : nat) : number :=
  match nth_error arr i with
  | Some n => n
  | None => NaN
  end.

(** [text.slice(start)]; a negative [start] counts from the end. *)
Definition slice (start : Z) (s : string) : string :=
  let len := Z.of_nat (String.length s) in
  let from := if (start <? 0)%Z then Z.max (len + start) 0 else Z.min start len in
  String.substring (Z.to_nat from) (Z.to_nat (len - from)) s.

Definition lower (c : ascii) : ascii :=
  let n := nat_of_ascii c in
  if (65 <=? n)%nat && (n <=? 90)%nat then ascii_of_nat (n + 32) else c.

(** [text.toLowerCase()] on ASCII text (code units below 128), where the
    letters A to Z are the only ones with a lower-case form; a code unit
    beyond is left as it is, so what is proved about lower-casing a text
    is stated for ASCII text. *)
Fixpoint toLowerCase (s : string) : string :=
  match s with
  | EmptyString => EmptyString
  | String c rest => String (lower c) (toLowerCase rest)
  end.

(** [text.includes(q)] *)
Fixpoint includes (s q : string) : bool :=
  String.prefix q s ||
  match s with
  | EmptyString => false
  | String _ rest => includes rest q
  end.

(** What a template literal prints for a possibly missing text:
    [None] is [undefined]. *)
Definition template (x : option string) : string :=
  match x with
  | Some s => s
  | None => "undefined"
  end.

(** What a call either returns or throws. *)
Inductive completion (A E : Type) : Type :=
| Returns (a : A)
| Throws (e : E).
Arguments Returns {A E} a.
Arguments Throws {A E} e.

End JS.

(** The transient notification a handler ends with. *)
Inductive toast : Type :=
| toast_success (message : string)
| toast_error (message : string).

(* ================================================================== *)
(** ** Data model (types/index.ts) *)

Inductive AppointmentStatus : Type :=
| scheduled
| in_consultation
| completed
| cancelled
| no_show.

Definition status_eqb (a b : AppointmentStatus) : bool :=
  match a, b with
  | scheduled, scheduled
  | in_consultation, in_consultation
  | completed, completed
  | cancelled, cancelled
  | no_show, no_show => true
  | _, _ => false
  end.

(** [statuses.includes(s)], the [.in('status', [...])] filter. *)
Definition status_in (s : AppointmentStatus) (l : list AppointmentStatus) : bool :=
  existsb (status_eqb s) l.

Module Patient.
Record t : Type := mk {
  id : string;
  first_name : string;
  last_name : option string;      (* the column may hold null *)
  phone : string;
  telegram_id : option string;
  age : option Z;
  created_at : option string
}.
End Patient.

Module Doctor.
Record t : Type := mk {
  id : string;
  email : string;
  full_name : string;
  specialty : option string;
  created_at : option string
}.
End Doctor.

Module Appointment.
Record t : Type := mk {
  id : string;
  patient_id : string;
  doctor_id : string;
  appointment_date : string;
  appointment_time : string;
  complaint : option string;
  status : AppointmentStatus;
  telegram_id : option string;
  created_at : option string;
  updated_at : option string;
  patient : option Patient.t;     (* joined by a select, absent in the table *)
  doctor : option Doctor.t        (* joined by a select, absent in the table *)
}.

Definition with_status (s : AppointmentStatus) (a : t) : t :=
  mk (id a) (patient_id a) (doctor_id a) (appointment_date a)
     (appointment_time a) (complaint a) s (telegram_id a)
     (created_at a) (updated_at a) (patient a) (doctor a).

Definition with_updated_at (now : string) (a : t) : t :=
  mk (id a) (patient_id a) (doctor_id a) (appointment_date a)
     (appointment_time a) (complaint a) (status a) (telegram_id a)
     (created_at a) (Some now) (patient a) (doctor a).

Definition with_patient (p : option Patient.t) (a : t) : t :=
  mk (id a) (patient_id a) (doctor_id a) (appointment_date a)
     (appointment_time a) (complaint a) (status a) (telegram_id a)
     (created_at a) (updated_at a) p (doctor a).

Definition with_doctor (d : option Doctor.t) (a : t) : t :=
  mk (id a) (patient_id a) (doctor_id a) (appointment_date a)
     (appointment_time a) (complaint a) (status a) (telegram_id a)
     (created_at a) (updated_at a) (patient a) d.

(** The columns the edit form writes. *)
Definition with_schedule (doc date time : string) (s : AppointmentStatus) (a : t) : t :=
  mk (id a) (patient_id a) doc date time (complaint a) s (telegram_id a)
     (created_at a) (updated_at a) (patient a) (doctor a).
End Appointment.

(* ================================================================== *)
(** ** The managed store *)

Module Store.

(** What a query resolves to. *)
Record response (A : Type) : Type := mkResponse {
  data : option (list A);
  error : option string
}.
Arguments mkResponse {A} _ _.
Arguments data {A} _.
Arguments error {A} _.

Definition succeed {A : Type} (rows : list A) : response A :=
  mkResponse (Some rows) None.

(** [.order(column, { ascending: true })]: rows in ascending order of the
    key, rows with equal keys in table order. *)
Fixpoint insert_sorted {A : Type} (le : A -> A -> bool) (x : A) (l : list A) : list A :=
  match l with
  | [] => [x]
  | y :: rest => if le x y then x :: y :: rest else y :: insert_sorted le x rest
  end.

Fixpoint order {A : Type} (le : A -> A -> bool) (l : list A) : list A :=
  match l with
  | [] => []
  | x :: rest => insert_sorted le x (order le rest)
  end.

Definition by_time (a b : Appointment.t) : bool :=
  String.leb (Appointment.appointment_time a) (Appointment.appointment_time b).

Definition by_date_then_time (a b : Appointment.t) : bool :=
  match String.compare (Appointment.appointment_date a) (Appointment.appointment_date b) with
  | Lt => true
  | Eq => by_time a b
  | Gt => false
  end.

(** The embedded [patient] and [doctor] of a select: the referenced rows. *)
Definition join_patient (patients : list Patient.t) (a : Appointment.t) : Appointment.t :=
  Appointment.with_patient
    (find (fun p => Patient.id p =? Appointment.patient_id a) patients) a.

Definition join_doctor (doctors : list Doctor.t) (a : Appointment.t) : Appointment.t :=
  Appointment.with_doctor
    (find (fun d => Doctor.id d =? Appointment.doctor_id a) doctors) a.

(** [.update(patch).eq('id', key)].  The table's BEFORE UPDATE trigger
    (update_updated_at_column) stamps every updated row with the time of
    the update. *)
Definition update (now : string) (patch : Appointment.t -> Appointment.t)
           (key : string) (rows : list Appointment.t) : list Appointment.t :=
  map (fun a => if Appointment.id a =? key
                then Appointment.with_updated_at now (patch a)
                else a) rows.

(** Columns the store fills in on insert. *)
Record generated : Type := mkGenerated {
  gen_id : string;
  gen_telegram_id : option string;
  gen_created_at : option string;
  gen_updated_at : option string
}.

End Store.

(* ================================================================== *)
(** ** Conflict checker *)

(** The helper both forms declare inside [checkTimeConflict]. *)
Definition timeToMinutes (time : string) : JS.number :=
  let parts := map JS.Number (JS.split ":" time) in
  let hours := JS.operand parts 0 in
  let minutes := JS.operand parts 1 in
  JS.add (JS.mul hours (JS.Num 60)) minutes.

Definition timeDifference (newTimeInMinutes : JS.number) (existing : string) : JS.number :=
  JS.abs (JS.sub newTimeInMinutes (timeToMinutes existing)).

(** The [for ... of] loop of both forms: leaves with [true] at the first
    stored time less than 30 minutes away. *)
Fixpoint scanConflicts (newTimeInMinutes : JS.number) (times : list string) : bool :=
  match times with
  | [] => false
  | t :: rest =>
      if JS.lt (timeDifference newTimeInMinutes t) (JS.Num 30) then true
      else scanConflicts newTimeInMinutes rest
  end.

Definition activeStatuses : list AppointmentStatus := [scheduled; in_consultation].

Module CreateAppointmentForm.

(** Lines 77-82: the appointment times of the doctor's active
    appointments on the date. *)
Definition conflictQuery (rows : list Appointment.t)
           (doctorId appointmentDate : string) : Store.response string :=
  Store.succeed
    (map Appointment.appointment_time
       (filter (fun a =>
                  (Appointment.doctor_id a =? doctorId)
                  && (Appointment.appointment_date a =? appointmentDate)
                  && status_in (Appointment.status a) activeStatuses)
               rows)).

(** Lines 84-106, on the awaited response. *)
Definition checkTimeConflictOn (resp : Store.response string)
           (appointmentTime : string) : JS.completion bool string :=
  match Store.error resp with
  | Some e => JS.Throws e
  | None =>
      match Store.data resp with
      | None => JS.Returns false
      | Some [] => JS.Returns false
      | Some existingAppointments =>
          JS.Returns (scanConflicts (timeToMinutes appointmentTime) existingAppointments)
      end
  end.

Definition checkTimeConflict (rows : list Appointment.t)
           (doctorId appointmentDate appointmentTime : string)
  : JS.completion bool string :=
  checkTimeConflictOn (conflictQuery rows doctorId appointmentDate) appointmentTime.

(** The form's fields at submit time.  [date] holds the picked day already
    formatted as yyyy-MM-dd; [patientId] is the selected patient, or the id
    of the patient row the new-patient branch has just inserted. *)
Record form : Type := mkForm {
  selectedDoctor : string;
  patientId : string;
  date : option string;
  time : string;
  complaint : string
}.

Definition newRow (gen : Store.generated) (f : form) (appointmentDate : string)
  : Appointment.t :=
  Appointment.mk (Store.gen_id gen) (patientId f) (selectedDoctor f)
                 appointmentDate (time f) (Some (complaint f)) scheduled
                 (Store.gen_telegram_id gen) (Store.gen_created_at gen)
                 (Store.gen_updated_at gen) None None.

(** Lines 109-185: the appointments table after the submit, and the toast. *)
Definition handleSubmit (gen : Store.generated) (f : form)
           (rows : list Appointment.t) : list Appointment.t * toast :=
  match date f with
  | None => (rows, toast_error "Please fill in all required fields")
  | Some appointmentDate =>
      if (selectedDoctor f =? "") || (time f =? "") || (complaint f =? "")
      then (rows, toast_error "Please fill in all required fields")
      else if patientId f =? ""
      then (rows, toast_error "Please select a patient")
      else
        match checkTimeConflict rows (selectedDoctor f) appointmentDate (time f) with
        | JS.Throws _ => (rows, toast_error "Failed to create appointment")
        | JS.Returns true =>
            (rows, toast_error "Time conflict: This doctor already has an appointment within 30 minutes of this time")
        | JS.Returns false =>
            (rows ++ [newRow gen f appointmentDate],
             toast_success "Appointment created successfully")
        end
  end.

End CreateAppointmentForm.

Module EditAppointmentForm.

(** Lines 58-64: id and time of the doctor's active appointments on the
    date, the edited appointment left out. *)
Definition conflictQuery (rows : list Appointment.t)
           (doctorId appointmentDate currentAppointmentId : string)
  : Store.response (string * string) :=
  Store.succeed
    (map (fun a => (Appointment.id a, Appointment.appointment_time a))
       (filter (fun a =>
                  (Appointment.doctor_id a =? doctorId)
                  && (Appointment.appointment_date a =? appointmentDate)
                  && status_in (Appointment.status a) activeStatuses
                  && negb (Appointment.id a =? currentAppointmentId))
               rows)).

(** Lines 66-88, on the awaited response. *)
Definition checkTimeConflictOn (resp : Store.response (string * string))
           (appointmentTime : string) : JS.completion bool string :=
  match Store.error resp with
  | Some e => JS.Throws e
  | None =>
      match Store.data resp with
      | None => JS.Returns false
      | Some [] => JS.Returns false
      | Some existingAppointments =>
          JS.Returns (scanConflicts (timeToMinutes appointmentTime)
                                    (map snd existingAppointments))
      end
  end.

Definition checkTimeConflict (rows : list Appointment.t)
           (doctorId appointmentDate appointmentTime currentAppointmentId : string)
  : JS.completion bool string :=
  checkTimeConflictOn
    (conflictQuery rows doctorId appointmentDate currentAppointmentId)
    appointmentTime.

(** Lines 91-132: the appointments table after the submit, and the toast.
    [appointment] is the row the nurse opened, [selectedDoctor], [date]
    (formatted as yyyy-MM-dd), [time] and [status] the form's fields. *)
Definition handleSubmit (now : string) (appointment : option Appointment.t)
           (selectedDoctor : string) (date : option string) (time : string)
           (status : AppointmentStatus)
           (rows : list Appointment.t) : list Appointment.t * toast :=
  match appointment, date with
  | Some apt, Some appointmentDate =>
      if (selectedDoctor =? "") || (time =? "")
      then (rows, toast_error "Please fill in all required fields")
      else
        match checkTimeConflict rows selectedDoctor appointmentDate time
                                (Appointment.id apt) with
        | JS.Throws _ => (rows, toast_error "Failed to update appointment")
        | JS.Returns true =>
            (rows, toast_error "Time conflict: This doctor already has an appointment within 30 minutes of this time")
        | JS.Returns false =>
            (Store.update now
               (Appointment.with_schedule selectedDoctor appointmentDate time status)
               (Appointment.id apt) rows,
             toast_success "Appointment updated successfully")
        end
  | _, _ => (rows, toast_error "Please fill in all required fields")
  end.

End EditAppointmentForm.

(* ================================================================== *)
(** ** Doctor dashboard *)

Module DoctorDashboard.

Definition listedStatuses : list AppointmentStatus :=
  [scheduled; in_consultation; completed].

(** Lines 57-66: the doctor's appointments of the day, patient embedded,
    in ascending order of time. *)
Definition dayQuery (patients : list Patient.t) (rows : list Appointment.t)
           (doctor_id searchDate : string) : Store.response Appointment.t :=
  Store.succeed
    (Store.order Store.by_time
       (map (Store.join_patient patients)
          (filter (fun a =>
                     (Appointment.doctor_id a =? doctor_id)
                     && (Appointment.appointment_date a =? searchDate)
                     && status_in (Appointment.status a) listedStatuses)
                  rows))).

(** The rows [dayQuery] resolves to. *)
Definition dayList (patients : list Patient.t) (rows : list Appointment.t)
           (doctor_id searchDate : string) : list Appointment.t :=
  match Store.data (dayQuery patients rows doctor_id searchDate) with
  | Some l => l
  | None => []
  end.

(** Lines 50-76: the new value of the [appointments] state.  [doctor_id] is
    the signed-in profile's doctor id, [appointments] the state before. *)
Definition fetchAppointments (doctor_id : option string)
           (patients : list Patient.t) (rows : list Appointment.t)
           (searchDate : string) (appointments : list Appointment.t)
  : list Appointment.t :=
  match doctor_id with
  | None => appointments
  | Some d =>
      if d =? "" then appointments
      else
        let resp := dayQuery patients rows d searchDate in
        match Store.error resp with
        | Some _ => appointments
        | None =>
            match Store.data resp with
            | Some l => l
            | None => []
            end
        end
  end.

(** The three pieces of state [organizeAppointments] sets. *)
Record queue : Type := mkQueue {
  currentAppointment : option Appointment.t;
  nextAppointments : list Appointment.t;
  completedCount : nat
}.

(** Lines 99-107. *)
Definition organizeAppointments (appointments : list Appointment.t) : queue :=
  let current :=
    find (fun apt => status_eqb (Appointment.status apt) in_consultation) appointments in
  let scheduled_ :=
    firstn 5 (filter (fun apt => status_eqb (Appointment.status apt) scheduled) appointments) in
  let completed_ :=
    length (filter (fun apt => status_eqb (Appointment.status apt) completed) appointments) in
  mkQueue current scheduled_ completed_.

(** Lines 160-163. *)
Definition maskPhone (phone : string) : string :=
  if (phone =? "") || (String.length phone <? 4)%nat then phone
  else "***-***-" ++ JS.slice (-4) phone.

(** Line 350: [maskPhone(appointment.patient?.phone || '')]. *)
Definition shownPhone (appointment : Appointment.t) : string :=
  maskPhone match Appointment.patient appointment with
            | Some p => Patient.phone p
            | None => ""
            end.

(** Line 370: [disabled={!!currentAppointment}]. *)
Definition startDisabled (q : queue) : bool :=
  match currentAppointment q with
  | Some _ => true
  | None => false
  end.

(** One card of the "Next Patients" section (lines 335-388): the
    appointment, the phone as printed, and whether its
    "Start Consultation" button is disabled. *)
Record card : Type := mkCard {
  card_appointment : Appointment.t;
  card_phone : string;
  card_start_disabled : bool
}.

Definition nextPatients (q : queue) : list card :=
  map (fun appointment =>
         mkCard appointment (shownPhone appointment) (startDisabled q))
      (nextAppointments q).

(** Line 233: the "Waiting" figure. *)
Definition waiting (q : queue) : nat := length (nextAppointments q).

(** Lines 109-122. *)
Definition handleStartConsultation (now : string) (appointmentId : string)
           (rows : list Appointment.t) : list Appointment.t :=
  Store.update now (Appointment.with_status in_consultation) appointmentId rows.

(** Lines 124-139. *)
Definition handleCompleteConsultation (now : string) (q : queue)
           (rows : list Appointment.t) : list Appointment.t :=
  match currentAppointment q with
  | None => rows
  | Some current =>
      Store.update now (Appointment.with_status completed) (Appointment.id current) rows
  end.

(** Lines 141-158. *)
Definition handleMarkNoShow (now : string) (selectedForNoShow : option Appointment.t)
           (rows : list Appointment.t) : list Appointment.t :=
  match selectedForNoShow with
  | None => rows
  | Some apt =>
      Store.update now (Appointment.with_status no_show) (Appointment.id apt) rows
  end.

End DoctorDashboard.

(* ================================================================== *)
(** ** Nurse dashboard *)

Module NurseDashboard.

(** Lines 69-77: every appointment, patient and doctor embedded, ordered by
    date and then by time. *)
Definition fetchAppointments (patients : list Patient.t) (doctors : list Doctor.t)
           (rows : list Appointment.t) : list Appointment.t :=
  Store.order Store.by_date_then_time
    (map (fun a => Store.join_doctor doctors (Store.join_patient patients a)) rows).

(** Lines 123-128: the search predicate. *)
Definition matchesSearch (searchQuery : string) (apt : Appointment.t) : bool :=
  let patientName :=
    JS.toLowerCase
      (JS.template (option_map Patient.first_name (Appointment.patient apt))
       ++ " "
       ++ match Appointment.patient apt with
          | Some p => match Patient.last_name p with
                      | Some l => l
                      | None => "null"
                      end
          | None => "undefined"
          end) in
  let doctorName :=
    option_map (fun d => JS.toLowerCase (Doctor.full_name d)) (Appointment.doctor apt) in
  JS.includes patientName (JS.toLowerCase searchQuery)
  || match doctorName with
     | Some n => JS.includes n (JS.toLowerCase searchQuery)
     | None => false
     end.

(** Lines 110-132: the list the dashboard shows. *)
Definition filterAppointments (appointments : list Appointment.t)
           (selectedDoctor selectedDate searchQuery : string) : list Appointment.t :=
  let filtered := appointments in
  let filtered :=
    if negb (selectedDoctor =? "all")
    then filter (fun apt => Appointment.doctor_id apt =? selectedDoctor) filtered
    else filtered in
  let filtered :=
    filter (fun apt => Appointment.appointment_date apt =? selectedDate) filtered in
  let filtered :=
    if negb (searchQuery =? "")
    then filter (matchesSearch searchQuery) filtered
    else filtered in
  filtered.

End NurseDashboard.

(* ================================================================== *)
(** ** Appointment details modal *)

Module AppointmentDetailsModal.

(** Lines 78-94 (of the modal): the only write is a status update. *)
Definition handleCancel (now : string) (appointment : Appointment.t)
           (rows : list Appointment.t) : list Appointment.t :=
  Store.update now (Appointment.with_status cancelled) (Appointment.id appointment) rows.

(** A JSON object whose members are all strings, as name and value pairs
    in order; the request body is its serialisation. *)
Definition json : Type := list (string * string).

Record request : Type := mkRequest {
  url : string;
  method : string;
  headers : list (string * string);
  body : json
}.

(** What awaiting [fetch] gives: a response with its status code, or a
    rejection. *)
Inductive fetched : Type :=
| Response (status : nat)
| Rejected (reason : string).

(** [response.ok] *)
Definition ok (status : nat) : bool := (200 <=? status)%nat && (status <=? 299)%nat.

(** What one click on "Request Reschedule" does: the requests sent, the
    toast shown, and the [isRescheduling] flag afterwards. *)
Record run : Type := mkRun {
  sent : list request;
  shown : toast;
  isRescheduling : bool
}.

Definition webhook : string := "https://n8n.maxgrow.pro/webhook/emergency".

Definition payload (d : Doctor.t) (p : Patient.t) (appointment : Appointment.t) : json :=
  [ ("doctor_name", Doctor.full_name d);
    ("patient_first_name", Patient.first_name p);
    ("patient_last_name",
      match Patient.last_name p with
      | Some l => l      (* an empty name is replaced by '', itself *)
      | None => ""
      end);
    ("appointment_date", Appointment.appointment_date appointment);
    ("appointment_time", Appointment.appointment_time appointment) ].

(** Lines 96-132 (of the modal); [network] answers the request. *)
Definition handleRequestReschedule (appointment : Appointment.t)
           (network : request -> fetched) : run :=
  match Appointment.patient appointment, Appointment.doctor appointment with
  | Some p, Some d =>
      let req :=
        mkRequest webhook "POST" [("Content-Type", "application/json")]
                  (payload d p appointment) in
      match network req with
      | Response status =>
          if ok status
          then mkRun [req] (toast_success "Reschedule request sent to patient via Telegram") false
          else mkRun [req] (toast_error "Failed to send reschedule request") false
      | Rejected _ =>
          mkRun [req] (toast_error "Failed to send reschedule request") false
      end
  | _, _ => mkRun [] (toast_error "Missing patient or doctor information") false
  end.

End AppointmentDetailsModal.

(* ================================================================== *)
(** ** The appointments table over time *)

Module Clinic.

(** One user action that writes to the appointments table.  Each action is
    taken on a freshly fetched view: the dashboards re-fetch on every
    change notification, and actions do not interleave.
    - [step_create]: the nurse submits the create form; the store gives
      the new row an id no other row has.
    - [step_edit]: the nurse submits the edit form opened on [apt].
    - [step_start]: the doctor presses an enabled "Start Consultation" on
      a card of the queue.
    - [step_complete]: the doctor presses "Complete Consultation".
    - [step_no_show]: the doctor marks a card of the queue as no-show.
    - [step_cancel]: the nurse cancels [apt] in the details modal. *)
Inductive step : list Appointment.t -> list Appointment.t -> Prop :=
| step_create (rows : list Appointment.t) (gen : Store.generated)
              (f : CreateAppointmentForm.form) :
    forallb (fun a => negb (Appointment.id a =? Store.gen_id gen)) rows = true ->
    step rows (fst (CreateAppointmentForm.handleSubmit gen f rows))
| step_edit (rows : list Appointment.t) (now : string) (apt : Appointment.t)
            (selectedDoctor : string) (date : option string) (time : string)
            (status : AppointmentStatus) :
    step rows
         (fst (EditAppointmentForm.handleSubmit now (Some apt) selectedDoctor
                                                date time status rows))
| step_start (rows : list Appointment.t) (now : string)
             (patients : list Patient.t) (doctor_id day : string)
             (apt : Appointment.t) :
    let q := DoctorDashboard.organizeAppointments
               (DoctorDashboard.dayList patients rows doctor_id day) in
    In apt (DoctorDashboard.nextAppointments q) ->
    DoctorDashboard.startDisabled q = false ->
    step rows (DoctorDashboard.handleStartConsultation now (Appointment.id apt) rows)
| step_complete (rows : list Appointment.t) (now : string)
                (patients : list Patient.t) (doctor_id day : string) :
    let q := DoctorDashboard.organizeAppointments
               (DoctorDashboard.dayList patients rows doctor_id day) in
    step rows (DoctorDashboard.handleCompleteConsultation now q rows)
| step_no_show (rows : list Appointment.t) (now : string)
               (patients : list Patient.t) (doctor_id day : string)
               (apt : Appointment.t) :
    let q := DoctorDashboard.organizeAppointments
               (DoctorDashboard.dayList patients rows doctor_id day) in
    In apt (DoctorDashboard.nextAppointments q) ->
    step rows (DoctorDashboard.handleMarkNoShow now (Some apt) rows)
| step_cancel (rows : list Appointment.t) (now : string) (apt : Appointment.t) :
    step rows (AppointmentDetailsModal.handleCancel now apt rows).

(** The tables the application can bring about, starting from none. *)
Inductive reachable : list Appointment.t -> Prop :=
| reachable_empty : reachable []
| reachable_step (rows rows' : list Appointment.t) :
    reachable rows -> step rows rows' -> reachable rows'.

(** [a] and [b] are less than 30 minutes apart, by the checker's own
    comparison. *)
Definition within30 (a b : Appointment.t) : bool :=
  JS.lt (timeDifference (timeToMinutes (Appointment.appointment_time a))
                        (Appointment.appointment_time b))
        (JS.Num 30).

(** Neither cancelled nor no-show. *)
Definition live (s : AppointmentStatus) : bool :=
  negb (status_eqb s cancelled) && negb (status_eqb s no_show).

(** Scheduled or in consultation. *)
Definition active (s : AppointmentStatus) : bool := status_in s activeStatuses.

(** Two different appointments, both of a status that [counts], of one
    doctor on one date and less than 30 minutes apart. *)
Definition clash (counts : AppointmentStatus -> bool) (rows : list Appointment.t) : Prop :=
  exists a b,
    In a rows /\ In b rows /\
    Appointment.id a <> Appointment.id b /\
    counts (Appointment.status a) = true /\
    counts (Appointment.status b) = true /\
    Appointment.doctor_id a = Appointment.doctor_id b /\
    Appointment.appointment_date a = Appointment.appointment_date b /\
    within30 a b = true.

Definition unique_ids (rows : list Appointment.t) : Prop :=
  NoDup (map Appointment.id rows).

End Clinic.

(* ================================================================== *)
(** ** Vocabulary of the properties *)

(** The clock times [t1] and [t2], read as minutes since midnight, are [d]
    minutes apart. *)
Definition minutesApart (t1 t2 : string) (d : Z) : Prop :=
  exists m n : Z,
    timeToMinutes t1 = JS.Num m /\ timeToMinutes t2 = JS.Num n /\ d = Z.abs (m - n).

Definition lessThan30Apart (t1 t2 : string) : Prop :=
  exists d : Z, minutesApart t1 t2 d /\ (d < 30)%Z.

Definition atLeast30Apart (t1 t2 : string) : Prop :=
  exists d : Z, minutesApart t1 t2 d /\ (30 <= d)%Z.

(** [apt] is an appointment of the doctor on the date that is scheduled or
    in consultation. *)
Definition booked (doctorId appointmentDate : string) (apt : Appointment.t) : Prop :=
  Appointment.doctor_id apt = doctorId /\
  Appointment.appointment_date apt = appointmentDate /\
  (Appointment.status apt = scheduled \/ Appointment.status apt = in_consultation).

(** The clock time [h]:[m] as the time input writes it ("09:05"); the
    store hands it back with a seconds part ("09:05:00"). *)
Definition twoDigits (n : nat) : string :=
  String (ascii_of_nat (48 + n / 10))
         (String (ascii_of_nat (48 + n mod 10)) EmptyString).

Definition clock (h m : nat) : string := twoDigits h ++ ":" ++ twoDigits m.

Definition clockTimes : list (nat * nat) := list_prod (seq 0 24) (seq 0 60).

Definition readsAs (t : string) (minutes : nat) : bool :=
  match timeToMinutes t with
  | JS.Num z => (z =? Z.of_nat minutes)%Z
  | JS.NaN => false
  end.

(** A row of the examples: only the columns the checker reads vary. *)
Definition row (id doctor_id day time : string) (s : AppointmentStatus) : Appointment.t :=
  Appointment.mk id "p-1" doctor_id day time None s None None None None None.

(** Doctor D's day of the worked example: appointments at 09:00 and 09:20,
    both scheduled. *)
Definition exampleDay : list Appointment.t :=
  [ row "a-1" "D" "2025-03-10" "09:00" scheduled;
    row "a-2" "D" "2025-03-10" "09:20" scheduled ].

(** The same doctor's day with appointments at 09:00 and 10:00, both
    scheduled and nobody in consultation. *)
Definition twoWaiting : list Appointment.t :=
  [ row "a-1" "D" "2025-03-10" "09:00" scheduled;
    row "a-2" "D" "2025-03-10" "10:00" scheduled ].

(** A day with seven scheduled appointments, stored out of order. *)
Definition busyDay : list Appointment.t :=
  [ row "b-4" "D" "2025-03-11" "11:00" scheduled;
    row "b-1" "D" "2025-03-11" "08:00" scheduled;
    row "b-7" "D" "2025-03-11" "14:00" scheduled;
    row "b-2" "D" "2025-03-11" "09:00" scheduled;
    row "b-6" "D" "2025-03-11" "13:00" scheduled;
    row "b-3" "D" "2025-03-11" "10:00" scheduled;
    row "b-5" "D" "2025-03-11" "12:00" scheduled ].

Definition examplePatient : Patient.t :=
  Patient.mk "p-1" "Ana" (Some "Silva") "5551234567" None (Some 41%Z) None.

Definition exampleDoctor : Doctor.t :=
  Doctor.mk "D" "d@clinic.example" "Dr. Costa" None None.

(** A fetched appointment with patient and doctor embedded. *)
Definition loadedAppointment : Appointment.t :=
  Appointment.with_doctor (Some exampleDoctor)
    (Appointment.with_patient (Some examplePatient)
       (row "a-1" "D" "2025-03-10" "09:00" scheduled)).

(** The five member names of the reschedule payload, in order. *)
Definition payloadMembers : list string :=
  [ "doctor_name"; "patient_first_name"; "patient_last_name";
    "appointment_date"; "appointment_time" ].

(** The click is reported to the user as a failure. *)
Definition reportedFailure (r : AppointmentDetailsModal.run) : Prop :=
  exists message, AppointmentDetailsModal.shown r = toast_error message.

(** What a status update to [s], issued at [now] for the id [key], makes
    of a row. *)
Definition restamped (now key : string) (s : AppointmentStatus) (a : Appointment.t)
  : Appointment.t :=
  if Appointment.id a =? key
  then Appointment.with_updated_at now (Appointment.with_status s a)
  else a.

(** Cancelling [apt] changes nothing but the status field of its row. *)
Definition onlyStatusChanges (now : string) (apt : Appointment.t)
           (rows : list Appointment.t) : Prop :=
  AppointmentDetailsModal.handleCancel now apt rows
  = map (fun r => if Appointment.id r =? Appointment.id apt
                  then Appointment.with_status cancelled r else r) rows.

(** After cancelling [apt] it is in no list the nurse dashboard shows. *)
Definition goneFromNurseList (patients : list Patient.t) (doctors : list Doctor.t)
           (now : string) (apt : Appointment.t) (rows : list Appointment.t) : Prop :=
  forall selectedDoctor selectedDate searchQuery a,
    In a (NurseDashboard.filterAppointments
            (NurseDashboard.fetchAppointments
               patients doctors (AppointmentDetailsModal.handleCancel now apt rows))
            selectedDoctor selectedDate searchQuery) ->
    Appointment.id a <> Appointment.id apt.

(** A table with one appointment, last updated at opening time. *)
Definition oneBooked : list Appointment.t :=
  [ Appointment.mk "a-1" "p-1" "D" "2025-03-10" "09:00" (Some "cough") scheduled
                   None (Some "2025-03-01T08:00") (Some "2025-03-01T08:00") None None ].

(** A doctor's day with one patient in consultation and one waiting. *)
Definition inProgress : list Appointment.t :=
  [ row "a-1" "D" "2025-03-10" "09:00" in_consultation;
    row "a-2" "D" "2025-03-10" "09:30" scheduled ].

(** A short history of the table: the nurse books 09:00 for doctor D, the
    doctor starts and completes that consultation, and the nurse then
    books 09:10 for the same doctor and day. *)
Definition firstBooking : CreateAppointmentForm.form :=
  CreateAppointmentForm.mkForm "D" "p-1" (Some "2025-03-10") "09:00" "cough".

Definition secondBooking : CreateAppointmentForm.form :=
  CreateAppointmentForm.mkForm "D" "p-2" (Some "2025-03-10") "09:10" "fever".

Definition afterFirstBooking : list Appointment.t :=
  fst (CreateAppointmentForm.handleSubmit
         (Store.mkGenerated "a-1" None None None) firstBooking []).

Definition afterStart : list Appointment.t :=
  DoctorDashboard.handleStartConsultation "2025-03-10T09:00" "a-1" afterFirstBooking.

Definition afterComplete : list Appointment.t :=
  DoctorDashboard.handleCompleteConsultation
    "2025-03-10T09:08"
    (DoctorDashboard.organizeAppointments
       (DoctorDashboard.dayList [] afterStart "D" "2025-03-10"))
    afterStart.

Definition afterSecondBooking : list Appointment.t :=
  fst (CreateAppointmentForm.handleSubmit
         (Store.mkGenerated "a-2" None None None) secondBooking afterComplete).

Definition isScheduled (apt : Appointment.t) : bool :=
  status_eqb (Appointment.status apt) scheduled.

Definition isInConsultation (apt : Appointment.t) : bool :=
  status_eqb (Appointment.status apt) in_consultation.

(** Ascending order of time, as the store orders the day's list. *)
Definition earlierOrSame (a b : Appointment.t) : Prop := Store.by_time a b = true.

(** The oldest-by-time scheduled appointment of a day's list that is in
    ascending order of time. *)
Definition oldestScheduled (appointments : list Appointment.t) : option Appointment.t :=
  hd_error (filter isScheduled appointments).

(** "Start Consultation" is enabled only on the oldest scheduled
    appointment of the list. *)
Definition startOnlyOnOldest (appointments : list Appointment.t) : Prop :=
  forall c,
    In c (DoctorDashboard.nextPatients (DoctorDashboard.organizeAppointments appointments)) ->
    DoctorDashboard.card_start_disabled c = false ->
    oldestScheduled appointments = Some (DoctorDashboard.card_appointment c).

(* ================================================================== *)
(** ** Status badge (StatusBadge.tsx) *)

Module StatusBadge.

(** Lines 9-24. *)
Definition getStatusStyles (status : AppointmentStatus) : string :=
  match status with
  | scheduled =>
      "bg-[hsl(var(--status-scheduled))] text-white hover:bg-[hsl(var(--status-scheduled))]"
  | in_consultation =>
      "bg-[hsl(var(--status-in-consultation))] text-white hover:bg-[hsl(var(--status-in-consultation))]"
  | completed =>
      "bg-[hsl(var(--status-completed))] text-white hover:bg-[hsl(var(--status-completed))]"
  | cancelled =>
      "bg-[hsl(var(--status-cancelled))] text-white hover:bg-[hsl(var(--status-cancelled))]"
  | no_show =>
      "bg-[hsl(var(--status-no-show))] text-white hover:bg-[hsl(var(--status-no-show))]"
  end.

(** Lines 26-41. *)
Definition getStatusLabel (status : AppointmentStatus) : string :=
  match status with
  | scheduled => "Scheduled"
  | in_consultation => "In Consultation"
  | completed => "Completed"
  | cancelled => "Cancelled"
  | no_show => "No Show"
  end.

End StatusBadge.

(* ================================================================== *)
(** ** The create form with its new-patient branch *)

Module Globals.

(** White space that [parseInt] skips, among the code units below 256. *)
Definition isWhiteSpace (c : ascii) : bool :=
  let n := nat_of_ascii c in
  (n =? 9)%nat || (n =? 10)%nat || (n =? 11)%nat || (n =? 12)%nat
  || (n =? 13)%nat || (n =? 32)%nat || (n =? 160)%nat.

Fixpoint trimStart (s : string) : string :=
  match s with
  | EmptyString => EmptyString
  | String c rest => if isWhiteSpace c then trimStart rest else s
  end.

Definition hexDigit (c : ascii) : option Z :=
  let n := nat_of_ascii c in
  if (48 <=? n)%nat && (n <=? 57)%nat then Some (Z.of_nat (n - 48))
  else if (97 <=? n)%nat && (n <=? 102)%nat then Some (Z.of_nat (n - 87))
  else if (65 <=? n)%nat && (n <=? 70)%nat then Some (Z.of_nat (n - 55))
  else None.

(** The value of the longest prefix of digits of the radix; [acc] is
    [None] until a digit has been read. *)
Fixpoint digitPrefix (digitOf : ascii -> option Z) (radix : Z)
         (acc : option Z) (s : string) : option Z :=
  match s with
  | EmptyString => acc
  | String c rest =>
      match digitOf c with
      | Some d =>
          digitPrefix digitOf radix
                      (Some (radix * match acc with Some a => a | None => 0 end + d)%Z)
                      rest
      | None => acc
      end
  end.

(** [parseInt(text)] with no radix given: leading white space, a sign, a
    0x prefix for radix 16, then the longest run of digits; [NaN] when
    there is none.  The value is the exact integer, which is the
    browser's number as long as it stays below 2^53. *)
Definition parseInt (s : string) : JS.number :=
  let s1 := trimStart s in
  let signed :=
    match s1 with
    | String "-" rest => ((-1)%Z, rest)
    | String "+" rest => (1%Z, rest)
    | _ => (1%Z, s1)
    end in
  let body := snd signed in
  let parsed :=
    match body with
    | String "0" (String "x" rest) => digitPrefix hexDigit 16 None rest
    | String "0" (String "X" rest) => digitPrefix hexDigit 16 None rest
    | _ => digitPrefix JS.digit 10 None body
    end in
  match parsed with
  | Some v => JS.Num (fst signed * v)
  | None => JS.NaN
  end.

End Globals.

Module CreateAppointmentDialog.

(** The [newPatientData] state: four text inputs. *)
Record newPatientData : Type := mkNewPatientData {
  first_name : string;
  last_name : string;
  phone : string;
  age : string
}.

(** The form's state at submit time; [date] holds the picked day already
    formatted as yyyy-MM-dd. *)
Record fields : Type := mkFields {
  selectedDoctor : string;
  selectedPatient : string;
  date : option string;
  time : string;
  complaint : string;
  isNewPatient : bool;
  newPatient : newPatientData
}.

(** Columns the store fills in when a patient is inserted. *)
Record generatedPatient : Type := mkGeneratedPatient {
  pgen_id : string;
  pgen_telegram_id : option string;
  pgen_created_at : option string
}.

(** Line 136: [age ? parseInt(age) : null]; a [NaN] is sent as null. *)
Definition ageColumn (age : string) : option Z :=
  if age =? "" then None
  else match Globals.parseInt age with
       | JS.Num z => Some z
       | JS.NaN => None
       end.

(** Lines 130-139: the inserted patient row. *)
Definition newPatientRow (pgen : generatedPatient) (d : newPatientData) : Patient.t :=
  Patient.mk (pgen_id pgen) (first_name d) (Some (last_name d)) (phone d)
             (pgen_telegram_id pgen) (ageColumn (age d)) (pgen_created_at pgen).

Record outcome : Type := mkOutcome {
  patients_after : list Patient.t;
  appointments_after : list Appointment.t;
  shown : toast
}.

(** Lines 109-185 in full: both tables after the submit, and the toast.
    Once the patient is settled the rest is the create form's submit on
    that patient id. *)
Definition handleSubmit (pgen : generatedPatient) (gen : Store.generated)
           (f : fields) (patients : list Patient.t) (rows : list Appointment.t)
  : outcome :=
  if (selectedDoctor f =? "")
     || match date f with Some _ => false | None => true end
     || (time f =? "") || (complaint f =? "")
  then mkOutcome patients rows (toast_error "Please fill in all required fields")
  else if isNewPatient f
  then
    if (first_name (newPatient f) =? "") || (phone (newPatient f) =? "")
    then mkOutcome patients rows (toast_error "Please fill in patient name and phone")
    else
      let created := newPatientRow pgen (newPatient f) in
      let r := CreateAppointmentForm.handleSubmit
                 gen
                 (CreateAppointmentForm.mkForm (selectedDoctor f) (Patient.id created)
                                               (date f) (time f) (complaint f))
                 rows in
      mkOutcome (patients ++ [created]) (fst r) (snd r)
  else
    let r := CreateAppointmentForm.handleSubmit
               gen
               (CreateAppointmentForm.mkForm (selectedDoctor f) (selectedPatient f)
                                             (date f) (time f) (complaint f))
               rows in
    mkOutcome patients (fst r) (snd r).

(** Lines 186-194: every field back to its initial value. *)
Definition resetForm : fields :=
  mkFields "" "" None "" "" false (mkNewPatientData "" "" "" "").

(** The fields the form holds once a submit is over: lines 175-177 call
    [resetForm()] after the success toast, every other exit leaves the
    fields as they were. *)
Definition fieldsAfterSubmit (f : fields) (result : outcome) : fields :=
  match shown result with
  | toast_success _ => resetForm
  | toast_error _ => f
  end.

End CreateAppointmentDialog.

(* ================================================================== *)
(** ** The doctor's actions *)

(** The writes the doctor dashboard offers, each on a freshly fetched
    queue: start an enabled card, complete the current consultation, mark
    a card as no-show. *)
Inductive doctor_step : list Appointment.t -> list Appointment.t -> Prop :=
| doctor_start (rows : list Appointment.t) (now : string)
               (patients : list Patient.t) (doctor_id day : string)
               (apt : Appointment.t) :
    let q := DoctorDashboard.organizeAppointments
               (DoctorDashboard.dayList patients rows doctor_id day) in
    In apt (DoctorDashboard.nextAppointments q) ->
    DoctorDashboard.startDisabled q = false ->
    doctor_step rows (DoctorDashboard.handleStartConsultation now (Appointment.id apt) rows)
| doctor_complete (rows : list Appointment.t) (now : string)
                  (patients : list Patient.t) (doctor_id day : string) :
    let q := DoctorDashboard.organizeAppointments
               (DoctorDashboard.dayList patients rows doctor_id day) in
    doctor_step rows (DoctorDashboard.handleCompleteConsultation now q rows)
| doctor_no_show (rows : list Appointment.t) (now : string)
                 (patients : list Patient.t) (doctor_id day : string)
                 (apt : Appointment.t) :
    let q := DoctorDashboard.organizeAppointments
               (DoctorDashboard.dayList patients rows doctor_id day) in
    In apt (DoctorDashboard.nextAppointments q) ->
    doctor_step rows (DoctorDashboard.handleMarkNoShow now (Some apt) rows).

(* ================================================================== *)
(** ** Vocabulary of the further properties *)

(** The status changes the doctor dashboard can make. *)
Definition doctorTransition (s s' : AppointmentStatus) : Prop :=
  (s = scheduled /\ s' = in_consultation)
  \/ (s = in_consultation /\ s' = completed)
  \/ (s = scheduled /\ s' = no_show).

(** [r'] is [r] with at most its status and [updated_at] changed. *)
Definition sameButStatus (r r' : Appointment.t) : Prop :=
  Appointment.id r' = Appointment.id r
  /\ Appointment.patient_id r' = Appointment.patient_id r
  /\ Appointment.doctor_id r' = Appointment.doctor_id r
  /\ Appointment.appointment_date r' = Appointment.appointment_date r
  /\ Appointment.appointment_time r' = Appointment.appointment_time r
  /\ Appointment.complaint r' = Appointment.complaint r
  /\ Appointment.telegram_id r' = Appointment.telegram_id r
  /\ Appointment.created_at r' = Appointment.created_at r.

(** What no action rewrites: id, patient, complaint, telegram id and
    creation time. *)
Definition sameIdentity (r r' : Appointment.t) : Prop :=
  Appointment.id r' = Appointment.id r
  /\ Appointment.patient_id r' = Appointment.patient_id r
  /\ Appointment.complaint r' = Appointment.complaint r
  /\ Appointment.telegram_id r' = Appointment.telegram_id r
  /\ Appointment.created_at r' = Appointment.created_at r.

(** The row an edit leaves in place of [r]. *)
Definition rescheduled (now doc day time : string) (s : AppointmentStatus)
           (r : Appointment.t) : Appointment.t :=
  Appointment.mk (Appointment.id r) (Appointment.patient_id r) doc day time
                 (Appointment.complaint r) s (Appointment.telegram_id r)
                 (Appointment.created_at r) (Some now)
                 (Appointment.patient r) (Appointment.doctor r).

(** [r] with only its [updated_at] renewed when its id is [key]. *)
Definition touched (now key : string) (r : Appointment.t) : Appointment.t :=
  if Appointment.id r =? key then Appointment.with_updated_at now r else r.

(** The toast both forms show when their check reports a conflict. *)
Definition conflictToast : toast :=
  toast_error "Time conflict: This doctor already has an appointment within 30 minutes of this time".

Definition allStatuses : list AppointmentStatus :=
  [scheduled; in_consultation; completed; cancelled; no_show].

(** What the nurse's three filters ask of an appointment. *)
Definition passesFilters (selectedDoctor selectedDate searchQuery : string)
           (a : Appointment.t) : Prop :=
  (selectedDoctor = "all" \/ Appointment.doctor_id a = selectedDoctor)
  /\ Appointment.appointment_date a = selectedDate
  /\ (searchQuery = "" \/ NurseDashboard.matchesSearch searchQuery a = true).

Fixpoint hasColon (s : string) : bool :=
  match s with
  | EmptyString => false
  | String c rest => Ascii.eqb c ":" || hasColon rest
  end.

Fixpoint allDigits (s : string) : bool :=
  match s with
  | EmptyString => true
  | String c rest =>
      match JS.digit c with
      | Some _ => allDigits rest
      | None => false
      end
  end.

(** The value of a string of decimal digits. *)
Definition digitsValue (s : string) : Z :=
  match JS.digits 0 s with
  | Some z => z
  | None => 0%Z
  end.

Definition isCompleted (apt : Appointment.t) : bool :=
  status_eqb (Appointment.status apt) completed.

Definition onDay (doctor_id day : string) (a : Appointment.t) : bool :=
  (Appointment.doctor_id a =? doctor_id) && (Appointment.appointment_date a =? day).

Definition earlierDayOrTime (a b : Appointment.t) : Prop :=
  Store.by_date_then_time a b = true.

(** The embedded patient and doctor of the nurse's select. *)
Definition joined (patients : list Patient.t) (doctors : list Doctor.t)
           (a : Appointment.t) : Appointment.t :=
  Store.join_doctor doctors (Store.join_patient patients a).

(** A second example patient, stored without a last name. *)
Definition mononymPatient : Patient.t :=
  Patient.mk "p-2" "Cher" None "5550001111" None None None.

Definition walkIn : CreateAppointmentDialog.fields :=
  CreateAppointmentDialog.mkFields
    "D" "" (Some "2025-03-10") "09:10" "fever" true
    (CreateAppointmentDialog.mkNewPatientData "Rui" "" "5559876543" "37").

(** Every code unit of the text is below 128. *)
Fixpoint isAscii (s : string) : bool :=
  match s with
  | EmptyString => true
  | String c rest => (nat_of_ascii c <? 128)%nat && isAscii rest
  end.

(** The time of day [h]:[m], written HH:MM as the time input gives it or
    HH:MM:SS as the store's [time] column returns it, is [minutes]
    minutes after midnight. *)
Definition clockReading (t : string) (minutes : Z) : Prop :=
  exists h m : nat,
    h < 24 /\ m < 60 /\ minutes = Z.of_nat (60 * h + m)
    /\ (t = clock h m \/ exists rest : string, t = (clock h m ++ ":" ++ rest)%string).

(** The appointment an existing patient asks for at 09:10. *)
Definition returningPatient : CreateAppointmentDialog.fields :=
  CreateAppointmentDialog.mkFields
    "D" "p-2" (Some "2025-03-10") "09:10" "fever" false
    (CreateAppointmentDialog.mkNewPatientData "" "" "" "").

(* ================================================================== *)
(** ** Basic facts *)

Lemma status_eqb_eq (a b : AppointmentStatus) : status_eqb a b = true <-> a = b.
Proof. destruct a, b; simpl; split; intro H; try reflexivity; discriminate H. Qed.

Lemma status_in_active (s : AppointmentStatus) :
  status_in s activeStatuses = true <-> s = scheduled \/ s = in_consultation.
Proof.
  destruct s; simpl; split; intro H; auto;
    try discriminate H; destruct H as [H | H]; discriminate H.
Qed.

Lemma lt_abs_sub_sym (a b c : JS.number) :
  JS.lt (JS.abs (JS.sub a b)) c = JS.lt (JS.abs (JS.sub b a)) c.
Proof.
  destruct a as [|x], b as [|y], c as [|z]; simpl; try reflexivity.
  replace (y - x)%Z with (- (x - y))%Z by lia.
  now rewrite Z.abs_opp.
Qed.

Lemma close_iff (t1 t2 : string) :
  JS.lt (timeDifference (timeToMinutes t1) t2) (JS.Num 30) = true
  <-> lessThan30Apart t1 t2.
Proof.
  unfold timeDifference, lessThan30Apart, minutesApart.
  destruct (timeToMinutes t1) as [|m], (timeToMinutes t2) as [|n]; simpl; split.
  all: try discriminate.
  all: try (intros (d & (m' & n' & H1 & H2 & _) & _); discriminate).
  - intros H. apply Z.ltb_lt in H.
    exists (Z.abs (m - n)). split; [ | exact H ].
    exists m, n. repeat split.
  - intros (d & (m' & n' & H1 & H2 & Hd) & Hlt).
    injection H1 as <-. injection H2 as <-. subst d. now apply Z.ltb_lt.
Qed.

Lemma far_not_close (t1 t2 : string) :
  atLeast30Apart t1 t2 ->
  JS.lt (timeDifference (timeToMinutes t1) t2) (JS.Num 30) = false.
Proof.
  intros (d & (m & n & H1 & H2 & Hd) & Hge).
  unfold timeDifference. rewrite H1, H2. simpl. apply Z.ltb_ge. lia.
Qed.

(** The checker reads every clock time, with or without the seconds
    part, as its minutes since midnight. *)
Lemma timeToMinutes_clock (h m : nat) :
  h < 24 -> m < 60 ->
  timeToMinutes (clock h m) = JS.Num (Z.of_nat (60 * h + m))
  /\ timeToMinutes (clock h m ++ ":00") = JS.Num (Z.of_nat (60 * h + m)).
Proof.
  intros Hh Hm.
  assert (Hall : forallb (fun p => readsAs (clock (fst p) (snd p)) (60 * fst p + snd p)
                                   && readsAs (clock (fst p) (snd p) ++ ":00")
                                              (60 * fst p + snd p))
                         clockTimes = true) by (vm_compute; reflexivity).
  rewrite forallb_forall in Hall.
  specialize (Hall (h, m)). cbn [fst snd] in Hall.
  assert (Hin : In (h, m) clockTimes).
  { apply in_prod; apply in_seq; lia. }
  apply Hall, andb_true_iff in Hin. destruct Hin as [H1 H2].
  unfold readsAs in H1, H2.
  destruct (timeToMinutes (clock h m)) as [|z1]; [ discriminate H1 | ].
  destruct (timeToMinutes (clock h m ++ ":00")) as [|z2]; [ discriminate H2 | ].
  apply Z.eqb_eq in H1, H2. now subst.
Qed.

Lemma scanConflicts_existsb (n : JS.number) (times : list string) :
  scanConflicts n times
  = existsb (fun t => JS.lt (timeDifference n t) (JS.Num 30)) times.
Proof.
  induction times as [|t rest IH]; simpl; [ reflexivity | ].
  rewrite IH. now destruct (JS.lt (timeDifference n t) (JS.Num 30)).
Qed.

Lemma create_check_scan (times : list string) (appointmentTime : string) :
  CreateAppointmentForm.checkTimeConflictOn (Store.succeed times) appointmentTime
  = JS.Returns (scanConflicts (timeToMinutes appointmentTime) times).
Proof. destruct times; reflexivity. Qed.

Lemma edit_check_scan (found : list (string * string)) (appointmentTime : string) :
  EditAppointmentForm.checkTimeConflictOn (Store.succeed found) appointmentTime
  = JS.Returns (scanConflicts (timeToMinutes appointmentTime) (map snd found)).
Proof. destruct found; reflexivity. Qed.

Lemma existsb_map_filter {A B : Type} (p : B -> bool) (g : A -> B) (q : A -> bool)
      (l : list A) :
  existsb p (map g (filter q l)) = existsb (fun a => q a && p (g a)) l.
Proof.
  induction l as [|a l IH]; [ reflexivity | ].
  cbn [filter existsb]. destruct (q a); cbn [map existsb andb]; now rewrite IH.
Qed.

(** The create form's check in one equation: some booked row is close. *)
Lemma create_check_eq (rows : list Appointment.t) (doctorId day time : string) :
  CreateAppointmentForm.checkTimeConflict rows doctorId day time
  = JS.Returns
      (existsb (fun a =>
                  (Appointment.doctor_id a =? doctorId)
                  && (Appointment.appointment_date a =? day)
                  && status_in (Appointment.status a) activeStatuses
                  && JS.lt (timeDifference (timeToMinutes time)
                                           (Appointment.appointment_time a))
                           (JS.Num 30))
               rows).
Proof.
  unfold CreateAppointmentForm.checkTimeConflict, CreateAppointmentForm.conflictQuery.
  rewrite create_check_scan, scanConflicts_existsb. f_equal.
  apply existsb_map_filter.
Qed.

(** The edit form's check in one equation. *)
Lemma edit_check_eq (rows : list Appointment.t) (doctorId day time self : string) :
  EditAppointmentForm.checkTimeConflict rows doctorId day time self
  = JS.Returns
      (existsb (fun a =>
                  (Appointment.doctor_id a =? doctorId)
                  && (Appointment.appointment_date a =? day)
                  && status_in (Appointment.status a) activeStatuses
                  && negb (Appointment.id a =? self)
                  && JS.lt (timeDifference (timeToMinutes time)
                                           (Appointment.appointment_time a))
                           (JS.Num 30))
               rows).
Proof.
  unfold EditAppointmentForm.checkTimeConflict, EditAppointmentForm.conflictQuery.
  rewrite edit_check_scan, scanConflicts_existsb, map_map. f_equal.
  apply (existsb_map_filter
           (fun t => JS.lt (timeDifference (timeToMinutes time) t) (JS.Num 30))
           Appointment.appointment_time).
Qed.

Lemma booked_iff (doctorId day : string) (a : Appointment.t) :
  (Appointment.doctor_id a =? doctorId)
  && (Appointment.appointment_date a =? day)
  && status_in (Appointment.status a) activeStatuses = true
  <-> booked doctorId day a.
Proof.
  unfold booked.
  rewrite !andb_true_iff, !String.eqb_eq, status_in_active. tauto.
Qed.

Lemma create_conflict_iff (rows : list Appointment.t) (doctorId day time : string) :
  CreateAppointmentForm.checkTimeConflict rows doctorId day time = JS.Returns true
  <-> exists apt, In apt rows /\ booked doctorId day apt /\
                  lessThan30Apart time (Appointment.appointment_time apt).
Proof.
  rewrite create_check_eq. split.
  - intros H. injection H as H. apply existsb_exists in H.
    destruct H as (a & Hin & Ha). apply andb_true_iff in Ha.
    destruct Ha as [Hb Hc]. exists a.
    split; [ exact Hin | split; [ now apply booked_iff | now apply close_iff ] ].
  - intros (a & Hin & Hb & Hc). f_equal. apply existsb_exists.
    exists a. split; [ exact Hin | ].
    apply andb_true_iff. split; [ now apply booked_iff | now apply close_iff ].
Qed.

Lemma create_check_returns (rows : list Appointment.t) (doctorId day time : string) :
  CreateAppointmentForm.checkTimeConflict rows doctorId day time = JS.Returns true
  \/ CreateAppointmentForm.checkTimeConflict rows doctorId day time = JS.Returns false.
Proof.
  rewrite create_check_eq.
  match goal with |- context [existsb ?p ?l] => destruct (existsb p l) end; auto.
Qed.

Lemma create_no_conflict_iff (rows : list Appointment.t) (doctorId day time : string) :
  CreateAppointmentForm.checkTimeConflict rows doctorId day time = JS.Returns false
  <-> ~ exists apt, In apt rows /\ booked doctorId day apt /\
                    lessThan30Apart time (Appointment.appointment_time apt).
Proof.
  split.
  - intros Hf Hc. apply create_conflict_iff in Hc. rewrite Hc in Hf. discriminate Hf.
  - intros Hn. destruct (create_check_returns rows doctorId day time) as [Ht | Hf];
      [ | exact Hf ].
    exfalso. apply Hn, create_conflict_iff, Ht.
Qed.

Lemma far_excludes_close (t1 t2 : string) :
  atLeast30Apart t1 t2 -> ~ lessThan30Apart t1 t2.
Proof.
  intros (d' & Hd' & Hge) (d & Hd & Hlt).
  destruct Hd as (m & n & H1 & H2 & ->), Hd' as (m' & n' & H1' & H2' & ->).
  rewrite H1 in H1'. rewrite H2 in H2'.
  injection H1' as <-. injection H2' as <-. lia.
Qed.

(* ================================================================== *)
(** ** The worked example *)

(** C3, the example as written: with 09:00 and 09:20 booked for doctor D,
    it is not the case that 09:15 is rejected and 09:35 accepted; 09:35 is
    15 minutes after 09:20 and the check reports a conflict. *)
Lemma example_0935_not_accepted :
  ~ (CreateAppointmentForm.checkTimeConflict exampleDay "D" "2025-03-10" "09:15"
     = JS.Returns true
     /\ CreateAppointmentForm.checkTimeConflict exampleDay "D" "2025-03-10" "09:35"
        = JS.Returns false).
Proof. intros [_ H]. vm_compute in H. discriminate H. Qed.

(** C3, amended.  Whenever doctor D's scheduled or in-consultation
    appointments of a day are at 09:00 and at 09:20, the create form's
    check rejects a third at 09:15, rejects one at 09:35 as well, and
    accepts one at 09:50. *)
Theorem example_0900_0920
        (rows : list Appointment.t) (doctorId day : string) :
  (exists a, In a rows /\ booked doctorId day a /\
             timeToMinutes (Appointment.appointment_time a) = JS.Num 540) ->
  (exists a, In a rows /\ booked doctorId day a /\
             timeToMinutes (Appointment.appointment_time a) = JS.Num 560) ->
  (forall a, In a rows -> booked doctorId day a ->
             timeToMinutes (Appointment.appointment_time a) = JS.Num 540
             \/ timeToMinutes (Appointment.appointment_time a) = JS.Num 560) ->
  CreateAppointmentForm.checkTimeConflict rows doctorId day "09:15" = JS.Returns true
  /\ CreateAppointmentForm.checkTimeConflict rows doctorId day "09:35" = JS.Returns true
  /\ CreateAppointmentForm.checkTimeConflict rows doctorId day "09:50" = JS.Returns false.
Proof.
  intros (a & Hina & Hba & Ha) (b & Hinb & Hbb & Hb) Hall.
  split; [ | split ].
  - apply create_conflict_iff. exists a. split; [ exact Hina | split; [ exact Hba | ] ].
    exists 15%Z. split; [ | lia ]. exists 555%Z, 540%Z. now rewrite Ha.
  - apply create_conflict_iff. exists b. split; [ exact Hinb | split; [ exact Hbb | ] ].
    exists 15%Z. split; [ | lia ]. exists 575%Z, 560%Z. now rewrite Hb.
  - apply create_no_conflict_iff.
    intros (c & Hinc & Hbc & (d & (m & n & Hm & Hn & ->) & Hlt)).
    change (timeToMinutes "09:50") with (JS.Num 590) in Hm.
    injection Hm as <-.
    destruct (Hall c Hinc Hbc) as [Hc | Hc]; rewrite Hc in Hn;
      injection Hn as <-; lia.
Qed.

Lemma example_0900_0920_witness :
  CreateAppointmentForm.checkTimeConflict exampleDay "D" "2025-03-10" "09:15"
  = JS.Returns true
  /\ CreateAppointmentForm.checkTimeConflict exampleDay "D" "2025-03-10" "09:35"
     = JS.Returns true
  /\ CreateAppointmentForm.checkTimeConflict exampleDay "D" "2025-03-10" "09:50"
     = JS.Returns false.
Proof.
  apply (example_0900_0920 exampleDay "D" "2025-03-10").
  - exists (row "a-1" "D" "2025-03-10" "09:00" scheduled).
    split; [ simpl; auto | split; [ | reflexivity ] ].
    unfold booked; simpl; auto.
  - exists (row "a-2" "D" "2025-03-10" "09:20" scheduled).
    split; [ simpl; auto | split; [ | reflexivity ] ].
    unfold booked; simpl; auto.
  - intros a Hin _. simpl in Hin.
    destruct Hin as [<- | [<- | []]]; [ left | right ]; reflexivity.
Defined.

(* ================================================================== *)
(** ** The conflict checker of the edit form *)

Lemma edit_conflict_iff (rows : list Appointment.t)
      (doctorId day time self : string) :
  EditAppointmentForm.checkTimeConflict rows doctorId day time self = JS.Returns true
  <-> exists other, In other rows /\ Appointment.id other <> self /\
                    booked doctorId day other /\
                    lessThan30Apart time (Appointment.appointment_time other).
Proof.
  rewrite edit_check_eq. split.
  - intros H. injection H as H. apply existsb_exists in H.
    destruct H as (a & Hin & Ha).
    apply andb_true_iff in Ha. destruct Ha as [Ha Hc].
    apply andb_true_iff in Ha. destruct Ha as [Hb Hid].
    exists a. split; [ exact Hin | ]. split.
    + apply negb_true_iff, String.eqb_neq in Hid. exact Hid.
    + split; [ now apply booked_iff | now apply close_iff ].
  - intros (a & Hin & Hid & Hb & Hc). f_equal. apply existsb_exists.
    exists a. split; [ exact Hin | ].
    apply andb_true_iff. split; [ | now apply close_iff ].
    apply andb_true_iff. split; [ now apply booked_iff | ].
    now apply negb_true_iff, String.eqb_neq.
Qed.

Lemma edit_check_returns (rows : list Appointment.t)
      (doctorId day time self : string) :
  EditAppointmentForm.checkTimeConflict rows doctorId day time self = JS.Returns true
  \/ EditAppointmentForm.checkTimeConflict rows doctorId day time self = JS.Returns false.
Proof.
  rewrite edit_check_eq.
  match goal with |- context [existsb ?p ?l] => destruct (existsb p l) end; auto.
Qed.

Lemma edit_no_conflict_iff (rows : list Appointment.t)
      (doctorId day time self : string) :
  EditAppointmentForm.checkTimeConflict rows doctorId day time self = JS.Returns false
  <-> ~ exists other, In other rows /\ Appointment.id other <> self /\
                      booked doctorId day other /\
                      lessThan30Apart time (Appointment.appointment_time other).
Proof.
  split.
  - intros Hf Hc. apply edit_conflict_iff in Hc. rewrite Hc in Hf. discriminate Hf.
  - intros Hn. destruct (edit_check_returns rows doctorId day time self) as [Ht | Hf];
      [ | exact Hf ].
    exfalso. apply Hn, edit_conflict_iff, Ht.
Qed.

(** C4.  For every appointment [apt] being edited, on every table and for
    every doctor, date and time entered in the form: the rows the edit
    form's check compares against never include one with [apt]'s id; a
    reported conflict is always with an appointment of another id; the
    outcome is the one obtained on the table with [apt] deleted; and
    re-saving [apt] with its own doctor, date and time is not flagged
    unless another booked appointment is within 30 minutes, which never
    happens for a booked [apt] in a table free of clashes. *)
Theorem edit_check_ignores_self
        (rows : list Appointment.t) (apt : Appointment.t)
        (doctorId day time : string) :
  let self := Appointment.id apt in
  let others := filter (fun a => negb (Appointment.id a =? self)) rows in
  (forall found,
      Store.data (EditAppointmentForm.conflictQuery rows doctorId day self) = Some found ->
      forall entry, In entry found -> fst entry <> self)
  /\ (EditAppointmentForm.checkTimeConflict rows doctorId day time self = JS.Returns true
      <-> exists other, In other rows /\ Appointment.id other <> self /\
                        booked doctorId day other /\
                        lessThan30Apart time (Appointment.appointment_time other))
  /\ EditAppointmentForm.checkTimeConflict rows doctorId day time self
     = EditAppointmentForm.checkTimeConflict others doctorId day time self
  /\ ((forall other, In other rows -> Appointment.id other <> self ->
                     booked (Appointment.doctor_id apt)
                            (Appointment.appointment_date apt) other ->
                     ~ lessThan30Apart (Appointment.appointment_time apt)
                                       (Appointment.appointment_time other))
      -> EditAppointmentForm.checkTimeConflict
           rows (Appointment.doctor_id apt) (Appointment.appointment_date apt)
           (Appointment.appointment_time apt) self
         = JS.Returns false)
  /\ (In apt rows -> Clinic.active (Appointment.status apt) = true ->
      ~ Clinic.clash Clinic.active rows ->
      EditAppointmentForm.checkTimeConflict
        rows (Appointment.doctor_id apt) (Appointment.appointment_date apt)
        (Appointment.appointment_time apt) self
      = JS.Returns false).
Proof.
  intros self others. split; [ | split; [ | split; [ | split ] ] ].
  - intros found Hfound entry Hin.
    unfold EditAppointmentForm.conflictQuery in Hfound. simpl in Hfound.
    injection Hfound as <-.
    apply in_map_iff in Hin. destruct Hin as (a & <- & Ha).
    apply filter_In in Ha. destruct Ha as [_ Ha].
    apply andb_true_iff in Ha. destruct Ha as [_ Hid].
    apply negb_true_iff, String.eqb_neq in Hid. exact Hid.
  - apply edit_conflict_iff.
  - rewrite !edit_check_eq. f_equal. unfold others.
    induction rows as [|a rows IH]; [ reflexivity | ].
    cbn [filter existsb].
    destruct (Appointment.id a =? self) eqn:E; cbn [negb existsb].
    + rewrite andb_false_r. cbn [andb orb]. exact IH.
    + rewrite IH, E. reflexivity.
  - intros Hfar. apply edit_no_conflict_iff.
    intros (other & Hin & Hid & Hb & Hc). exact (Hfar other Hin Hid Hb Hc).
  - intros Hapt Hact Hno. apply edit_no_conflict_iff.
    intros (other & Hin & Hid & (Hd & Hday & Hs) & Hc). apply Hno.
    exists apt, other. repeat split; auto.
    + now apply status_in_active.
    + now apply close_iff.
Qed.

Lemma edit_check_ignores_self_witness :
  EditAppointmentForm.checkTimeConflict
    [ row "a-1" "D" "2025-03-10" "09:00" scheduled;
      row "a-2" "D" "2025-03-10" "09:40" scheduled ]
    "D" "2025-03-10" "09:00" "a-1"
  = JS.Returns false.
Proof.
  refine (proj1 (proj2 (proj2 (proj2
            (edit_check_ignores_self
               [ row "a-1" "D" "2025-03-10" "09:00" scheduled;
                 row "a-2" "D" "2025-03-10" "09:40" scheduled ]
               (row "a-1" "D" "2025-03-10" "09:00" scheduled)
               "D" "2025-03-10" "09:00")))) _).
  intros other Hin Hid _. simpl in Hin.
  destruct Hin as [<- | [<- | []]].
  - exfalso. apply Hid. reflexivity.
  - intros (d & (m & n & Hm & Hn & ->) & Hlt).
    vm_compute in Hm, Hn. injection Hm as <-. injection Hn as <-. lia.
Defined.

(* ================================================================== *)
(** ** Masked phone numbers *)

Lemma substring_split (s : string) (k : nat) :
  k <= String.length s ->
  s = (String.substring 0 k s ++ String.substring k (String.length s - k) s)%string
  /\ String.length (String.substring k (String.length s - k) s) = String.length s - k.
Proof.
  revert k. induction s as [|c s IH]; intros k Hk.
  - simpl in Hk. assert (k = 0) by lia. subst k. split; reflexivity.
  - destruct k as [|k].
    + cbn [String.substring String.append String.length Nat.sub].
      destruct (IH 0 (Nat.le_0_l _)) as [Heq Hlen].
      rewrite Nat.sub_0_r in Heq, Hlen.
      assert (Hfull : String.substring 0 (String.length s) s = s).
      { clear. induction s as [|c s IH]; [ reflexivity | ].
        cbn [String.length String.substring]. now rewrite IH. }
      rewrite Hfull. split; reflexivity.
    + cbn [String.length] in Hk. apply le_S_n in Hk.
      destruct (IH k Hk) as [Heq Hlen].
      cbn [String.substring String.append String.length Nat.sub].
      split; [ now rewrite <- Heq | exact Hlen ].
Qed.

Lemma slice_last4 (s : string) :
  4 <= String.length s ->
  JS.slice (-4) s = String.substring (String.length s - 4) 4 s.
Proof.
  intros H. unfold JS.slice. cbn [Z.ltb Z.compare].
  rewrite Z.max_l by lia.
  f_equal; lia.
Qed.

(** C9.  On every card of the doctor's "Next Patients" queue, for the
    patient's phone string: when it has at least 4 characters the card
    prints "***-***-" followed by exactly its last 4 characters; when it
    is empty or shorter than 4 characters the card prints it unchanged. *)
Theorem maskPhone_spec (appointments : list Appointment.t)
        (c : DoctorDashboard.card) (p : Patient.t) :
  In c (DoctorDashboard.nextPatients (DoctorDashboard.organizeAppointments appointments)) ->
  Appointment.patient (DoctorDashboard.card_appointment c) = Some p ->
  DoctorDashboard.card_phone c = DoctorDashboard.maskPhone (Patient.phone p)
  /\ (4 <= String.length (Patient.phone p) ->
      exists hidden last4,
        Patient.phone p = (hidden ++ last4)%string
        /\ String.length last4 = 4
        /\ DoctorDashboard.maskPhone (Patient.phone p) = ("***-***-" ++ last4)%string)
  /\ (String.length (Patient.phone p) < 4 ->
      DoctorDashboard.maskPhone (Patient.phone p) = Patient.phone p).
Proof.
  intros Hin Hp. split; [ | split ].
  - unfold DoctorDashboard.nextPatients in Hin. apply in_map_iff in Hin.
    destruct Hin as (a & <- & _). cbn [DoctorDashboard.card_phone].
    cbn [DoctorDashboard.card_appointment] in Hp.
    unfold DoctorDashboard.shownPhone. now rewrite Hp.
  - intros Hlen. set (phone := Patient.phone p) in *.
    exists (String.substring 0 (String.length phone - 4) phone),
           (String.substring (String.length phone - 4) 4 phone).
    destruct (substring_split phone (String.length phone - 4)) as [Heq Hl]; [ lia | ].
    replace (String.length phone - (String.length phone - 4)) with 4 in Heq, Hl by lia.
    split; [ exact Heq | split; [ exact Hl | ] ].
    unfold DoctorDashboard.maskPhone.
    assert (Hne : (phone =? "") = false).
    { apply String.eqb_neq. intros E. rewrite E in Hlen. simpl in Hlen. lia. }
    assert (Hge : (String.length phone <? 4)%nat = false) by (apply Nat.ltb_ge; lia).
    rewrite Hne, Hge. cbn [orb]. now rewrite slice_last4.
  - intros Hlen. unfold DoctorDashboard.maskPhone.
    assert (Hlt : (String.length (Patient.phone p) <? 4)%nat = true)
      by (apply Nat.ltb_lt; lia).
    rewrite Hlt, orb_true_r. reflexivity.
Qed.

(* ================================================================== *)
(** ** The store's ordering *)

Lemma ascii_compare_lt_trans (a b c : ascii) :
  Ascii.compare a b = Lt -> Ascii.compare b c = Lt -> Ascii.compare a c = Lt.
Proof.
  unfold Ascii.compare. rewrite !N.compare_lt_iff. apply N.lt_trans.
Qed.

Lemma string_compare_lt_trans (s1 s2 s3 : string) :
  String.compare s1 s2 = Lt -> String.compare s2 s3 = Lt -> String.compare s1 s3 = Lt.
Proof.
  revert s2 s3. induction s1 as [|a s1 IH]; intros [|b s2] [|c s3]; simpl;
    try discriminate; try reflexivity.
  destruct (Ascii.compare a b) eqn:Eab; try discriminate;
    destruct (Ascii.compare b c) eqn:Ebc; try discriminate; intros H12 H23.
  - apply Ascii.compare_eq_iff in Eab, Ebc. subst b c.
    assert (Haa : Ascii.compare a a = Eq) by (unfold Ascii.compare; apply N.compare_refl).
    rewrite Haa. now apply IH with s2.
  - apply Ascii.compare_eq_iff in Eab. subst b. now rewrite Ebc.
  - apply Ascii.compare_eq_iff in Ebc. subst c. now rewrite Eab.
  - now rewrite (ascii_compare_lt_trans a b c Eab Ebc).
Qed.

Lemma string_leb_trans (s1 s2 s3 : string) :
  String.leb s1 s2 = true -> String.leb s2 s3 = true -> String.leb s1 s3 = true.
Proof.
  unfold String.leb.
  destruct (String.compare s1 s2) eqn:E12; try discriminate;
    destruct (String.compare s2 s3) eqn:E23; try discriminate; intros _ _.
  - apply String.compare_eq_iff in E12. subst s2. now rewrite E23.
  - apply String.compare_eq_iff in E12. subst s2. now rewrite E23.
  - apply String.compare_eq_iff in E23. subst s3. now rewrite E12.
  - now rewrite (string_compare_lt_trans s1 s2 s3 E12 E23).
Qed.

Lemma digit_compare (x y : nat) :
  x < 10 -> y < 10 ->
  Ascii.compare (ascii_of_nat (48 + x)) (ascii_of_nat (48 + y)) = Nat.compare x y.
Proof.
  intros Hx Hy.
  do 10 (destruct x as [|x];
         [ do 10 (destruct y as [|y]; [ vm_compute; reflexivity | ]); exfalso; lia | ]).
  exfalso; lia.
Qed.

Lemma twoDigits_compare (a b : nat) (s t : string) :
  a < 100 -> b < 100 ->
  String.compare (twoDigits a ++ s) (twoDigits b ++ t)
  = match Nat.compare a b with
    | Eq => String.compare s t
    | c => c
    end.
Proof.
  intros Ha Hb.
  change (twoDigits a ++ s)%string
    with (String (ascii_of_nat (48 + a / 10)) (String (ascii_of_nat (48 + a mod 10)) s)).
  change (twoDigits b ++ t)%string
    with (String (ascii_of_nat (48 + b / 10)) (String (ascii_of_nat (48 + b mod 10)) t)).
  cbn [String.compare].
  pose proof (Nat.div_mod_eq a 10) as Ea. pose proof (Nat.div_mod_eq b 10) as Eb.
  pose proof (Nat.mod_upper_bound a 10 ltac:(lia)) as Hma.
  pose proof (Nat.mod_upper_bound b 10 ltac:(lia)) as Hmb.
  assert (Hda : a / 10 < 10) by (apply Nat.Div0.div_lt_upper_bound; lia).
  assert (Hdb : b / 10 < 10) by (apply Nat.Div0.div_lt_upper_bound; lia).
  rewrite !digit_compare by assumption.
  destruct (Nat.compare_spec (a / 10) (b / 10)),
           (Nat.compare_spec (a mod 10) (b mod 10)),
           (Nat.compare_spec a b); try reflexivity; exfalso; lia.
Qed.

Lemma clock_compare (h1 m1 h2 m2 : nat) (s t : string) :
  h1 < 24 -> m1 < 60 -> h2 < 24 -> m2 < 60 ->
  String.compare (clock h1 m1 ++ s) (clock h2 m2 ++ t)
  = match Nat.compare h1 h2 with
    | Eq => match Nat.compare m1 m2 with
            | Eq => String.compare s t
            | c => c
            end
    | c => c
    end.
Proof.
  intros Hh1 Hm1 Hh2 Hm2.
  change (clock h1 m1 ++ s)%string
    with (twoDigits h1 ++ String ":" (twoDigits m1 ++ s))%string.
  change (clock h2 m2 ++ t)%string
    with (twoDigits h2 ++ String ":" (twoDigits m2 ++ t))%string.
  rewrite twoDigits_compare by lia.
  destruct (Nat.compare h1 h2); try reflexivity.
  change (String.compare (String ":" (twoDigits m1 ++ s)) (String ":" (twoDigits m2 ++ t)))
    with (String.compare (twoDigits m1 ++ s) (twoDigits m2 ++ t)).
  now rewrite twoDigits_compare by lia.
Qed.

(** On clock times the store's ascending order is chronological, whatever
    follows the minutes. *)
Lemma clock_order (h1 m1 h2 m2 : nat) (s t : string) :
  h1 < 24 -> m1 < 60 -> h2 < 24 -> m2 < 60 ->
  (60 * h1 + m1 < 60 * h2 + m2 -> String.leb (clock h1 m1 ++ s) (clock h2 m2 ++ t) = true)
  /\ (60 * h2 + m2 < 60 * h1 + m1 ->
      String.leb (clock h1 m1 ++ s) (clock h2 m2 ++ t) = false).
Proof.
  intros Hh1 Hm1 Hh2 Hm2. unfold String.leb. rewrite clock_compare by assumption.
  destruct (Nat.compare_spec h1 h2), (Nat.compare_spec m1 m2);
    split; intros Hlt; try reflexivity; exfalso; lia.
Qed.

Lemma earlierOrSame_trans (a b c : Appointment.t) :
  earlierOrSame a b -> earlierOrSame b c -> earlierOrSame a c.
Proof. unfold earlierOrSame, Store.by_time. apply string_leb_trans. Qed.

Lemma earlierOrSame_total (a b : Appointment.t) :
  earlierOrSame a b \/ earlierOrSame b a.
Proof. unfold earlierOrSame, Store.by_time. apply String.leb_total. Qed.

Section Ordering.

Context {A : Type} (le : A -> A -> bool).

Lemma insert_sorted_perm (x : A) (l : list A) :
  Permutation (Store.insert_sorted le x l) (x :: l).
Proof.
  induction l as [|y l IH]; simpl; [ apply Permutation_refl | ].
  destruct (le x y); [ apply Permutation_refl | ].
  apply perm_trans with (y :: x :: l); [ now apply perm_skip | apply perm_swap ].
Qed.

Lemma order_perm (l : list A) : Permutation (Store.order le l) l.
Proof.
  induction l as [|x l IH]; simpl; [ apply perm_nil | ].
  apply perm_trans with (x :: Store.order le l);
    [ apply insert_sorted_perm | now apply perm_skip ].
Qed.

Lemma order_In (x : A) (l : list A) : In x (Store.order le l) <-> In x l.
Proof.
  split; apply Permutation_in; [ | apply Permutation_sym ]; apply order_perm.
Qed.

Hypothesis le_total : forall a b, le a b = true \/ le b a = true.
Hypothesis le_trans : forall a b c, le a b = true -> le b c = true -> le a c = true.

Lemma insert_sorted_sorted (x : A) (l : list A) :
  StronglySorted (fun a b => le a b = true) l ->
  StronglySorted (fun a b => le a b = true) (Store.insert_sorted le x l).
Proof.
  induction 1 as [|y l Hs IH Hall]; simpl.
  - constructor; constructor.
  - destruct (le x y) eqn:E.
    + constructor; [ now constructor | ].
      constructor; [ exact E | ].
      eapply Forall_impl; [ | exact Hall ]. intros b. now apply le_trans.
    + constructor; [ exact IH | ].
      assert (Hyx : le y x = true) by (destruct (le_total x y); congruence).
      eapply Permutation_Forall; [ apply Permutation_sym, insert_sorted_perm | ].
      now constructor.
Qed.

Lemma order_sorted (l : list A) :
  StronglySorted (fun a b => le a b = true) (Store.order le l).
Proof.
  induction l as [|x l IH]; simpl; [ constructor | now apply insert_sorted_sorted ].
Qed.

End Ordering.

Lemma StronglySorted_filter {A : Type} (R : A -> A -> Prop) (p : A -> bool) (l : list A) :
  StronglySorted R l -> StronglySorted R (filter p l).
Proof.
  induction 1 as [|x l Hs IH Hall]; simpl; [ constructor | ].
  destruct (p x); [ | exact IH ].
  constructor; [ exact IH | ].
  apply Forall_forall. intros y Hy. apply filter_In in Hy.
  rewrite Forall_forall in Hall. now apply Hall.
Qed.

Lemma StronglySorted_app {A : Type} (R : A -> A -> Prop) (l1 l2 : list A) :
  StronglySorted R (l1 ++ l2) ->
  StronglySorted R l1 /\ StronglySorted R l2
  /\ forall a b, In a l1 -> In b l2 -> R a b.
Proof.
  induction l1 as [|x l1 IH]; simpl; intros H.
  - repeat split; [ constructor | exact H | intros a b [] ].
  - inversion H as [|? ? Hs Hall]; subst.
    destruct (IH Hs) as (H1 & H2 & H12).
    rewrite Forall_forall in Hall.
    repeat split.
    + constructor; [ exact H1 | ].
      apply Forall_forall. intros y Hy. apply Hall, in_or_app. now left.
    + exact H2.
    + intros a b [<- | Ha] Hb; [ apply Hall, in_or_app; now right | now apply H12 ].
Qed.

Lemma dayList_eq (patients : list Patient.t) (rows : list Appointment.t)
      (doctor_id day : string) :
  DoctorDashboard.dayList patients rows doctor_id day
  = Store.order Store.by_time
      (map (Store.join_patient patients)
         (filter (fun a =>
                    (Appointment.doctor_id a =? doctor_id)
                    && (Appointment.appointment_date a =? day)
                    && status_in (Appointment.status a) DoctorDashboard.listedStatuses)
                 rows)).
Proof. reflexivity. Qed.

(** For a signed-in doctor the [appointments] state after a fetch is the
    day's list, whatever it was before. *)
Lemma fetchAppointments_signed_in (d : string) (patients : list Patient.t)
      (rows : list Appointment.t) (searchDate : string)
      (appointments : list Appointment.t) :
  d <> "" ->
  DoctorDashboard.fetchAppointments (Some d) patients rows searchDate appointments
  = DoctorDashboard.dayList patients rows d searchDate.
Proof.
  intros Hd. unfold DoctorDashboard.fetchAppointments.
  apply String.eqb_neq in Hd. now rewrite Hd.
Qed.

Lemma dayList_sorted (patients : list Patient.t) (rows : list Appointment.t)
      (doctor_id day : string) :
  StronglySorted earlierOrSame (DoctorDashboard.dayList patients rows doctor_id day).
Proof.
  rewrite dayList_eq.
  apply (order_sorted Store.by_time).
  - intros a b. apply earlierOrSame_total.
  - intros a b c. apply earlierOrSame_trans.
Qed.

(** What the day's list holds: the doctor's rows of the day in one of the
    three listed statuses, each with its patient embedded. *)
Lemma dayList_In (patients : list Patient.t) (rows : list Appointment.t)
      (doctor_id day : string) (a : Appointment.t) :
  In a (DoctorDashboard.dayList patients rows doctor_id day)
  <-> exists r, In r rows /\ a = Store.join_patient patients r
                /\ Appointment.doctor_id r = doctor_id
                /\ Appointment.appointment_date r = day
                /\ status_in (Appointment.status r) DoctorDashboard.listedStatuses = true.
Proof.
  rewrite dayList_eq, order_In, in_map_iff. split.
  - intros (r & <- & Hr). apply filter_In in Hr. destruct Hr as [Hin Hr].
    rewrite !andb_true_iff, !String.eqb_eq in Hr.
    exists r. tauto.
  - intros (r & Hin & -> & Hd & Hday & Hs). exists r. split; [ reflexivity | ].
    apply filter_In. split; [ exact Hin | ].
    rewrite !andb_true_iff, !String.eqb_eq. tauto.
Qed.

(* ================================================================== *)
(** ** The doctor's queue *)

Lemma organize_next (appointments : list Appointment.t) :
  DoctorDashboard.nextAppointments (DoctorDashboard.organizeAppointments appointments)
  = firstn 5 (filter isScheduled appointments).
Proof. reflexivity. Qed.

Lemma organize_current (appointments : list Appointment.t) :
  DoctorDashboard.currentAppointment (DoctorDashboard.organizeAppointments appointments)
  = find isInConsultation appointments.
Proof. reflexivity. Qed.

Lemma In_firstn {A : Type} (n : nat) (l : list A) (x : A) :
  In x (firstn n l) -> In x l.
Proof.
  intros H. rewrite <- (firstn_skipn n l). apply in_or_app. now left.
Qed.

Lemma find_none_iff {A : Type} (p : A -> bool) (l : list A) :
  find p l = None <-> forall x, In x l -> p x = false.
Proof.
  split; [ apply find_none | ].
  induction l as [|x l IH]; simpl; intros H; [ reflexivity | ].
  rewrite (H x (or_introl eq_refl)). apply IH. intros y Hy. apply H. now right.
Qed.

(** C10.  For every table, doctor and date: of the fetched day's list,
    which is in ascending order of time, the "Next Patients" section holds
    the first five scheduled appointments and no more; the "Waiting"
    figure is the number of cards, at most 5, and exactly 5 when more than
    five appointments are scheduled; the appointments shown are in
    ascending order of time and every scheduled appointment left out is
    no earlier than each of those shown. *)
Theorem next_patients_first_five
        (patients : list Patient.t) (rows : list Appointment.t)
        (doctor_id day : string) :
  let appointments := DoctorDashboard.dayList patients rows doctor_id day in
  let q := DoctorDashboard.organizeAppointments appointments in
  let waitingList := filter isScheduled appointments in
  StronglySorted earlierOrSame appointments
  /\ DoctorDashboard.nextAppointments q = firstn 5 waitingList
  /\ map DoctorDashboard.card_appointment (DoctorDashboard.nextPatients q)
     = DoctorDashboard.nextAppointments q
  /\ DoctorDashboard.waiting q = Nat.min 5 (length waitingList)
  /\ DoctorDashboard.waiting q <= 5
  /\ (5 < length waitingList -> DoctorDashboard.waiting q = 5)
  /\ StronglySorted earlierOrSame (DoctorDashboard.nextAppointments q)
  /\ (forall shown left_out,
         In shown (DoctorDashboard.nextAppointments q) ->
         In left_out (skipn 5 waitingList) ->
         earlierOrSame shown left_out)
  /\ (forall a, In a waitingList <->
                exists r, In r rows /\ a = Store.join_patient patients r
                          /\ Appointment.doctor_id r = doctor_id
                          /\ Appointment.appointment_date r = day
                          /\ Appointment.status r = scheduled).
Proof.
  intros appointments q waitingList.
  assert (Hsorted : StronglySorted earlierOrSame appointments)
    by apply dayList_sorted.
  assert (Hw : StronglySorted earlierOrSame waitingList)
    by now apply StronglySorted_filter.
  assert (Hsplit : StronglySorted earlierOrSame
                     (firstn 5 waitingList ++ skipn 5 waitingList))
    by now rewrite firstn_skipn.
  apply StronglySorted_app in Hsplit. destruct Hsplit as (Hfirst & _ & Hcross).
  assert (Hlen : DoctorDashboard.waiting q = Nat.min 5 (length waitingList)).
  { unfold DoctorDashboard.waiting, q. rewrite organize_next. apply length_firstn. }
  split; [ exact Hsorted | ].
  split; [ reflexivity | ].
  split.
  { unfold DoctorDashboard.nextPatients. rewrite map_map. cbn [DoctorDashboard.card_appointment].
    apply map_id. }
  split; [ exact Hlen | ].
  split; [ rewrite Hlen; apply Nat.le_min_l | ].
  split; [ intros H; rewrite Hlen; apply Nat.min_l; lia | ].
  split; [ exact Hfirst | ].
  split; [ exact Hcross | ].
  intros a. unfold waitingList. rewrite filter_In. unfold appointments.
  rewrite dayList_In. unfold isScheduled. rewrite status_eqb_eq. split.
  - intros [(r & Hin & -> & Hd & Hday & _) Hs]. exists r.
    repeat split; assumption.
  - intros (r & Hin & -> & Hd & Hday & Hs). split; [ | exact Hs ].
    exists r. repeat split; try assumption.
    rewrite Hs. reflexivity.
Qed.

(** C5, as written: on the day with 09:00 and 10:00 scheduled and nobody
    in consultation, "Start Consultation" is also enabled on the 10:00
    appointment, which is not the oldest scheduled one. *)
Lemma start_enabled_beyond_oldest :
  ~ startOnlyOnOldest (DoctorDashboard.dayList [] twoWaiting "D" "2025-03-10").
Proof.
  intros H.
  specialize (H (DoctorDashboard.mkCard (row "a-2" "D" "2025-03-10" "10:00" scheduled)
                                        "" false)).
  assert (Hin : In (DoctorDashboard.mkCard
                      (row "a-2" "D" "2025-03-10" "10:00" scheduled) "" false)
                   (DoctorDashboard.nextPatients
                      (DoctorDashboard.organizeAppointments
                         (DoctorDashboard.dayList [] twoWaiting "D" "2025-03-10")))).
  { vm_compute. right. left. reflexivity. }
  specialize (H Hin eq_refl). vm_compute in H. discriminate H.
Qed.

(** C5, amended.  For every fetched day's list: the "Next Patients" cards
    are those of the first five scheduled appointments; "Start
    Consultation" is enabled on every one of these cards while no
    appointment of the list is in consultation, and disabled on every one
    of them once some appointment of the list is in consultation. *)
Theorem start_enabled_spec (appointments : list Appointment.t) :
  let q := DoctorDashboard.organizeAppointments appointments in
  map DoctorDashboard.card_appointment (DoctorDashboard.nextPatients q)
  = firstn 5 (filter isScheduled appointments)
  /\ ((forall a, In a appointments -> Appointment.status a <> in_consultation) ->
      forall c, In c (DoctorDashboard.nextPatients q) ->
                DoctorDashboard.card_start_disabled c = false)
  /\ ((exists a, In a appointments /\ Appointment.status a = in_consultation) ->
      forall c, In c (DoctorDashboard.nextPatients q) ->
                DoctorDashboard.card_start_disabled c = true).
Proof.
  intros q. split; [ | split ].
  - unfold DoctorDashboard.nextPatients. rewrite map_map.
    cbn [DoctorDashboard.card_appointment]. rewrite map_id. reflexivity.
  - intros Hnone c Hc.
    unfold DoctorDashboard.nextPatients in Hc. apply in_map_iff in Hc.
    destruct Hc as (a & <- & _). cbn [DoctorDashboard.card_start_disabled].
    unfold DoctorDashboard.startDisabled, q. rewrite organize_current.
    assert (Hfind : find isInConsultation appointments = None).
    { apply find_none_iff. intros x Hx. unfold isInConsultation.
      destruct (status_eqb (Appointment.status x) in_consultation) eqn:E;
        [ | reflexivity ].
      apply status_eqb_eq in E. now destruct (Hnone x Hx). }
    now rewrite Hfind.
  - intros (b & Hb & Hs) c Hc.
    unfold DoctorDashboard.nextPatients in Hc. apply in_map_iff in Hc.
    destruct Hc as (a & <- & _). cbn [DoctorDashboard.card_start_disabled].
    unfold DoctorDashboard.startDisabled, q. rewrite organize_current.
    destruct (find isInConsultation appointments) eqn:E; [ reflexivity | ].
    exfalso. rewrite find_none_iff in E. specialize (E b Hb).
    unfold isInConsultation in E. rewrite Hs in E. discriminate E.
Qed.

Lemma next_patients_first_five_witness :
  DoctorDashboard.waiting
    (DoctorDashboard.organizeAppointments
       (DoctorDashboard.dayList [] busyDay "D" "2025-03-11")) = 5
  /\ map Appointment.id
       (DoctorDashboard.nextAppointments
          (DoctorDashboard.organizeAppointments
             (DoctorDashboard.dayList [] busyDay "D" "2025-03-11")))
     = ["b-1"; "b-2"; "b-3"; "b-4"; "b-5"].
Proof.
  split; [ | reflexivity ].
  refine (proj1 (proj2 (proj2 (proj2 (proj2 (proj2
            (next_patients_first_five [] busyDay "D" "2025-03-11")))))) _).
  vm_compute. lia.
Defined.

Lemma start_enabled_spec_witness :
  Forall (fun c => DoctorDashboard.card_start_disabled c = false)
         (DoctorDashboard.nextPatients
            (DoctorDashboard.organizeAppointments
               (DoctorDashboard.dayList [] twoWaiting "D" "2025-03-10"))).
Proof.
  apply Forall_forall.
  refine (proj1 (proj2
            (start_enabled_spec (DoctorDashboard.dayList [] twoWaiting "D" "2025-03-10"))) _).
  intros a Hin. vm_compute in Hin.
  destruct Hin as [<- | [<- | []]]; discriminate.
Defined.

Lemma maskPhone_spec_witness :
  exists hidden last4,
    "5551234567" = (hidden ++ last4)%string
    /\ String.length last4 = 4
    /\ DoctorDashboard.maskPhone "5551234567" = ("***-***-" ++ last4)%string.
Proof.
  refine (proj1 (proj2
            (maskPhone_spec
               [loadedAppointment]
               (DoctorDashboard.mkCard loadedAppointment "***-***-4567" false)
               examplePatient _ _)) _).
  - vm_compute. left. reflexivity.
  - reflexivity.
  - vm_compute. lia.
Defined.

(* ================================================================== *)
(** ** The reschedule webhook *)

Lemma ok_iff (status : nat) :
  AppointmentDetailsModal.ok status = true <-> 200 <= status <= 299.
Proof.
  unfold AppointmentDetailsModal.ok.
  rewrite andb_true_iff, !Nat.leb_le. tauto.
Qed.

(** C8.  For every appointment whose patient and doctor are loaded and
    every behaviour of the network: the handler sends exactly one request,
    a POST to the fixed endpoint whose JSON body has exactly the five
    members doctor_name, patient_first_name, patient_last_name,
    appointment_date and appointment_time, with the appointment's values
    and the empty string for a missing last name; and the click is
    reported as a failure exactly when the request is rejected or answered
    with a status outside 200..299. *)
Theorem reschedule_request_spec
        (appointment : Appointment.t) (p : Patient.t) (d : Doctor.t)
        (network : AppointmentDetailsModal.request -> AppointmentDetailsModal.fetched) :
  Appointment.patient appointment = Some p ->
  Appointment.doctor appointment = Some d ->
  let r := AppointmentDetailsModal.handleRequestReschedule appointment network in
  exists req,
    AppointmentDetailsModal.sent r = [req]
    /\ AppointmentDetailsModal.method req = "POST"
    /\ AppointmentDetailsModal.url req = "https://n8n.maxgrow.pro/webhook/emergency"
    /\ map fst (AppointmentDetailsModal.body req) = payloadMembers
    /\ map snd (AppointmentDetailsModal.body req)
       = [ Doctor.full_name d;
           Patient.first_name p;
           match Patient.last_name p with Some l => l | None => "" end;
           Appointment.appointment_date appointment;
           Appointment.appointment_time appointment ]
    /\ (reportedFailure r <->
        (exists reason, network req = AppointmentDetailsModal.Rejected reason)
        \/ (exists status, network req = AppointmentDetailsModal.Response status
                           /\ ~ (200 <= status <= 299)))
    /\ (AppointmentDetailsModal.shown r
        = toast_success "Reschedule request sent to patient via Telegram"
        <-> exists status, network req = AppointmentDetailsModal.Response status
                           /\ 200 <= status <= 299).
Proof.
  intros Hp Hd r.
  unfold r, AppointmentDetailsModal.handleRequestReschedule. rewrite Hp, Hd.
  set (req := AppointmentDetailsModal.mkRequest _ _ _ _).
  exists req. unfold reportedFailure.
  destruct (network req) as [status | reason] eqn:Enet.
  - destruct (AppointmentDetailsModal.ok status) eqn:Eok;
      cbn [AppointmentDetailsModal.sent AppointmentDetailsModal.shown].
    + apply ok_iff in Eok.
      repeat split; try reflexivity.
      * intros (m & Hm). discriminate Hm.
      * intros [(reason & H) | (st & H & Hn)]; [ discriminate H | ].
        injection H as <-. contradiction.
      * intros _. exists status. split; [ reflexivity | exact Eok ].
    + assert (Hnok : ~ (200 <= status <= 299)).
      { intros H. apply ok_iff in H. congruence. }
      repeat split; try reflexivity.
      * intros _. right. exists status. split; [ reflexivity | exact Hnok ].
      * intros _. eexists. reflexivity.
      * intros H. discriminate H.
      * intros (st & H & Hin). injection H as <-. contradiction.
  - cbn [AppointmentDetailsModal.sent AppointmentDetailsModal.shown].
    repeat split; try reflexivity.
    + intros _. left. exists reason. reflexivity.
    + intros _. eexists. reflexivity.
    + intros H. discriminate H.
    + intros (st & H & _). discriminate H.
Qed.

Lemma reschedule_request_spec_witness :
  exists req,
    AppointmentDetailsModal.sent
      (AppointmentDetailsModal.handleRequestReschedule
         loadedAppointment (fun _ => AppointmentDetailsModal.Response 500)) = [req]
    /\ AppointmentDetailsModal.body req
       = [ ("doctor_name", "Dr. Costa"); ("patient_first_name", "Ana");
           ("patient_last_name", "Silva"); ("appointment_date", "2025-03-10");
           ("appointment_time", "09:00") ]
    /\ reportedFailure
         (AppointmentDetailsModal.handleRequestReschedule
            loadedAppointment (fun _ => AppointmentDetailsModal.Response 500)).
Proof.
  destruct (reschedule_request_spec
              loadedAppointment examplePatient exampleDoctor
              (fun _ => AppointmentDetailsModal.Response 500)
              eq_refl eq_refl)
    as (req & Hsent & _ & _ & _ & _ & Hfail & _).
  exists req. split; [ exact Hsent | ]. split.
  - vm_compute in Hsent. injection Hsent as <-. reflexivity.
  - apply Hfail. right. exists 500. split; [ reflexivity | lia ].
Defined.

(* ================================================================== *)
(** ** Status updates *)

Lemma update_status_map (now key : string) (s : AppointmentStatus)
      (rows : list Appointment.t) :
  Store.update now (Appointment.with_status s) key rows = map (restamped now key s) rows.
Proof. reflexivity. Qed.

Lemma restamped_id (now key : string) (s : AppointmentStatus) (a : Appointment.t) :
  Appointment.id (restamped now key s a) = Appointment.id a.
Proof. unfold restamped. now destruct (Appointment.id a =? key). Qed.

Lemma restamped_doctor_id (now key : string) (s : AppointmentStatus) (a : Appointment.t) :
  Appointment.doctor_id (restamped now key s a) = Appointment.doctor_id a.
Proof. unfold restamped. now destruct (Appointment.id a =? key). Qed.

Lemma restamped_date (now key : string) (s : AppointmentStatus) (a : Appointment.t) :
  Appointment.appointment_date (restamped now key s a) = Appointment.appointment_date a.
Proof. unfold restamped. now destruct (Appointment.id a =? key). Qed.

Lemma restamped_time (now key : string) (s : AppointmentStatus) (a : Appointment.t) :
  Appointment.appointment_time (restamped now key s a) = Appointment.appointment_time a.
Proof. unfold restamped. now destruct (Appointment.id a =? key). Qed.

Lemma restamped_patient (now key : string) (s : AppointmentStatus) (a : Appointment.t) :
  Appointment.patient (restamped now key s a) = Appointment.patient a.
Proof. unfold restamped. now destruct (Appointment.id a =? key). Qed.

Lemma restamped_doctor (now key : string) (s : AppointmentStatus) (a : Appointment.t) :
  Appointment.doctor (restamped now key s a) = Appointment.doctor a.
Proof. unfold restamped. now destruct (Appointment.id a =? key). Qed.

Lemma restamped_hit (now key : string) (s : AppointmentStatus) (a : Appointment.t) :
  Appointment.id a = key ->
  restamped now key s a = Appointment.with_updated_at now (Appointment.with_status s a).
Proof. intros H. unfold restamped. apply String.eqb_eq in H. now rewrite H. Qed.

Lemma restamped_miss (now key : string) (s : AppointmentStatus) (a : Appointment.t) :
  Appointment.id a <> key -> restamped now key s a = a.
Proof. intros H. unfold restamped. apply String.eqb_neq in H. now rewrite H. Qed.

Lemma restamped_join_patient (now key : string) (s : AppointmentStatus)
      (patients : list Patient.t) (a : Appointment.t) :
  Store.join_patient patients (restamped now key s a)
  = restamped now key s (Store.join_patient patients a).
Proof.
  unfold restamped, Store.join_patient. cbn [Appointment.with_patient Appointment.id].
  destruct (Appointment.id a =? key); reflexivity.
Qed.

Lemma restamped_join_doctor (now key : string) (s : AppointmentStatus)
      (doctors : list Doctor.t) (a : Appointment.t) :
  Store.join_doctor doctors (restamped now key s a)
  = restamped now key s (Store.join_doctor doctors a).
Proof.
  unfold restamped, Store.join_doctor. cbn [Appointment.with_doctor Appointment.id].
  destruct (Appointment.id a =? key); reflexivity.
Qed.

Lemma join_patient_id (patients : list Patient.t) (a : Appointment.t) :
  Appointment.id (Store.join_patient patients a) = Appointment.id a.
Proof. reflexivity. Qed.

Lemma join_patient_status (patients : list Patient.t) (a : Appointment.t) :
  Appointment.status (Store.join_patient patients a) = Appointment.status a.
Proof. reflexivity. Qed.

Lemma filter_map_commute {A : Type} (p : A -> bool) (g : A -> A) (l : list A) :
  (forall x, p (g x) = p x) -> filter p (map g l) = map g (filter p l).
Proof.
  intros H. induction l as [|x l IH]; [ reflexivity | ].
  cbn [map filter]. rewrite H. destruct (p x); cbn [map]; now rewrite IH.
Qed.

Lemma insert_sorted_map_commute {A : Type} (le : A -> A -> bool) (g : A -> A)
      (x : A) (l : list A) :
  (forall a b, le (g a) (g b) = le a b) ->
  Store.insert_sorted le (g x) (map g l) = map g (Store.insert_sorted le x l).
Proof.
  intros H. induction l as [|y l IH]; [ reflexivity | ].
  cbn [map Store.insert_sorted]. rewrite H.
  destruct (le x y); cbn [map]; [ reflexivity | now rewrite IH ].
Qed.

Lemma order_map_commute {A : Type} (le : A -> A -> bool) (g : A -> A) (l : list A) :
  (forall a b, le (g a) (g b) = le a b) ->
  Store.order le (map g l) = map g (Store.order le l).
Proof.
  intros H. induction l as [|x l IH]; [ reflexivity | ].
  cbn [map Store.order]. rewrite IH. now apply insert_sorted_map_commute.
Qed.

(** The doctor's day after a status update is the day before it, with the
    rows of that id restamped, as long as the new status is a listed one
    and the rows of that id were listed. *)
Lemma dayList_In_after (now key : string) (s : AppointmentStatus)
      (patients : list Patient.t) (rows : list Appointment.t)
      (doctor_id day : string) (a' : Appointment.t) :
  In a' (DoctorDashboard.dayList patients
           (Store.update now (Appointment.with_status s) key rows) doctor_id day) ->
  exists r, In r rows /\ a' = Store.join_patient patients (restamped now key s r)
            /\ Appointment.doctor_id r = doctor_id
            /\ Appointment.appointment_date r = day.
Proof.
  rewrite update_status_map, dayList_In.
  intros (r' & Hin & -> & Hd & Hday & _).
  apply in_map_iff in Hin. destruct Hin as (r & <- & Hr).
  exists r. rewrite restamped_doctor_id in Hd. rewrite restamped_date in Hday.
  repeat split; assumption.
Qed.

(* ================================================================== *)
(** ** Completing a consultation *)

(** C6.  For every table and every doctor's day on which the dashboard
    holds a current appointment [cur]: [cur] is an in-consultation row of
    the table; completing the consultation leaves every row of [cur]'s id
    with status completed and deletes nothing; and after the re-fetch and
    the reorganisation the current-patient slot is empty exactly when no
    other appointment of the day was in consultation, while an appointment
    that does occupy it is another one, itself in consultation. *)
Theorem complete_vacates_slot
        (now : string) (patients : list Patient.t) (rows : list Appointment.t)
        (doctor_id day : string) (cur : Appointment.t) :
  let before := DoctorDashboard.dayList patients rows doctor_id day in
  let q := DoctorDashboard.organizeAppointments before in
  DoctorDashboard.currentAppointment q = Some cur ->
  let rows' := DoctorDashboard.handleCompleteConsultation now q rows in
  let q' := DoctorDashboard.organizeAppointments
              (DoctorDashboard.dayList patients rows' doctor_id day) in
  (exists r, In r rows /\ Appointment.id r = Appointment.id cur
             /\ Appointment.status r = in_consultation)
  /\ (forall r', In r' rows' -> Appointment.id r' = Appointment.id cur ->
                 Appointment.status r' = completed)
  /\ map Appointment.id rows' = map Appointment.id rows
  /\ (DoctorDashboard.currentAppointment q' = None
      <-> forall a, In a before -> Appointment.status a = in_consultation ->
                    Appointment.id a = Appointment.id cur)
  /\ (forall a', DoctorDashboard.currentAppointment q' = Some a' ->
                 Appointment.id a' <> Appointment.id cur
                 /\ Appointment.status a' = in_consultation
                 /\ In a' before).
Proof.
  intros before q Hcur rows' q'.
  assert (Hrows' : rows' = map (restamped now (Appointment.id cur) completed) rows).
  { unfold rows', DoctorDashboard.handleCompleteConsultation. now rewrite Hcur. }
  unfold q in Hcur. rewrite organize_current in Hcur.
  (* an appointment of the day after the update that is in consultation was
     there before, under another id *)
  assert (Hkept : forall a', In a' (DoctorDashboard.dayList patients rows' doctor_id day) ->
                             Appointment.status a' = in_consultation ->
                             Appointment.id a' <> Appointment.id cur /\ In a' before).
  { intros a' Hin Hs. rewrite Hrows', <- update_status_map in Hin.
    pose proof Hin as Hlisted. apply dayList_In in Hlisted.
    destruct Hlisted as (r' & _ & _ & _ & _ & Hl).
    apply dayList_In_after in Hin. destruct Hin as (r & Hr & -> & Hd & Hday).
    rewrite join_patient_status in Hs. rewrite join_patient_id, restamped_id.
    destruct (String.eqb_spec (Appointment.id r) (Appointment.id cur)) as [E | E].
    - rewrite (restamped_hit _ _ _ _ E) in Hs. discriminate Hs.
    - split; [ exact E | ]. rewrite (restamped_miss _ _ _ _ E) in Hs |- *.
      apply dayList_In. exists r. repeat split; try assumption.
      rewrite Hs. reflexivity. }
  split; [ | split; [ | split; [ | split ] ] ].
  - apply find_some in Hcur. destruct Hcur as [Hin Hs].
    apply dayList_In in Hin. destruct Hin as (r & Hr & -> & _).
    exists r. split; [ exact Hr | ]. split; [ reflexivity | ].
    now apply status_eqb_eq in Hs.
  - intros r' Hin Hid. rewrite Hrows' in Hin. apply in_map_iff in Hin.
    destruct Hin as (r & <- & _). rewrite restamped_id in Hid.
    now rewrite (restamped_hit _ _ _ _ Hid).
  - rewrite Hrows', map_map. apply map_ext. intros r. apply restamped_id.
  - unfold q'. rewrite organize_current, find_none_iff. split.
    + intros Hnone a Ha Hs.
      destruct (String.eqb_spec (Appointment.id a) (Appointment.id cur)) as [E | E];
        [ exact E | exfalso ].
      assert (Hstill : In a (DoctorDashboard.dayList patients rows' doctor_id day)).
      { apply dayList_In in Ha. destruct Ha as (r & Hr & -> & Hd & Hday & Hl).
        rewrite join_patient_id in E.
        apply dayList_In. exists r. repeat split; try assumption.
        rewrite Hrows'. apply in_map_iff. exists r. split; [ | exact Hr ].
        now apply restamped_miss. }
      specialize (Hnone a Hstill). unfold isInConsultation in Hnone.
      rewrite Hs in Hnone. discriminate Hnone.
    + intros Honly a' Ha'. unfold isInConsultation.
      destruct (status_eqb (Appointment.status a') in_consultation) eqn:Es;
        [ exfalso | reflexivity ].
      apply status_eqb_eq in Es. destruct (Hkept a' Ha' Es) as [Hne Hb].
      exact (Hne (Honly a' Hb Es)).
  - intros a' Ha'. unfold q' in Ha'. rewrite organize_current in Ha'.
    apply find_some in Ha'. destruct Ha' as [Hin Hs].
    apply status_eqb_eq in Hs. destruct (Hkept a' Hin Hs) as [Hne Hb].
    repeat split; assumption.
Qed.

Lemma complete_vacates_slot_witness :
  DoctorDashboard.currentAppointment
    (DoctorDashboard.organizeAppointments
       (DoctorDashboard.dayList []
          (DoctorDashboard.handleCompleteConsultation
             "2025-03-10T09:25"
             (DoctorDashboard.organizeAppointments
                (DoctorDashboard.dayList [] inProgress "D" "2025-03-10"))
             inProgress)
          "D" "2025-03-10"))
  = None.
Proof.
  refine (proj2 (proj1 (proj2 (proj2 (proj2
            (complete_vacates_slot
               "2025-03-10T09:25" [] inProgress "D" "2025-03-10"
               (row "a-1" "D" "2025-03-10" "09:00" in_consultation)
               eq_refl))))) _).
  intros a Hin Hs. vm_compute in Hin.
  destruct Hin as [<- | [<- | []]]; [ reflexivity | discriminate Hs ].
Defined.

(* ================================================================== *)
(** ** Cancelling an appointment *)

Lemma matchesSearch_restamped (now key : string) (s : AppointmentStatus)
      (searchQuery : string) (a : Appointment.t) :
  NurseDashboard.matchesSearch searchQuery (restamped now key s a)
  = NurseDashboard.matchesSearch searchQuery a.
Proof.
  unfold NurseDashboard.matchesSearch.
  now rewrite restamped_patient, restamped_doctor.
Qed.

Lemma by_date_then_time_restamped (now key : string) (s : AppointmentStatus)
      (a b : Appointment.t) :
  Store.by_date_then_time (restamped now key s a) (restamped now key s b)
  = Store.by_date_then_time a b.
Proof.
  unfold Store.by_date_then_time, Store.by_time.
  now rewrite !restamped_date, !restamped_time.
Qed.

(** The nurse's list after a status update is the list before it with the
    rows of that id restamped: same appointments, same order. *)
Lemma nurse_list_after_update (now key : string) (s : AppointmentStatus)
      (patients : list Patient.t) (doctors : list Doctor.t)
      (rows : list Appointment.t) (selectedDoctor selectedDate searchQuery : string) :
  NurseDashboard.filterAppointments
    (NurseDashboard.fetchAppointments
       patients doctors (Store.update now (Appointment.with_status s) key rows))
    selectedDoctor selectedDate searchQuery
  = map (restamped now key s)
        (NurseDashboard.filterAppointments
           (NurseDashboard.fetchAppointments patients doctors rows)
           selectedDoctor selectedDate searchQuery).
Proof.
  set (g := restamped now key s).
  assert (Hfetch : NurseDashboard.fetchAppointments
                     patients doctors (Store.update now (Appointment.with_status s) key rows)
                   = map g (NurseDashboard.fetchAppointments patients doctors rows)).
  { unfold NurseDashboard.fetchAppointments. rewrite update_status_map, map_map.
    rewrite <- (order_map_commute Store.by_date_then_time g)
      by (intros a b; apply by_date_then_time_restamped).
    rewrite map_map. f_equal. apply map_ext. intros a. unfold g.
    now rewrite restamped_join_patient, restamped_join_doctor. }
  rewrite Hfetch. unfold NurseDashboard.filterAppointments.
  set (l := NurseDashboard.fetchAppointments patients doctors rows).
  assert (Hdoc : filter (fun apt => Appointment.doctor_id apt =? selectedDoctor) (map g l)
                 = map g (filter (fun apt => Appointment.doctor_id apt =? selectedDoctor) l)).
  { apply filter_map_commute. intros x. unfold g. now rewrite restamped_doctor_id. }
  assert (Hdate : forall l0,
             filter (fun apt => Appointment.appointment_date apt =? selectedDate) (map g l0)
             = map g (filter (fun apt => Appointment.appointment_date apt =? selectedDate) l0)).
  { intros l0. apply filter_map_commute. intros x. unfold g. now rewrite restamped_date. }
  assert (Hsearch : forall l0,
             filter (NurseDashboard.matchesSearch searchQuery) (map g l0)
             = map g (filter (NurseDashboard.matchesSearch searchQuery) l0)).
  { intros l0. apply filter_map_commute. intros x. apply matchesSearch_restamped. }
  destruct (negb (selectedDoctor =? "all")), (negb (searchQuery =? ""));
    now rewrite ?Hdoc, ?Hdate, ?Hsearch.
Qed.

(** C7, as written: on the table with one scheduled appointment,
    cancelling it also renews the row's [updated_at], and the appointment
    is still in the list the nurse dashboard shows for its date. *)
Lemma cancelled_still_listed :
  ~ onlyStatusChanges "2025-03-09T17:00" (row "a-1" "D" "2025-03-10" "09:00" scheduled)
      oneBooked
  /\ ~ goneFromNurseList [examplePatient] [exampleDoctor] "2025-03-09T17:00"
         (row "a-1" "D" "2025-03-10" "09:00" scheduled) oneBooked.
Proof.
  split.
  - intros H. vm_compute in H. discriminate H.
  - intros H.
    refine (H "all" "2025-03-10" ""
              (Appointment.mk "a-1" "p-1" "D" "2025-03-10" "09:00" (Some "cough")
                              cancelled None (Some "2025-03-01T08:00")
                              (Some "2025-03-09T17:00")
                              (Some examplePatient) (Some exampleDoctor))
              _ eq_refl).
    vm_compute. left. reflexivity.
Qed.

(** C7, amended.  For every appointment and table: cancelling issues one
    update and no delete, so the table keeps the same rows in the same
    places; a row of the cancelled id gets status cancelled and the
    store's refreshed [updated_at], all its other fields unchanged, and
    every other row is untouched; and the list the nurse dashboard shows,
    under any doctor, date and search filter, holds the same appointments
    as before, the cancelled one included, now with status cancelled. *)
Theorem cancel_frame
        (now : string) (apt : Appointment.t) (rows : list Appointment.t)
        (patients : list Patient.t) (doctors : list Doctor.t)
        (selectedDoctor selectedDate searchQuery : string) :
  let rows' := AppointmentDetailsModal.handleCancel now apt rows in
  let view := fun table =>
    NurseDashboard.filterAppointments
      (NurseDashboard.fetchAppointments patients doctors table)
      selectedDoctor selectedDate searchQuery in
  length rows' = length rows
  /\ map Appointment.id rows' = map Appointment.id rows
  /\ (forall i r, nth_error rows i = Some r ->
        exists r', nth_error rows' i = Some r'
          /\ (Appointment.id r <> Appointment.id apt -> r' = r)
          /\ (Appointment.id r = Appointment.id apt ->
              r' = Appointment.mk
                     (Appointment.id r) (Appointment.patient_id r)
                     (Appointment.doctor_id r) (Appointment.appointment_date r)
                     (Appointment.appointment_time r) (Appointment.complaint r)
                     cancelled (Appointment.telegram_id r)
                     (Appointment.created_at r) (Some now)
                     (Appointment.patient r) (Appointment.doctor r)))
  /\ map Appointment.id (view rows') = map Appointment.id (view rows)
  /\ (forall a, In a (view rows) -> Appointment.id a = Appointment.id apt ->
        exists a', In a' (view rows')
                   /\ Appointment.id a' = Appointment.id apt
                   /\ Appointment.status a' = cancelled).
Proof.
  intros rows' view.
  assert (Hrows' : rows' = map (restamped now (Appointment.id apt) cancelled) rows)
    by reflexivity.
  assert (Hview : view rows'
                  = map (restamped now (Appointment.id apt) cancelled) (view rows)).
  { unfold view, rows', AppointmentDetailsModal.handleCancel.
    apply nurse_list_after_update. }
  split; [ rewrite Hrows'; apply length_map | ].
  split; [ rewrite Hrows', map_map; apply map_ext; intros r; apply restamped_id | ].
  split; [ | split ].
  - intros i r Hi. exists (restamped now (Appointment.id apt) cancelled r).
    split; [ rewrite Hrows'; now apply map_nth_error | ].
    split; [ apply restamped_miss | ].
    intros E. now rewrite (restamped_hit _ _ _ _ E).
  - rewrite Hview, map_map. apply map_ext. intros a. apply restamped_id.
  - intros a Ha E. exists (restamped now (Appointment.id apt) cancelled a).
    split; [ rewrite Hview; now apply in_map | ].
    split; [ now rewrite restamped_id | ].
    now rewrite (restamped_hit _ _ _ _ E).
Qed.

Lemma cancel_frame_witness :
  exists a',
    In a' (NurseDashboard.filterAppointments
             (NurseDashboard.fetchAppointments
                [examplePatient] [exampleDoctor]
                (AppointmentDetailsModal.handleCancel
                   "2025-03-09T17:00" (row "a-1" "D" "2025-03-10" "09:00" scheduled)
                   oneBooked))
             "all" "2025-03-10" "ana")
    /\ Appointment.id a' = "a-1"
    /\ Appointment.status a' = cancelled.
Proof.
  refine (proj2 (proj2 (proj2 (proj2
            (cancel_frame "2025-03-09T17:00"
                          (row "a-1" "D" "2025-03-10" "09:00" scheduled) oneBooked
                          [examplePatient] [exampleDoctor]
                          "all" "2025-03-10" "ana"))))
            (Appointment.mk "a-1" "p-1" "D" "2025-03-10" "09:00" (Some "cough")
                            scheduled None (Some "2025-03-01T08:00")
                            (Some "2025-03-01T08:00")
                            (Some examplePatient) (Some exampleDoctor))
            _ eq_refl).
  vm_compute. left. reflexivity.
Defined.

(* ================================================================== *)
(** ** The table over time *)

Lemma within30_iff (a b : Appointment.t) :
  Clinic.within30 a b = true
  <-> lessThan30Apart (Appointment.appointment_time a) (Appointment.appointment_time b).
Proof. apply close_iff. Qed.

Lemma within30_sym (a b : Appointment.t) : Clinic.within30 a b = Clinic.within30 b a.
Proof. unfold Clinic.within30, timeDifference. apply lt_abs_sub_sym. Qed.

Lemma active_booked (a : Appointment.t) :
  Clinic.active (Appointment.status a) = true ->
  booked (Appointment.doctor_id a) (Appointment.appointment_date a) a.
Proof.
  intros H. apply status_in_active in H. unfold booked. auto.
Qed.

Lemma unique_ids_inj (rows : list Appointment.t) (a b : Appointment.t) :
  Clinic.unique_ids rows -> In a rows -> In b rows ->
  Appointment.id a = Appointment.id b -> a = b.
Proof.
  unfold Clinic.unique_ids. induction rows as [|r rows IH]; simpl; [ intros _ [] | ].
  intros Hnd Ha Hb E. inversion Hnd as [|? ? Hnotin Hnd']; subst.
  destruct Ha as [<- | Ha], Hb as [<- | Hb].
  - reflexivity.
  - exfalso. apply Hnotin. rewrite E. now apply in_map.
  - exfalso. apply Hnotin. rewrite <- E. now apply in_map.
  - now apply IH.
Qed.

(** A status update that puts no inactive row among the active ones
    creates no clash. *)
Lemma status_update_no_clash (now key : string) (s : AppointmentStatus)
      (rows : list Appointment.t) :
  (forall r, In r rows -> Appointment.id r = key -> Clinic.active s = true ->
             Clinic.active (Appointment.status r) = true) ->
  ~ Clinic.clash Clinic.active rows ->
  ~ Clinic.clash Clinic.active (map (restamped now key s) rows).
Proof.
  intros Hact Hno (a' & b' & Ha & Hb & Hid & Hsa & Hsb & Hd & Hday & Hw).
  apply in_map_iff in Ha, Hb.
  destruct Ha as (a & <- & Ha), Hb as (b & <- & Hb).
  apply Hno. exists a, b.
  rewrite !restamped_id in Hid. rewrite !restamped_doctor_id in Hd.
  rewrite !restamped_date in Hday.
  assert (Hkeep : forall r, In r rows ->
                    Clinic.active (Appointment.status (restamped now key s r)) = true ->
                    Clinic.active (Appointment.status r) = true).
  { intros r Hr Hs.
    destruct (String.eqb_spec (Appointment.id r) key) as [E | E].
    - rewrite (restamped_hit _ _ _ _ E) in Hs. cbn in Hs. now apply Hact.
    - now rewrite (restamped_miss _ _ _ _ E) in Hs. }
  repeat split; try assumption; try (now apply Hkeep).
  unfold Clinic.within30 in Hw |- *. now rewrite !restamped_time in Hw.
Qed.

Lemma status_update_unique_ids (now key : string) (s : AppointmentStatus)
      (rows : list Appointment.t) :
  Clinic.unique_ids rows -> Clinic.unique_ids (map (restamped now key s) rows).
Proof.
  unfold Clinic.unique_ids. rewrite map_map.
  now rewrite (map_ext _ Appointment.id (fun r => restamped_id now key s r)).
Qed.

(** The create form writes only when its check finds no conflict, and
    then appends one scheduled row. *)
Lemma create_submit_cases (gen : Store.generated) (f : CreateAppointmentForm.form)
      (rows : list Appointment.t) :
  fst (CreateAppointmentForm.handleSubmit gen f rows) = rows
  \/ exists day,
       CreateAppointmentForm.date f = Some day
       /\ CreateAppointmentForm.checkTimeConflict
            rows (CreateAppointmentForm.selectedDoctor f) day
            (CreateAppointmentForm.time f) = JS.Returns false
       /\ fst (CreateAppointmentForm.handleSubmit gen f rows)
          = rows ++ [CreateAppointmentForm.newRow gen f day].
Proof.
  unfold CreateAppointmentForm.handleSubmit.
  destruct (CreateAppointmentForm.date f) as [day|]; [ | now left ].
  destruct ((CreateAppointmentForm.selectedDoctor f =? "")
            || (CreateAppointmentForm.time f =? "")
            || (CreateAppointmentForm.complaint f =? "")); [ now left | ].
  destruct (CreateAppointmentForm.patientId f =? ""); [ now left | ].
  destruct (CreateAppointmentForm.checkTimeConflict _ _ _ _) as [[|]|e] eqn:E;
    [ now left | | now left ].
  right. exists day. split; [ reflexivity | split; [ exact E | reflexivity ] ].
Qed.

(** The edit form writes only when its check finds no conflict, and then
    rewrites doctor, date, time and status of the rows of the edited id. *)
Lemma edit_submit_cases (now : string) (apt : Appointment.t)
      (selectedDoctor : string) (date : option string) (time : string)
      (status : AppointmentStatus) (rows : list Appointment.t) :
  fst (EditAppointmentForm.handleSubmit now (Some apt) selectedDoctor date time status rows)
  = rows
  \/ exists day,
       date = Some day
       /\ EditAppointmentForm.checkTimeConflict
            rows selectedDoctor day time (Appointment.id apt) = JS.Returns false
       /\ fst (EditAppointmentForm.handleSubmit
                 now (Some apt) selectedDoctor date time status rows)
          = Store.update now (Appointment.with_schedule selectedDoctor day time status)
                         (Appointment.id apt) rows.
Proof.
  unfold EditAppointmentForm.handleSubmit.
  destruct date as [day|]; [ | now left ].
  destruct ((selectedDoctor =? "") || (time =? "")); [ now left | ].
  destruct (EditAppointmentForm.checkTimeConflict _ _ _ _ _) as [[|]|e] eqn:E;
    [ now left | | now left ].
  right. exists day. split; [ reflexivity | split; [ exact E | reflexivity ] ].
Qed.

Lemma create_preserves (gen : Store.generated) (f : CreateAppointmentForm.form)
      (rows : list Appointment.t) :
  forallb (fun a => negb (Appointment.id a =? Store.gen_id gen)) rows = true ->
  Clinic.unique_ids rows /\ ~ Clinic.clash Clinic.active rows ->
  Clinic.unique_ids (fst (CreateAppointmentForm.handleSubmit gen f rows))
  /\ ~ Clinic.clash Clinic.active (fst (CreateAppointmentForm.handleSubmit gen f rows)).
Proof.
  intros Hfresh [Hu Hno].
  destruct (create_submit_cases gen f rows) as [-> | (day & _ & Hcheck & ->)];
    [ now split | ].
  set (new := CreateAppointmentForm.newRow gen f day).
  rewrite forallb_forall in Hfresh.
  assert (Hne : forall r, In r rows -> Appointment.id r <> Appointment.id new).
  { intros r Hr. specialize (Hfresh r Hr).
    now apply negb_true_iff, String.eqb_neq in Hfresh. }
  assert (Hfar : forall r, In r rows -> Clinic.active (Appointment.status r) = true ->
                           Appointment.doctor_id r = Appointment.doctor_id new ->
                           Appointment.appointment_date r = Appointment.appointment_date new ->
                           Clinic.within30 new r = true -> False).
  { intros r Hr Hs Hd Hday Hw.
    rewrite create_no_conflict_iff in Hcheck. apply Hcheck.
    exists r. split; [ exact Hr | ]. split.
    - pose proof (active_booked r Hs) as Hb. now rewrite Hd, Hday in Hb.
    - now apply close_iff. }
  split.
  - unfold Clinic.unique_ids in *. rewrite map_app. cbn [map].
    apply NoDup_app; [ exact Hu | repeat constructor; intros [] | ].
    intros x Hx [<- | []]. apply in_map_iff in Hx.
    destruct Hx as (r & E & Hr). exact (Hne r Hr E).
  - intros (a & b & Ha & Hb & Hid & Hsa & Hsb & Hd & Hday & Hw).
    apply in_app_or in Ha, Hb.
    destruct Ha as [Ha | [<- | []]], Hb as [Hb | [<- | []]].
    + apply Hno. exists a, b. repeat split; assumption.
    + rewrite within30_sym in Hw. exact (Hfar a Ha Hsa Hd Hday Hw).
    + exact (Hfar b Hb Hsb (eq_sym Hd) (eq_sym Hday) Hw).
    + now apply Hid.
Qed.

Lemma edit_preserves (now : string) (apt : Appointment.t)
      (selectedDoctor : string) (date : option string) (time : string)
      (status : AppointmentStatus) (rows : list Appointment.t) :
  Clinic.unique_ids rows /\ ~ Clinic.clash Clinic.active rows ->
  let rows' := fst (EditAppointmentForm.handleSubmit
                      now (Some apt) selectedDoctor date time status rows) in
  Clinic.unique_ids rows' /\ ~ Clinic.clash Clinic.active rows'.
Proof.
  intros [Hu Hno] rows'. unfold rows'.
  destruct (edit_submit_cases now apt selectedDoctor date time status rows)
    as [-> | (day & _ & Hcheck & ->)]; [ now split | ].
  set (key := Appointment.id apt) in *.
  set (h := fun a => if Appointment.id a =? key
                     then Appointment.with_updated_at
                            now (Appointment.with_schedule selectedDoctor day time status a)
                     else a).
  change (Store.update now (Appointment.with_schedule selectedDoctor day time status) key rows)
    with (map h rows).
  assert (Hid : forall r, Appointment.id (h r) = Appointment.id r).
  { intros r. unfold h. now destruct (Appointment.id r =? key). }
  assert (Hfar : forall a b, In b rows ->
                   Appointment.id a = key -> Appointment.id b <> key ->
                   Clinic.active (Appointment.status b) = true ->
                   Appointment.doctor_id (h a) = Appointment.doctor_id b ->
                   Appointment.appointment_date (h a) = Appointment.appointment_date b ->
                   Clinic.within30 (h a) b = true -> False).
  { intros a b Hb Ea Eb Hs Hd Hday Hw.
    rewrite edit_no_conflict_iff in Hcheck. apply Hcheck.
    exists b. split; [ exact Hb | ]. split; [ exact Eb | ].
    unfold h in Hd, Hday, Hw. apply String.eqb_eq in Ea. rewrite Ea in Hd, Hday, Hw.
    cbn in Hd, Hday. split.
    - pose proof (active_booked b Hs) as Hbk. now rewrite <- Hd, <- Hday in Hbk.
    - apply close_iff. exact Hw. }
  split.
  - unfold Clinic.unique_ids in *. rewrite map_map.
    now rewrite (map_ext _ Appointment.id Hid).
  - intros (a' & b' & Ha & Hb & Hne & Hsa & Hsb & Hd & Hday & Hw).
    apply in_map_iff in Ha, Hb.
    destruct Ha as (a & <- & Ha), Hb as (b & <- & Hb).
    rewrite !Hid in Hne.
    destruct (String.eqb_spec (Appointment.id a) key) as [Ea | Ea],
             (String.eqb_spec (Appointment.id b) key) as [Eb | Eb].
    + apply Hne. congruence.
    + assert (Ehb : h b = b).
      { unfold h. apply String.eqb_neq in Eb. now rewrite Eb. }
      rewrite Ehb in *. exact (Hfar a b Hb Ea Eb Hsb Hd Hday Hw).
    + assert (Eha : h a = a).
      { unfold h. apply String.eqb_neq in Ea. now rewrite Ea. }
      rewrite Eha in *. rewrite within30_sym in Hw.
      exact (Hfar b a Ha Eb Ea Hsa (eq_sym Hd) (eq_sym Hday) Hw).
    + assert (Eha : h a = a).
      { unfold h. apply String.eqb_neq in Ea. now rewrite Ea. }
      assert (Ehb : h b = b).
      { unfold h. apply String.eqb_neq in Eb. now rewrite Eb. }
      rewrite Eha, Ehb in *. apply Hno. exists a, b. repeat split; assumption.
Qed.

(** Every action keeps ids unique and the active appointments clash-free. *)
Lemma step_preserves (rows rows' : list Appointment.t) :
  Clinic.step rows rows' ->
  Clinic.unique_ids rows /\ ~ Clinic.clash Clinic.active rows ->
  Clinic.unique_ids rows' /\ ~ Clinic.clash Clinic.active rows'.
Proof.
  intros Hstep [Hu Hno].
  destruct Hstep as [rows gen f Hfresh
                    | rows now apt doc date time st
                    | rows now patients doc day apt q Hin Hen
                    | rows now patients doc day q
                    | rows now patients doc day apt q Hin
                    | rows now apt].
  - now apply create_preserves.
  - now apply edit_preserves.
  - unfold DoctorDashboard.handleStartConsultation. rewrite update_status_map.
    split; [ now apply status_update_unique_ids | ].
    apply status_update_no_clash; [ | exact Hno ].
    intros r Hr E _.
    unfold q in Hin. rewrite organize_next in Hin.
    apply In_firstn, filter_In in Hin. destruct Hin as [Hday Hs].
    apply dayList_In in Hday. destruct Hday as (r0 & Hr0 & -> & _).
    rewrite join_patient_id in E.
    assert (r = r0) by (now apply (unique_ids_inj rows)). subst r0.
    unfold isScheduled in Hs. rewrite join_patient_status in Hs.
    apply status_eqb_eq in Hs. now rewrite Hs.
  - unfold DoctorDashboard.handleCompleteConsultation.
    destruct (DoctorDashboard.currentAppointment q) as [cur|]; [ | now split ].
    rewrite update_status_map.
    split; [ now apply status_update_unique_ids | ].
    apply status_update_no_clash; [ | exact Hno ]. intros r _ _ H. discriminate H.
  - unfold DoctorDashboard.handleMarkNoShow. rewrite update_status_map.
    split; [ now apply status_update_unique_ids | ].
    apply status_update_no_clash; [ | exact Hno ]. intros r _ _ H. discriminate H.
  - unfold AppointmentDetailsModal.handleCancel. rewrite update_status_map.
    split; [ now apply status_update_unique_ids | ].
    apply status_update_no_clash; [ | exact Hno ]. intros r _ _ H. discriminate H.
Qed.

Lemma reachable_afterSecondBooking : Clinic.reachable afterSecondBooking.
Proof.
  apply Clinic.reachable_step with afterComplete.
  - apply Clinic.reachable_step with afterStart.
    + apply Clinic.reachable_step with afterFirstBooking.
      * apply Clinic.reachable_step with []; [ apply Clinic.reachable_empty | ].
        apply (Clinic.step_create [] (Store.mkGenerated "a-1" None None None) firstBooking).
        reflexivity.
      * apply (Clinic.step_start afterFirstBooking "2025-03-10T09:00" [] "D" "2025-03-10"
                 (Appointment.mk "a-1" "p-1" "D" "2025-03-10" "09:00" (Some "cough")
                                 scheduled None None None None None)).
        -- vm_compute. left. reflexivity.
        -- reflexivity.
    + apply (Clinic.step_complete afterStart "2025-03-10T09:08" [] "D" "2025-03-10").
  - apply (Clinic.step_create afterComplete (Store.mkGenerated "a-2" None None None)
             secondBooking).
    reflexivity.
Qed.

(** C2, as written: after the nurse books 09:00, the doctor starts and
    completes that consultation, and the nurse books 09:10 for the same
    doctor and day, the table holds a completed and a scheduled
    appointment, neither cancelled nor no-show, ten minutes apart. *)
Lemma completed_slot_rebooked :
  ~ (forall rows, Clinic.reachable rows -> ~ Clinic.clash Clinic.live rows).
Proof.
  intros H. apply (H afterSecondBooking reachable_afterSecondBooking).
  exists (Appointment.mk "a-1" "p-1" "D" "2025-03-10" "09:00" (Some "cough")
                         completed None None (Some "2025-03-10T09:08") None None),
         (Appointment.mk "a-2" "p-2" "D" "2025-03-10" "09:10" (Some "fever")
                         scheduled None None None None None).
  split; [ vm_compute; left; reflexivity | ].
  split; [ vm_compute; right; left; reflexivity | ].
  split; [ discriminate | ].
  repeat split.
Qed.

(** C2, amended.  In every table the application's actions (create, edit,
    start, complete, no-show, cancel, each on a fresh view and one at a
    time) can bring about, no two appointments whose status is scheduled
    or in consultation are of the same doctor on the same date with times
    less than 30 minutes apart, and no two rows share an id; the create
    and the edit form write nothing when their check reports a conflict. *)
Theorem reachable_conflict_free (rows : list Appointment.t) :
  Clinic.reachable rows ->
  ~ Clinic.clash Clinic.active rows
  /\ Clinic.unique_ids rows
  /\ (forall gen f day,
        CreateAppointmentForm.date f = Some day ->
        CreateAppointmentForm.checkTimeConflict
          rows (CreateAppointmentForm.selectedDoctor f) day
          (CreateAppointmentForm.time f) = JS.Returns true ->
        fst (CreateAppointmentForm.handleSubmit gen f rows) = rows)
  /\ (forall now apt selectedDoctor day time status,
        EditAppointmentForm.checkTimeConflict
          rows selectedDoctor day time (Appointment.id apt) = JS.Returns true ->
        fst (EditAppointmentForm.handleSubmit
               now (Some apt) selectedDoctor (Some day) time status rows) = rows).
Proof.
  intros Hreach.
  assert (Hinv : Clinic.unique_ids rows /\ ~ Clinic.clash Clinic.active rows).
  { induction Hreach as [|rows rows' _ IH Hstep].
    - split; [ constructor | ].
      intros (a & _ & [] & _).
    - exact (step_preserves rows rows' Hstep IH). }
  destruct Hinv as [Hu Hno].
  split; [ exact Hno | ]. split; [ exact Hu | ]. split.
  - intros gen f day Hday Hc.
    destruct (create_submit_cases gen f rows) as [E | (day' & Hday' & Hcheck & _)];
      [ exact E | ].
    rewrite Hday in Hday'. injection Hday' as <-.
    rewrite Hc in Hcheck. discriminate Hcheck.
  - intros now apt doc day time st Hc.
    destruct (edit_submit_cases now apt doc (Some day) time st rows)
      as [E | (day' & Hday' & Hcheck & _)]; [ exact E | ].
    injection Hday' as <-. rewrite Hc in Hcheck. discriminate Hcheck.
Qed.

Lemma reachable_conflict_free_witness :
  ~ Clinic.clash Clinic.active afterSecondBooking.
Proof.
  exact (proj1 (reachable_conflict_free afterSecondBooking reachable_afterSecondBooking)).
Defined.

(* ================================================================== *)
(** ** More on the conflict checkers *)

Lemma filter_all {A : Type} (p : A -> bool) (l : list A) :
  (forall a, In a l -> p a = true) -> filter p l = l.
Proof.
  induction l as [|x l IH]; intros H; [ reflexivity | ].
  cbn [filter]. rewrite (H x (or_introl eq_refl)).
  f_equal. apply IH. intros a Ha. apply H. now right.
Qed.

Lemma existsb_perm {A : Type} (p : A -> bool) (l l' : list A) :
  Permutation l l' -> existsb p l = existsb p l'.
Proof.
  induction 1 as [|x l l' _ IH|x y l|l l' l'' _ IH1 _ IH2]; cbn [existsb].
  - reflexivity.
  - now rewrite IH.
  - now destruct (p x), (p y).
  - now rewrite IH1.
Qed.

Lemma edit_check_others (rows : list Appointment.t) (doctorId day time self : string) :
  EditAppointmentForm.checkTimeConflict rows doctorId day time self
  = CreateAppointmentForm.checkTimeConflict
      (filter (fun a => negb (Appointment.id a =? self)) rows) doctorId day time.
Proof.
  rewrite edit_check_eq, create_check_eq. f_equal.
  induction rows as [|a rows IH]; [ reflexivity | ].
  cbn [filter existsb]. rewrite IH.
  destruct (Appointment.id a =? self); cbn [negb existsb].
  - now rewrite andb_false_r.
  - now rewrite andb_true_r.
Qed.

(** X1.  The two forms run the same check: the edit form's result on a
    table is the create form's result on that table without the rows of
    the edited id, and on a table that holds no row of that id the two
    results are equal. *)
Theorem edit_check_is_create_check_on_others
        (rows : list Appointment.t) (doctorId day time self : string) :
  EditAppointmentForm.checkTimeConflict rows doctorId day time self
  = CreateAppointmentForm.checkTimeConflict
      (filter (fun a => negb (Appointment.id a =? self)) rows) doctorId day time
  /\ ((forall a, In a rows -> Appointment.id a <> self) ->
      EditAppointmentForm.checkTimeConflict rows doctorId day time self
      = CreateAppointmentForm.checkTimeConflict rows doctorId day time).
Proof.
  split; [ apply edit_check_others | ].
  intros Hnone. rewrite edit_check_others. f_equal.
  apply filter_all. intros a Ha.
  now apply negb_true_iff, String.eqb_neq, Hnone.
Qed.

Lemma edit_check_is_create_check_on_others_witness :
  EditAppointmentForm.checkTimeConflict exampleDay "D" "2025-03-10" "09:35" "a-9"
  = CreateAppointmentForm.checkTimeConflict exampleDay "D" "2025-03-10" "09:35".
Proof.
  refine (proj2 (edit_check_is_create_check_on_others
                   exampleDay "D" "2025-03-10" "09:35" "a-9") _).
  intros a Ha. simpl in Ha. destruct Ha as [<- | [<- | []]]; discriminate.
Defined.

(** X2.  The early exit of the loop does not make the result depend on
    the order of the rows: two tables holding the same rows in any order
    give the same result in both forms, and a table made of two parts
    reports a conflict exactly when one of the parts does. *)
Theorem check_ignores_row_order
        (rows rows' rows1 rows2 : list Appointment.t)
        (doctorId day time self : string) :
  (Permutation rows rows' ->
   CreateAppointmentForm.checkTimeConflict rows doctorId day time
   = CreateAppointmentForm.checkTimeConflict rows' doctorId day time
   /\ EditAppointmentForm.checkTimeConflict rows doctorId day time self
      = EditAppointmentForm.checkTimeConflict rows' doctorId day time self)
  /\ (CreateAppointmentForm.checkTimeConflict (rows1 ++ rows2) doctorId day time
      = JS.Returns true
      <-> CreateAppointmentForm.checkTimeConflict rows1 doctorId day time = JS.Returns true
          \/ CreateAppointmentForm.checkTimeConflict rows2 doctorId day time = JS.Returns true).
Proof.
  split.
  - intros Hperm. rewrite !create_check_eq, !edit_check_eq.
    split; f_equal; now apply existsb_perm.
  - rewrite !create_check_eq.
    match goal with |- context [existsb ?p (rows1 ++ rows2)] => set (close := p) end.
    rewrite (existsb_app close rows1 rows2).
    destruct (existsb close rows1), (existsb close rows2); cbn [orb];
      split; intros H; auto; destruct H as [H | H]; discriminate H.
Qed.

Lemma check_ignores_row_order_witness :
  CreateAppointmentForm.checkTimeConflict exampleDay "D" "2025-03-10" "09:35"
  = CreateAppointmentForm.checkTimeConflict (rev exampleDay) "D" "2025-03-10" "09:35".
Proof.
  refine (proj1 (proj1 (check_ignores_row_order
                          exampleDay (rev exampleDay) [] [] "D" "2025-03-10" "09:35" "")
                       _)).
  apply Permutation_rev.
Defined.

Lemma nan_never_close (n : JS.number) (t : string) :
  n = JS.NaN \/ timeToMinutes t = JS.NaN ->
  JS.lt (timeDifference n t) (JS.Num 30) = false.
Proof.
  unfold timeDifference. intros [-> | ->]; [ reflexivity | ].
  now destruct n.
Qed.

Lemma split_no_colon (s : string) :
  hasColon s = false -> JS.split ":" s = [s].
Proof.
  induction s as [|c s IH]; [ reflexivity | ].
  cbn [hasColon JS.split]. intros H. apply orb_false_iff in H. destruct H as [Hc Hs].
  rewrite Hc, (IH Hs). reflexivity.
Qed.

Lemma split_app_colon (a b : string) :
  hasColon a = false -> JS.split ":" (a ++ String ":" b) = a :: JS.split ":" b.
Proof.
  induction a as [|c a IH]; [ reflexivity | ].
  cbn [hasColon String.append JS.split]. intros H.
  apply orb_false_iff in H. destruct H as [Hc Ha].
  rewrite Hc, (IH Ha). reflexivity.
Qed.

Lemma timeToMinutes_seconds (h m rest : string) :
  hasColon h = false -> hasColon m = false ->
  timeToMinutes (h ++ String ":" (m ++ String ":" rest))
  = timeToMinutes (h ++ String ":" m).
Proof.
  intros Hh Hm. unfold timeToMinutes.
  rewrite !(split_app_colon h) by exact Hh.
  rewrite (split_app_colon m) by exact Hm.
  rewrite (split_no_colon m) by exact Hm.
  reflexivity.
Qed.

Lemma colonless_reads_nan (t : string) :
  hasColon t = false -> timeToMinutes t = JS.NaN.
Proof.
  intros H. unfold timeToMinutes. rewrite (split_no_colon t H).
  cbn [map JS.operand nth_error]. now destruct (JS.Number t).
Qed.

(** X3.  A time written without a colon is never in conflict: the text
    has no minutes field, the minutes are undefined and the sum is NaN
    whatever the hours read as.  For such a candidate both forms report
    no conflict on every table, and a stored row whose time has no colon
    never changes the result for any candidate. *)
Theorem colonless_time_never_conflicts
        (rows : list Appointment.t) (doctorId day time self : string)
        (stored : Appointment.t) :
  (hasColon time = false ->
   timeToMinutes time = JS.NaN
   /\ CreateAppointmentForm.checkTimeConflict rows doctorId day time = JS.Returns false
   /\ EditAppointmentForm.checkTimeConflict rows doctorId day time self = JS.Returns false)
  /\ (hasColon (Appointment.appointment_time stored) = false ->
      CreateAppointmentForm.checkTimeConflict (stored :: rows) doctorId day time
      = CreateAppointmentForm.checkTimeConflict rows doctorId day time
      /\ EditAppointmentForm.checkTimeConflict (stored :: rows) doctorId day time self
         = EditAppointmentForm.checkTimeConflict rows doctorId day time self).
Proof.
  split.
  - intros Hcolon. pose proof (colonless_reads_nan time Hcolon) as Hnan.
    split; [ exact Hnan | ]. split.
    + apply create_no_conflict_iff.
      intros (a & _ & _ & (d & (m & n & Hm & _) & _)). congruence.
    + apply edit_no_conflict_iff.
      intros (a & _ & _ & _ & (d & (m & n & Hm & _) & _)). congruence.
  - intros Hcolon.
    pose proof (colonless_reads_nan _ Hcolon) as Hnan.
    rewrite !create_check_eq, !edit_check_eq. cbn [existsb].
    rewrite (nan_never_close (timeToMinutes time) _ (or_intror Hnan)).
    now rewrite !andb_false_r.
Qed.

Lemma colonless_time_never_conflicts_witness :
  timeToMinutes "0915" = JS.NaN
  /\ CreateAppointmentForm.checkTimeConflict exampleDay "D" "2025-03-10" "0915"
     = JS.Returns false
  /\ EditAppointmentForm.checkTimeConflict exampleDay "D" "2025-03-10" "0915" "a-9"
     = JS.Returns false.
Proof.
  refine (proj1 (colonless_time_never_conflicts
                   exampleDay "D" "2025-03-10" "0915" "a-9"
                   (row "a-1" "D" "2025-03-10" "09:00" scheduled)) _).
  reflexivity.
Defined.

(* ================================================================== *)
(** ** The conflict checker of the create form *)

Lemma twoDigits_no_colon (n : nat) : n < 100 -> hasColon (twoDigits n) = false.
Proof.
  intros Hn.
  assert (Hall : forallb (fun k => negb (hasColon (twoDigits k))) (seq 0 100) = true)
    by (vm_compute; reflexivity).
  rewrite forallb_forall in Hall.
  apply negb_true_iff, Hall, in_seq. lia.
Qed.

(** The checker reads a clock time as its minutes since midnight. *)
Lemma clockReading_reads (t : string) (minutes : Z) :
  clockReading t minutes -> timeToMinutes t = JS.Num minutes.
Proof.
  intros (h & m & Hh & Hm & -> & [-> | (rest & ->)]).
  - exact (proj1 (timeToMinutes_clock h m Hh Hm)).
  - rewrite <- (proj1 (timeToMinutes_clock h m Hh Hm)).
    exact (timeToMinutes_seconds (twoDigits h) (twoDigits m) rest
             (twoDigits_no_colon h ltac:(lia)) (twoDigits_no_colon m ltac:(lia))).
Qed.

(** C1.  For every doctor and date, on every table whose scheduled or
    in-consultation appointments of that doctor on that date carry clock
    times, and for every candidate clock time, the create form's
    [checkTimeConflict] returns [true] (conflict) exactly when some
    appointment of that doctor on that date that is scheduled or in
    consultation has a time whose minutes since midnight (60 times the
    hour plus the minute) differ from the candidate's by strictly less
    than 30; otherwise it returns [false], in particular when every such
    appointment is at least 30 minutes away and when there is none. *)
Theorem checkTimeConflict_create_spec
        (rows : list Appointment.t) (doctorId day time : string) (candidate : Z) :
  clockReading time candidate ->
  (forall apt, In apt rows -> booked doctorId day apt ->
               exists minutes, clockReading (Appointment.appointment_time apt) minutes) ->
  let result := CreateAppointmentForm.checkTimeConflict rows doctorId day time in
  let conflicting :=
    exists apt minutes,
      In apt rows /\ booked doctorId day apt
      /\ clockReading (Appointment.appointment_time apt) minutes
      /\ (Z.abs (candidate - minutes) < 30)%Z in
  (result = JS.Returns true <-> conflicting)
  /\ (result = JS.Returns false <-> ~ conflicting)
  /\ ((forall apt minutes,
          In apt rows -> booked doctorId day apt ->
          clockReading (Appointment.appointment_time apt) minutes ->
          (30 <= Z.abs (candidate - minutes))%Z)
      -> result = JS.Returns false)
  /\ ((forall apt, In apt rows -> ~ booked doctorId day apt)
      -> result = JS.Returns false).
Proof.
  intros Hcand Hrows result conflicting.
  assert (Hiff : (exists apt, In apt rows /\ booked doctorId day apt /\
                              lessThan30Apart time (Appointment.appointment_time apt))
                 <-> conflicting).
  { unfold conflicting. split.
    - intros (a & Hin & Hb & (d & (m & n & H1 & H2 & ->) & Hlt)).
      destruct (Hrows a Hin Hb) as (minutes & Hr).
      rewrite (clockReading_reads _ _ Hcand) in H1.
      rewrite (clockReading_reads _ _ Hr) in H2.
      injection H1 as <-. injection H2 as <-.
      exists a, minutes. split; [ exact Hin | ]. split; [ exact Hb | ].
      split; [ exact Hr | exact Hlt ].
    - intros (a & minutes & Hin & Hb & Hr & Hlt).
      exists a. split; [ exact Hin | ]. split; [ exact Hb | ].
      exists (Z.abs (candidate - minutes)). split; [ | exact Hlt ].
      exists candidate, minutes.
      split; [ now apply clockReading_reads | ].
      split; [ now apply clockReading_reads | reflexivity ]. }
  assert (Htrue : result = JS.Returns true <-> conflicting).
  { unfold result. rewrite create_conflict_iff. exact Hiff. }
  assert (Hfalse : result = JS.Returns false <-> ~ conflicting).
  { unfold result. rewrite create_no_conflict_iff. now rewrite Hiff. }
  split; [ exact Htrue | ]. split; [ exact Hfalse | ]. split.
  - intros Hfar. apply Hfalse. intros (a & minutes & Hin & Hb & Hr & Hlt).
    pose proof (Hfar a minutes Hin Hb Hr). lia.
  - intros Hnone. apply Hfalse. intros (a & minutes & Hin & Hb & _).
    exact (Hnone a Hin Hb).
Qed.

Lemma checkTimeConflict_create_spec_witness :
  CreateAppointmentForm.checkTimeConflict exampleDay "D" "2025-03-10" "09:15"
  = JS.Returns true
  /\ CreateAppointmentForm.checkTimeConflict exampleDay "D" "2025-03-10" "09:50"
     = JS.Returns false.
Proof.
  assert (H0900 : clockReading "09:00" 540).
  { exists 9, 0. repeat split; [ lia | lia | now left ]. }
  assert (H0920 : clockReading "09:20" 560).
  { exists 9, 20. repeat split; [ lia | lia | now left ]. }
  assert (H0915 : clockReading "09:15" 555).
  { exists 9, 15. repeat split; [ lia | lia | now left ]. }
  assert (H0950 : clockReading "09:50" 590).
  { exists 9, 50. repeat split; [ lia | lia | now left ]. }
  assert (Hrows : forall apt, In apt exampleDay -> booked "D" "2025-03-10" apt ->
                  exists minutes, clockReading (Appointment.appointment_time apt) minutes).
  { intros apt [<- | [<- | []]] _; [ now exists 540%Z | now exists 560%Z ]. }
  split.
  - refine (proj2 (proj1 (checkTimeConflict_create_spec
                            exampleDay "D" "2025-03-10" "09:15" 555 H0915 Hrows)) _).
    exists (row "a-1" "D" "2025-03-10" "09:00" scheduled), 540%Z.
    split; [ now left | ]. split; [ unfold booked; cbn; auto | ].
    split; [ exact H0900 | lia ].
  - refine (proj1 (proj2 (proj2 (checkTimeConflict_create_spec
                                   exampleDay "D" "2025-03-10" "09:50" 590 H0950 Hrows))) _).
    intros apt minutes [<- | [<- | []]] _ Hr;
      pose proof (clockReading_reads _ _ Hr) as E; vm_compute in E;
      injection E as <-; lia.
Defined.

(** X4.  Whatever follows the minutes is ignored: for an hour part and a
    minute part without colons, a time written hour:minute:rest is read
    as hour:minute, so both forms give the same result for a candidate
    with or without a seconds part. *)
Theorem seconds_part_ignored
        (h m rest : string) (rows : list Appointment.t)
        (doctorId day self : string) :
  hasColon h = false -> hasColon m = false ->
  timeToMinutes (h ++ ":" ++ m ++ ":" ++ rest) = timeToMinutes (h ++ ":" ++ m)
  /\ CreateAppointmentForm.checkTimeConflict rows doctorId day (h ++ ":" ++ m ++ ":" ++ rest)
     = CreateAppointmentForm.checkTimeConflict rows doctorId day (h ++ ":" ++ m)
  /\ EditAppointmentForm.checkTimeConflict rows doctorId day (h ++ ":" ++ m ++ ":" ++ rest) self
     = EditAppointmentForm.checkTimeConflict rows doctorId day (h ++ ":" ++ m) self.
Proof.
  intros Hh Hm.
  change (h ++ ":" ++ m ++ ":" ++ rest)%string
    with (h ++ String ":" (m ++ String ":" rest))%string.
  change (h ++ ":" ++ m)%string with (h ++ String ":" m)%string.
  pose proof (timeToMinutes_seconds h m rest Hh Hm) as E.
  split; [ exact E | ].
  rewrite !create_check_eq, !edit_check_eq, E. split; reflexivity.
Qed.

Lemma seconds_part_ignored_witness :
  timeToMinutes "09:20:45" = timeToMinutes "09:20"
  /\ CreateAppointmentForm.checkTimeConflict exampleDay "D" "2025-03-10" "09:20:45"
     = CreateAppointmentForm.checkTimeConflict exampleDay "D" "2025-03-10" "09:20"
  /\ EditAppointmentForm.checkTimeConflict exampleDay "D" "2025-03-10" "09:20:45" "a-2"
     = EditAppointmentForm.checkTimeConflict exampleDay "D" "2025-03-10" "09:20" "a-2".
Proof.
  exact (seconds_part_ignored "09" "20" "45" exampleDay "D" "2025-03-10" "a-2"
                              eq_refl eq_refl).
Defined.

(** X5.  On clock times the checker's distance is the plain difference of
    the minutes of the day: two times, the stored one with or without its
    seconds part, are less than 30 minutes apart exactly when their
    minutes since midnight differ by less than 30, so a time in the last
    hour of the day and one in the first hour are never in conflict. *)
Theorem clock_times_apart (h1 m1 h2 m2 : nat) :
  h1 < 24 -> m1 < 60 -> h2 < 24 -> m2 < 60 ->
  let distance := Z.abs (Z.of_nat (60 * h1 + m1) - Z.of_nat (60 * h2 + m2)) in
  (lessThan30Apart (clock h1 m1) (clock h2 m2) <-> (distance < 30)%Z)
  /\ (lessThan30Apart (clock h1 m1) (clock h2 m2 ++ ":00") <-> (distance < 30)%Z)
  /\ (h1 = 23 -> h2 = 0 -> ~ lessThan30Apart (clock h1 m1) (clock h2 m2)).
Proof.
  intros Hh1 Hm1 Hh2 Hm2 distance.
  destruct (timeToMinutes_clock h1 m1 Hh1 Hm1) as [E1 _].
  destruct (timeToMinutes_clock h2 m2 Hh2 Hm2) as [E2 E2'].
  assert (Hiff : forall t, timeToMinutes t = JS.Num (Z.of_nat (60 * h2 + m2)) ->
                           (lessThan30Apart (clock h1 m1) t <-> (distance < 30)%Z)).
  { intros t Et. split.
    - intros (d & (m & n & Hm & Hn & ->) & Hlt).
      rewrite E1 in Hm. rewrite Et in Hn. injection Hm as <-. injection Hn as <-.
      exact Hlt.
    - intros Hlt. exists distance. split; [ | exact Hlt ].
      exists (Z.of_nat (60 * h1 + m1)), (Z.of_nat (60 * h2 + m2)). repeat split; assumption. }
  split; [ now apply Hiff | ]. split; [ now apply Hiff | ].
  intros -> -> H. apply (Hiff _ E2) in H. unfold distance in H. lia.
Qed.

Lemma clock_times_apart_witness :
  ~ lessThan30Apart (clock 23 50) (clock 0 10).
Proof.
  refine (proj2 (proj2 (clock_times_apart 23 50 0 10 _ _ _ _)) eq_refl eq_refl); lia.
Defined.

(* ================================================================== *)
(** ** Submitting the create form *)

Lemma create_submit_valid (gen : Store.generated) (f : CreateAppointmentForm.form)
      (rows : list Appointment.t) (day : string) :
  CreateAppointmentForm.date f = Some day ->
  CreateAppointmentForm.selectedDoctor f <> "" ->
  CreateAppointmentForm.time f <> "" ->
  CreateAppointmentForm.complaint f <> "" ->
  CreateAppointmentForm.patientId f <> "" ->
  CreateAppointmentForm.handleSubmit gen f rows
  = match CreateAppointmentForm.checkTimeConflict
            rows (CreateAppointmentForm.selectedDoctor f) day
            (CreateAppointmentForm.time f) with
    | JS.Throws _ => (rows, toast_error "Failed to create appointment")
    | JS.Returns true => (rows, conflictToast)
    | JS.Returns false =>
        (rows ++ [CreateAppointmentForm.newRow gen f day],
         toast_success "Appointment created successfully")
    end.
Proof.
  intros Hday Hd Ht Hc Hp. unfold CreateAppointmentForm.handleSubmit.
  apply String.eqb_neq in Hd, Ht, Hc, Hp.
  now rewrite Hday, Hd, Ht, Hc, Hp.
Qed.

Lemma create_submit_invalid (gen : Store.generated) (f : CreateAppointmentForm.form)
      (rows : list Appointment.t) :
  CreateAppointmentForm.date f = None
  \/ CreateAppointmentForm.selectedDoctor f = ""
  \/ CreateAppointmentForm.time f = ""
  \/ CreateAppointmentForm.complaint f = ""
  \/ CreateAppointmentForm.patientId f = "" ->
  exists msg, CreateAppointmentForm.handleSubmit gen f rows = (rows, toast_error msg).
Proof.
  unfold CreateAppointmentForm.handleSubmit.
  intros [H | H]; [ rewrite H; eauto | ].
  destruct (CreateAppointmentForm.date f) as [day|]; [ | eauto ].
  destruct (String.eqb_spec (CreateAppointmentForm.selectedDoctor f) "") as [|Hd];
    [ cbn [orb]; eauto | ].
  destruct (String.eqb_spec (CreateAppointmentForm.time f) "") as [|Ht];
    [ cbn [orb]; eauto | ].
  destruct (String.eqb_spec (CreateAppointmentForm.complaint f) "") as [|Hc];
    [ cbn [orb]; eauto | ].
  cbn [orb].
  destruct (String.eqb_spec (CreateAppointmentForm.patientId f) "") as [|Hp]; [ eauto | ].
  exfalso. destruct H as [H | [H | [H | H]]]; contradiction.
Qed.

(** X6.  Submitting the create form either shows an error and writes
    nothing, or shows the success toast and appends exactly one row; the
    second happens exactly when doctor, date, time, complaint and patient
    are all given and the check finds no conflict, and the appended row is
    scheduled and carries the store's new id and the form's patient,
    doctor, date, time and complaint. *)
Theorem create_submit_outcomes
        (gen : Store.generated) (f : CreateAppointmentForm.form)
        (rows : list Appointment.t) :
  let r := CreateAppointmentForm.handleSubmit gen f rows in
  let accepted :=
    exists day,
      CreateAppointmentForm.date f = Some day
      /\ CreateAppointmentForm.selectedDoctor f <> ""
      /\ CreateAppointmentForm.time f <> ""
      /\ CreateAppointmentForm.complaint f <> ""
      /\ CreateAppointmentForm.patientId f <> ""
      /\ CreateAppointmentForm.checkTimeConflict
           rows (CreateAppointmentForm.selectedDoctor f) day
           (CreateAppointmentForm.time f) = JS.Returns false in
  (accepted ->
   snd r = toast_success "Appointment created successfully"
   /\ exists new,
        fst r = rows ++ [new]
        /\ Appointment.id new = Store.gen_id gen
        /\ Appointment.status new = scheduled
        /\ Appointment.patient_id new = CreateAppointmentForm.patientId f
        /\ Appointment.doctor_id new = CreateAppointmentForm.selectedDoctor f
        /\ Some (Appointment.appointment_date new) = CreateAppointmentForm.date f
        /\ Appointment.appointment_time new = CreateAppointmentForm.time f
        /\ Appointment.complaint new = Some (CreateAppointmentForm.complaint f))
  /\ (~ accepted -> fst r = rows /\ exists msg, snd r = toast_error msg).
Proof.
  intros r accepted. unfold r. split.
  - intros (day & Hday & Hd & Ht & Hc & Hp & Hcheck).
    rewrite (create_submit_valid gen f rows day Hday Hd Ht Hc Hp), Hcheck.
    split; [ reflexivity | ].
    exists (CreateAppointmentForm.newRow gen f day).
    repeat split; try reflexivity. now rewrite Hday.
  - intros Hno.
    destruct (CreateAppointmentForm.date f) as [day|] eqn:Hday;
      [ | destruct (create_submit_invalid gen f rows (or_introl Hday)) as (msg & ->);
          split; [ reflexivity | now exists msg ] ].
    destruct (String.eqb_spec (CreateAppointmentForm.selectedDoctor f) "") as [Hd|Hd];
      [ destruct (create_submit_invalid gen f rows (or_intror (or_introl Hd))) as (msg & ->);
        split; [ reflexivity | now exists msg ] | ].
    destruct (String.eqb_spec (CreateAppointmentForm.time f) "") as [Ht|Ht];
      [ destruct (create_submit_invalid gen f rows
                    (or_intror (or_intror (or_introl Ht)))) as (msg & ->);
        split; [ reflexivity | now exists msg ] | ].
    destruct (String.eqb_spec (CreateAppointmentForm.complaint f) "") as [Hc|Hc];
      [ destruct (create_submit_invalid gen f rows
                    (or_intror (or_intror (or_intror (or_introl Hc))))) as (msg & ->);
        split; [ reflexivity | now exists msg ] | ].
    destruct (String.eqb_spec (CreateAppointmentForm.patientId f) "") as [Hp|Hp];
      [ destruct (create_submit_invalid gen f rows
                    (or_intror (or_intror (or_intror (or_intror Hp))))) as (msg & ->);
        split; [ reflexivity | now exists msg ] | ].
    rewrite (create_submit_valid gen f rows day Hday Hd Ht Hc Hp).
    destruct (create_check_returns rows (CreateAppointmentForm.selectedDoctor f) day
                                   (CreateAppointmentForm.time f)) as [E | E]; rewrite E.
    + split; [ reflexivity | eexists; reflexivity ].
    + exfalso. apply Hno. exists day. repeat split; assumption.
Qed.

Lemma create_submit_outcomes_witness :
  snd (CreateAppointmentForm.handleSubmit
         (Store.mkGenerated "a-2" None None None) secondBooking afterComplete)
  = toast_success "Appointment created successfully"
  /\ exists new,
       fst (CreateAppointmentForm.handleSubmit
              (Store.mkGenerated "a-2" None None None) secondBooking afterComplete)
       = afterComplete ++ [new]
       /\ Appointment.id new = "a-2"
       /\ Appointment.status new = scheduled
       /\ Appointment.patient_id new = "p-2"
       /\ Appointment.doctor_id new = "D"
       /\ Some (Appointment.appointment_date new) = Some "2025-03-10"
       /\ Appointment.appointment_time new = "09:10"
       /\ Appointment.complaint new = Some "fever".
Proof.
  refine (proj1 (create_submit_outcomes
                   (Store.mkGenerated "a-2" None None None) secondBooking afterComplete) _).
  exists "2025-03-10". repeat split; try discriminate; reflexivity.
Defined.

(** With the same values in the form, a submit that follows an accepted
    one meets the row the first one wrote. *)
Lemma resubmit_same_values (gen gen' : Store.generated) (f : CreateAppointmentForm.form)
      (rows : list Appointment.t) (minutes : Z) :
  snd (CreateAppointmentForm.handleSubmit gen f rows)
  = toast_success "Appointment created successfully" ->
  timeToMinutes (CreateAppointmentForm.time f) = JS.Num minutes ->
  CreateAppointmentForm.handleSubmit
    gen' f (fst (CreateAppointmentForm.handleSubmit gen f rows))
  = (fst (CreateAppointmentForm.handleSubmit gen f rows), conflictToast).
Proof.
  intros Hok Hread.
  destruct (CreateAppointmentForm.date f) as [day|] eqn:Hday;
    [ | destruct (create_submit_invalid gen f rows (or_introl Hday)) as (msg & E);
        rewrite E in Hok; discriminate Hok ].
  destruct (String.eqb_spec (CreateAppointmentForm.selectedDoctor f) "") as [Hd|Hd];
    [ destruct (create_submit_invalid gen f rows (or_intror (or_introl Hd))) as (msg & E);
      rewrite E in Hok; discriminate Hok | ].
  destruct (String.eqb_spec (CreateAppointmentForm.time f) "") as [Ht|Ht];
    [ destruct (create_submit_invalid gen f rows
                  (or_intror (or_intror (or_introl Ht)))) as (msg & E);
      rewrite E in Hok; discriminate Hok | ].
  destruct (String.eqb_spec (CreateAppointmentForm.complaint f) "") as [Hc|Hc];
    [ destruct (create_submit_invalid gen f rows
                  (or_intror (or_intror (or_intror (or_introl Hc))))) as (msg & E);
      rewrite E in Hok; discriminate Hok | ].
  destruct (String.eqb_spec (CreateAppointmentForm.patientId f) "") as [Hp|Hp];
    [ destruct (create_submit_invalid gen f rows
                  (or_intror (or_intror (or_intror (or_intror Hp))))) as (msg & E);
      rewrite E in Hok; discriminate Hok | ].
  rewrite (create_submit_valid gen f rows day Hday Hd Ht Hc Hp) in Hok |- *.
  destruct (CreateAppointmentForm.checkTimeConflict
              rows (CreateAppointmentForm.selectedDoctor f) day
              (CreateAppointmentForm.time f)) as [[|]|e]; try discriminate Hok.
  cbn [fst].
  rewrite (create_submit_valid gen' f _ day Hday Hd Ht Hc Hp).
  assert (Hnow : CreateAppointmentForm.checkTimeConflict
                   (rows ++ [CreateAppointmentForm.newRow gen f day])
                   (CreateAppointmentForm.selectedDoctor f) day
                   (CreateAppointmentForm.time f) = JS.Returns true).
  { apply create_conflict_iff. exists (CreateAppointmentForm.newRow gen f day).
    split; [ apply in_or_app; right; now left | ].
    split; [ unfold booked; cbn; auto | ].
    exists 0%Z. split; [ | lia ].
    exists minutes, minutes. cbn [CreateAppointmentForm.newRow Appointment.appointment_time].
    repeat split; try assumption. now rewrite Z.sub_diag. }
  now rewrite Hnow.
Qed.

Lemma dialog_existing_patient
      (pgen : CreateAppointmentDialog.generatedPatient) (gen : Store.generated)
      (f : CreateAppointmentDialog.fields)
      (patients : list Patient.t) (rows : list Appointment.t) :
  CreateAppointmentDialog.isNewPatient f = false ->
  CreateAppointmentDialog.handleSubmit pgen gen f patients rows
  = CreateAppointmentDialog.mkOutcome
      patients
      (fst (CreateAppointmentForm.handleSubmit
              gen
              (CreateAppointmentForm.mkForm
                 (CreateAppointmentDialog.selectedDoctor f)
                 (CreateAppointmentDialog.selectedPatient f)
                 (CreateAppointmentDialog.date f)
                 (CreateAppointmentDialog.time f)
                 (CreateAppointmentDialog.complaint f))
              rows))
      (snd (CreateAppointmentForm.handleSubmit
              gen
              (CreateAppointmentForm.mkForm
                 (CreateAppointmentDialog.selectedDoctor f)
                 (CreateAppointmentDialog.selectedPatient f)
                 (CreateAppointmentDialog.date f)
                 (CreateAppointmentDialog.time f)
                 (CreateAppointmentDialog.complaint f))
              rows)).
Proof.
  intros Hnew. unfold CreateAppointmentDialog.handleSubmit. rewrite Hnew.
  destruct ((CreateAppointmentDialog.selectedDoctor f =? "")
            || match CreateAppointmentDialog.date f with
               | Some _ => false
               | None => true
               end
            || (CreateAppointmentDialog.time f =? "")
            || (CreateAppointmentDialog.complaint f =? "")) eqn:E; [ | reflexivity ].
  unfold CreateAppointmentForm.handleSubmit. cbn.
  destruct (CreateAppointmentDialog.date f); [ | reflexivity ].
  rewrite orb_false_r in E. now rewrite E.
Qed.

(** X7.  What a submit right after an accepted one does.  The accepted
    submit ends with [resetForm()], so the form is empty again: sent as it
    stands, it writes nothing to either table and asks for the required
    fields.  When the nurse types the same values again, for the same
    existing patient and a clock time, the submit is refused with the
    time-conflict toast and both tables stay as the first submit left
    them.  A refused submit leaves the fields as they were. *)
Theorem create_resubmit_after_success
        (pgen pgen' : CreateAppointmentDialog.generatedPatient)
        (gen gen' : Store.generated) (f : CreateAppointmentDialog.fields)
        (patients : list Patient.t) (rows : list Appointment.t) :
  let first := CreateAppointmentDialog.handleSubmit pgen gen f patients rows in
  let held := CreateAppointmentDialog.fieldsAfterSubmit f first in
  let patients1 := CreateAppointmentDialog.patients_after first in
  let rows1 := CreateAppointmentDialog.appointments_after first in
  (CreateAppointmentDialog.shown first = toast_success "Appointment created successfully" ->
   held = CreateAppointmentDialog.resetForm
   /\ CreateAppointmentDialog.handleSubmit pgen' gen' held patients1 rows1
      = CreateAppointmentDialog.mkOutcome
          patients1 rows1 (toast_error "Please fill in all required fields")
   /\ (forall minutes,
         CreateAppointmentDialog.isNewPatient f = false ->
         clockReading (CreateAppointmentDialog.time f) minutes ->
         CreateAppointmentDialog.handleSubmit pgen' gen' f patients1 rows1
         = CreateAppointmentDialog.mkOutcome patients1 rows1 conflictToast))
  /\ (forall msg, CreateAppointmentDialog.shown first = toast_error msg -> held = f).
Proof.
  intros first held patients1 rows1. split.
  - intros Hok.
    assert (Hheld : held = CreateAppointmentDialog.resetForm).
    { unfold held, CreateAppointmentDialog.fieldsAfterSubmit. now rewrite Hok. }
    split; [ exact Hheld | ]. split; [ rewrite Hheld; reflexivity | ].
    intros minutes Hnew Hclock.
    unfold patients1, rows1. unfold first in Hok |- *.
    rewrite (dialog_existing_patient pgen gen f patients rows Hnew) in Hok |- *.
    cbn [CreateAppointmentDialog.shown CreateAppointmentDialog.patients_after
         CreateAppointmentDialog.appointments_after] in Hok |- *.
    rewrite (dialog_existing_patient pgen' gen' f patients _ Hnew).
    rewrite (resubmit_same_values gen gen' _ rows minutes Hok
               (clockReading_reads _ _ Hclock)).
    reflexivity.
  - intros msg Herr. unfold held, CreateAppointmentDialog.fieldsAfterSubmit.
    now rewrite Herr.
Qed.

Lemma create_resubmit_after_success_witness :
  CreateAppointmentDialog.handleSubmit
    (CreateAppointmentDialog.mkGeneratedPatient "p-9" None None)
    (Store.mkGenerated "a-3" None None None)
    CreateAppointmentDialog.resetForm [examplePatient] afterSecondBooking
  = CreateAppointmentDialog.mkOutcome
      [examplePatient] afterSecondBooking
      (toast_error "Please fill in all required fields")
  /\ CreateAppointmentDialog.handleSubmit
       (CreateAppointmentDialog.mkGeneratedPatient "p-9" None None)
       (Store.mkGenerated "a-3" None None None)
       returningPatient [examplePatient] afterSecondBooking
     = CreateAppointmentDialog.mkOutcome [examplePatient] afterSecondBooking conflictToast.
Proof.
  destruct (proj1 (create_resubmit_after_success
                     (CreateAppointmentDialog.mkGeneratedPatient "p-8" None None)
                     (CreateAppointmentDialog.mkGeneratedPatient "p-9" None None)
                     (Store.mkGenerated "a-2" None None None)
                     (Store.mkGenerated "a-3" None None None)
                     returningPatient [examplePatient] afterComplete)
                  eq_refl)
    as (_ & Hempty & Hretyped).
  split; [ exact Hempty | ].
  refine (Hretyped 550%Z eq_refl _).
  exists 9, 10. repeat split; [ lia | lia | now left ].
Defined.

(* ================================================================== *)
(** ** The new-patient branch *)

(** X8.  With an existing patient selected the full submit is the create
    form's submit on that patient and never touches the patients table;
    when a required appointment field is missing nothing is written to
    either table, even if the new patient's data is complete; and a new
    patient without first name or phone is not inserted and no
    appointment is written. *)
Theorem dialog_submit_validation
        (pgen : CreateAppointmentDialog.generatedPatient) (gen : Store.generated)
        (f : CreateAppointmentDialog.fields)
        (patients : list Patient.t) (rows : list Appointment.t) :
  let r := CreateAppointmentDialog.handleSubmit pgen gen f patients rows in
  (CreateAppointmentDialog.isNewPatient f = false ->
   CreateAppointmentDialog.patients_after r = patients
   /\ (CreateAppointmentDialog.appointments_after r, CreateAppointmentDialog.shown r)
      = CreateAppointmentForm.handleSubmit
          gen
          (CreateAppointmentForm.mkForm
             (CreateAppointmentDialog.selectedDoctor f)
             (CreateAppointmentDialog.selectedPatient f)
             (CreateAppointmentDialog.date f)
             (CreateAppointmentDialog.time f)
             (CreateAppointmentDialog.complaint f))
          rows)
  /\ (CreateAppointmentDialog.selectedDoctor f = ""
      \/ CreateAppointmentDialog.date f = None
      \/ CreateAppointmentDialog.time f = ""
      \/ CreateAppointmentDialog.complaint f = "" ->
      r = CreateAppointmentDialog.mkOutcome
            patients rows (toast_error "Please fill in all required fields"))
  /\ (CreateAppointmentDialog.selectedDoctor f <> "" ->
      CreateAppointmentDialog.date f <> None ->
      CreateAppointmentDialog.time f <> "" ->
      CreateAppointmentDialog.complaint f <> "" ->
      CreateAppointmentDialog.isNewPatient f = true ->
      CreateAppointmentDialog.first_name (CreateAppointmentDialog.newPatient f) = ""
      \/ CreateAppointmentDialog.phone (CreateAppointmentDialog.newPatient f) = "" ->
      r = CreateAppointmentDialog.mkOutcome
            patients rows (toast_error "Please fill in patient name and phone")).
Proof.
  intros r. unfold r, CreateAppointmentDialog.handleSubmit. split; [ | split ].
  - intros Hnew. rewrite Hnew.
    destruct ((CreateAppointmentDialog.selectedDoctor f =? "")
              || match CreateAppointmentDialog.date f with
                 | Some _ => false
                 | None => true
                 end
              || (CreateAppointmentDialog.time f =? "")
              || (CreateAppointmentDialog.complaint f =? "")) eqn:E.
    + cbn. split; [ reflexivity | ].
      unfold CreateAppointmentForm.handleSubmit. cbn.
      destruct (CreateAppointmentDialog.date f); [ | reflexivity ].
      rewrite orb_false_r in E. now rewrite E.
    + cbn. split; [ reflexivity | ]. now destruct (CreateAppointmentForm.handleSubmit _ _ _).
  - intros H.
    assert (E : (CreateAppointmentDialog.selectedDoctor f =? "")
                || match CreateAppointmentDialog.date f with
                   | Some _ => false
                   | None => true
                   end
                || (CreateAppointmentDialog.time f =? "")
                || (CreateAppointmentDialog.complaint f =? "") = true).
    { destruct H as [H | [H | [H | H]]]; rewrite H; cbn;
        rewrite ?orb_true_r; reflexivity. }
    now rewrite E.
  - intros Hd Hday Ht Hc Hnew Hmissing.
    apply String.eqb_neq in Hd, Ht, Hc. rewrite Hd, Ht, Hc, Hnew.
    destruct (CreateAppointmentDialog.date f); [ | contradiction ].
    cbn [orb].
    assert (E : (CreateAppointmentDialog.first_name (CreateAppointmentDialog.newPatient f) =? "")
                || (CreateAppointmentDialog.phone (CreateAppointmentDialog.newPatient f) =? "")
                = true).
    { destruct Hmissing as [H | H]; rewrite H; cbn; rewrite ?orb_true_r; reflexivity. }
    now rewrite E.
Qed.

Lemma dialog_submit_validation_witness :
  CreateAppointmentDialog.handleSubmit
    (CreateAppointmentDialog.mkGeneratedPatient "p-9" None None)
    (Store.mkGenerated "a-9" None None None)
    (CreateAppointmentDialog.mkFields
       "D" "" (Some "2025-03-10") "11:00" "fever" true
       (CreateAppointmentDialog.mkNewPatientData "Rui" "" "" "37"))
    [examplePatient] exampleDay
  = CreateAppointmentDialog.mkOutcome
      [examplePatient] exampleDay
      (toast_error "Please fill in patient name and phone").
Proof.
  refine (proj2 (proj2 (dialog_submit_validation
                          (CreateAppointmentDialog.mkGeneratedPatient "p-9" None None)
                          (Store.mkGenerated "a-9" None None None)
                          (CreateAppointmentDialog.mkFields
                             "D" "" (Some "2025-03-10") "11:00" "fever" true
                             (CreateAppointmentDialog.mkNewPatientData "Rui" "" "" "37"))
                          [examplePatient] exampleDay))
                _ _ _ _ eq_refl _); try discriminate.
  right. reflexivity.
Defined.

(** X9.  The new patient is inserted before the conflict check and is not
    taken back: when the form is complete, a new patient is entered and
    the check reports a conflict, the patients table has gained the new
    patient's row while the appointments table is unchanged and the toast
    reports the time conflict. *)
Theorem new_patient_kept_on_conflict
        (pgen : CreateAppointmentDialog.generatedPatient) (gen : Store.generated)
        (f : CreateAppointmentDialog.fields)
        (patients : list Patient.t) (rows : list Appointment.t) (day : string) :
  CreateAppointmentDialog.isNewPatient f = true ->
  CreateAppointmentDialog.date f = Some day ->
  CreateAppointmentDialog.selectedDoctor f <> "" ->
  CreateAppointmentDialog.time f <> "" ->
  CreateAppointmentDialog.complaint f <> "" ->
  CreateAppointmentDialog.first_name (CreateAppointmentDialog.newPatient f) <> "" ->
  CreateAppointmentDialog.phone (CreateAppointmentDialog.newPatient f) <> "" ->
  CreateAppointmentDialog.pgen_id pgen <> "" ->
  CreateAppointmentForm.checkTimeConflict
    rows (CreateAppointmentDialog.selectedDoctor f) day (CreateAppointmentDialog.time f)
  = JS.Returns true ->
  let r := CreateAppointmentDialog.handleSubmit pgen gen f patients rows in
  let created := CreateAppointmentDialog.newPatientRow pgen (CreateAppointmentDialog.newPatient f) in
  CreateAppointmentDialog.patients_after r = patients ++ [created]
  /\ Patient.first_name created
     = CreateAppointmentDialog.first_name (CreateAppointmentDialog.newPatient f)
  /\ Patient.phone created
     = CreateAppointmentDialog.phone (CreateAppointmentDialog.newPatient f)
  /\ CreateAppointmentDialog.appointments_after r = rows
  /\ CreateAppointmentDialog.shown r = conflictToast.
Proof.
  intros Hnew Hday Hd Ht Hc Hfn Hph Hid Hconflict r created.
  unfold r, CreateAppointmentDialog.handleSubmit.
  pose proof Hd as Hd'. pose proof Ht as Ht'. pose proof Hc as Hc'.
  apply String.eqb_neq in Hd', Ht', Hc', Hfn, Hph.
  rewrite Hd', Ht', Hc', Hnew, Hday, Hfn, Hph. cbn [orb].
  rewrite (create_submit_valid gen _ rows day) by (cbn; first [ assumption | reflexivity ]).
  cbn [CreateAppointmentForm.selectedDoctor CreateAppointmentForm.time].
  rewrite Hconflict. repeat split.
Qed.

Lemma new_patient_kept_on_conflict_witness :
  CreateAppointmentDialog.patients_after
    (CreateAppointmentDialog.handleSubmit
       (CreateAppointmentDialog.mkGeneratedPatient "p-9" None None)
       (Store.mkGenerated "a-9" None None None)
       walkIn [examplePatient] afterFirstBooking)
  = [examplePatient]
      ++ [CreateAppointmentDialog.newPatientRow
            (CreateAppointmentDialog.mkGeneratedPatient "p-9" None None)
            (CreateAppointmentDialog.newPatient walkIn)]
  /\ CreateAppointmentDialog.appointments_after
       (CreateAppointmentDialog.handleSubmit
          (CreateAppointmentDialog.mkGeneratedPatient "p-9" None None)
          (Store.mkGenerated "a-9" None None None)
          walkIn [examplePatient] afterFirstBooking)
     = afterFirstBooking.
Proof.
  destruct (new_patient_kept_on_conflict
              (CreateAppointmentDialog.mkGeneratedPatient "p-9" None None)
              (Store.mkGenerated "a-9" None None None)
              walkIn [examplePatient] afterFirstBooking "2025-03-10"
              eq_refl eq_refl
              ltac:(discriminate) ltac:(discriminate) ltac:(discriminate)
              ltac:(discriminate) ltac:(discriminate) ltac:(discriminate)
              eq_refl)
    as (Hp & _ & _ & Ha & _).
  split; [ exact Hp | exact Ha ].
Defined.

Lemma digit_not_prefix_char (c : ascii) (d : Z) :
  JS.digit c = Some d ->
  Globals.isWhiteSpace c = false /\ c <> "-"%char /\ c <> "+"%char
  /\ c <> "x"%char /\ c <> "X"%char.
Proof.
  destruct c as [[] [] [] [] [] [] [] []]; vm_compute; intros H;
    try discriminate H; repeat split; discriminate.
Qed.

Lemma digitPrefix_digits (s tail : string) (a : Z) :
  allDigits s = true ->
  match tail with
  | String c _ => JS.digit c = None
  | EmptyString => True
  end ->
  exists v, JS.digits a s = Some v
            /\ Globals.digitPrefix JS.digit 10 (Some a) (s ++ tail) = Some v.
Proof.
  revert a. induction s as [|c s IH]; intros a Hs Htail.
  - exists a. split; [ reflexivity | ].
    destruct tail as [|c t]; [ reflexivity | ].
    cbn [String.append Globals.digitPrefix]. now rewrite Htail.
  - cbn [allDigits] in Hs. cbn [JS.digits String.append Globals.digitPrefix].
    destruct (JS.digit c) as [d|]; [ | discriminate Hs ].
    exact (IH (10 * a + d)%Z Hs Htail).
Qed.

(** On a run of digits followed by nothing or by a non-digit other than
    the x of a hexadecimal prefix, [parseInt] reads the run in base 10. *)
Lemma parseInt_digits (s tail : string) :
  allDigits s = true -> s <> "" ->
  match tail with
  | String c _ => JS.digit c = None /\ c <> "x"%char /\ c <> "X"%char
  | EmptyString => True
  end ->
  Globals.parseInt (s ++ tail) = JS.Num (digitsValue s).
Proof.
  intros Hs Hne Htail. destruct s as [|c s]; [ contradiction | ].
  cbn [allDigits] in Hs. destruct (JS.digit c) as [d|] eqn:Ec; [ | discriminate Hs ].
  destruct (digit_not_prefix_char c d Ec) as (Hw & Hminus & Hplus & _).
  assert (Htail' : match tail with
                   | String c0 _ => JS.digit c0 = None
                   | EmptyString => True
                   end) by (destruct tail; tauto).
  destruct (digitPrefix_digits s tail (10 * 0 + d) Hs Htail') as (v & Hv & Hp).
  assert (Hval : digitsValue (String c s) = v).
  { unfold digitsValue. cbn [JS.digits]. now rewrite Ec, Hv. }
  assert (Hdec : Globals.digitPrefix JS.digit 10 None (String c s ++ tail) = Some v).
  { cbn [String.append Globals.digitPrefix]. now rewrite Ec. }
  (* the second character is no x: it is a digit of the run or the head of the tail *)
  assert (Hsecond : match (s ++ tail)%string with
                    | String c2 _ => c2 <> "x"%char /\ c2 <> "X"%char
                    | EmptyString => True
                    end).
  { destruct s as [|c2 s2].
    - cbn [String.append]. destruct tail; tauto.
    - cbn [String.append]. cbn [allDigits] in Hs.
      destruct (JS.digit c2) as [d2|] eqn:E2; [ | discriminate Hs ].
      destruct (digit_not_prefix_char c2 d2 E2) as (_ & _ & _ & Hx & HX). tauto. }
  unfold Globals.parseInt. cbn [String.append Globals.trimStart]. rewrite Hw.
  assert (Hsigned : match String c (s ++ tail) with
                    | String "-" rest => ((-1)%Z, rest)
                    | String "+" rest => (1%Z, rest)
                    | _ => (1%Z, String c (s ++ tail))
                    end = (1%Z, String c (s ++ tail))).
  { clear - Hminus Hplus.
    destruct c as [[] [] [] [] [] [] [] []]; try reflexivity;
      [ exfalso; now apply Hplus | exfalso; now apply Hminus ]. }
  rewrite Hsigned. cbn [fst snd].
  assert (Hbody : match String c (s ++ tail) with
                  | String "0" (String "x" rest) =>
                      Globals.digitPrefix Globals.hexDigit 16 None rest
                  | String "0" (String "X" rest) =>
                      Globals.digitPrefix Globals.hexDigit 16 None rest
                  | _ => Globals.digitPrefix JS.digit 10 None (String c (s ++ tail))
                  end = Globals.digitPrefix JS.digit 10 None (String c (s ++ tail))).
  { clear - Hsecond. destruct (s ++ tail)%string as [|c2 t].
    - destruct c as [[] [] [] [] [] [] [] []]; reflexivity.
    - destruct Hsecond as [Hx HX].
      destruct c as [[] [] [] [] [] [] [] []]; try reflexivity.
      destruct c2 as [[] [] [] [] [] [] [] []]; try reflexivity;
        [ exfalso; now apply Hx | exfalso; now apply HX ]. }
  rewrite Hbody. change (String c (s ++ tail)) with (String c s ++ tail)%string.
  rewrite Hdec, Hval. f_equal. lia.
Qed.

Lemma digit_range (c : ascii) (d : Z) : JS.digit c = Some d -> (0 <= d <= 9)%Z.
Proof.
  unfold JS.digit.
  destruct ((48 <=? nat_of_ascii c)%nat && (nat_of_ascii c <=? 57)%nat) eqn:E;
    [ | discriminate ].
  intros H. injection H as <-.
  apply andb_true_iff in E. destruct E as [E1 E2].
  apply Nat.leb_le in E1, E2. lia.
Qed.

Lemma digits_bound (s : string) (acc : Z) :
  allDigits s = true -> (0 <= acc)%Z ->
  exists z, JS.digits acc s = Some z
            /\ (0 <= z < (acc + 1) * 10 ^ Z.of_nat (String.length s))%Z.
Proof.
  revert acc. induction s as [|c s IH]; intros acc Hs Hacc.
  - exists acc. split; [ reflexivity | ]. cbn [String.length Z.of_nat]. lia.
  - cbn [allDigits] in Hs. cbn [JS.digits].
    destruct (JS.digit c) as [d|] eqn:Ec; [ | discriminate Hs ].
    pose proof (digit_range c d Ec) as Hd.
    destruct (IH (10 * acc + d)%Z Hs ltac:(lia)) as (z & Hz & Hlo & Hhi).
    exists z. split; [ exact Hz | ]. split; [ exact Hlo | ].
    cbn [String.length]. rewrite Nat2Z.inj_succ, Z.pow_succ_r by lia.
    assert (Hpow : (0 < 10 ^ Z.of_nat (String.length s))%Z)
      by (apply Z.pow_pos_nonneg; lia).
    nia.
Qed.

(** A run of at most 15 decimal digits is below 2^53, where every
    integer is a number of the browser. *)
Lemma digitsValue_exact (s : string) :
  allDigits s = true -> String.length s <= 15 -> (0 <= digitsValue s < 2 ^ 53)%Z.
Proof.
  intros Hs Hlen. unfold digitsValue.
  destruct (digits_bound s 0 Hs ltac:(lia)) as (z & -> & Hlo & Hhi).
  split; [ exact Hlo | ].
  assert (Hpow : (10 ^ Z.of_nat (String.length s) <= 10 ^ 15)%Z)
    by (apply Z.pow_le_mono_r; lia).
  assert (H53 : (10 ^ 15 < 2 ^ 53)%Z) by reflexivity.
  lia.
Qed.

(** X10.  The age column of a new patient: an empty age input is stored
    as null; an age typed as a run of at most 15 decimal digits, which is
    below 2^53 and so read without rounding, is stored as that number;
    and when a fraction follows the digits only the whole part is
    stored. *)
Theorem age_column_spec (s fraction : string) :
  CreateAppointmentDialog.ageColumn "" = None
  /\ (allDigits s = true -> s <> "" -> String.length s <= 15 ->
      (0 <= digitsValue s < 2 ^ 53)%Z
      /\ CreateAppointmentDialog.ageColumn s = Some (digitsValue s)
      /\ CreateAppointmentDialog.ageColumn (s ++ "." ++ fraction) = Some (digitsValue s)).
Proof.
  split; [ reflexivity | ]. intros Hs Hne Hlen.
  split; [ now apply digitsValue_exact | ].
  assert (Hnonempty : forall tail, ((s ++ tail)%string =? "") = false).
  { intros tail. destruct s; [ contradiction | reflexivity ]. }
  split.
  - unfold CreateAppointmentDialog.ageColumn.
    pose proof (parseInt_digits s "" Hs Hne I) as E.
    pose proof (Hnonempty "") as Hn.
    assert (Hnil : (s ++ "")%string = s).
    { clear. induction s as [|c s IH]; [ reflexivity | cbn; now rewrite IH ]. }
    rewrite Hnil in E, Hn. now rewrite Hn, E.
  - unfold CreateAppointmentDialog.ageColumn.
    change (s ++ "." ++ fraction)%string with (s ++ String "." fraction)%string.
    rewrite Hnonempty.
    rewrite (parseInt_digits s (String "." fraction) Hs Hne); [ reflexivity | ].
    repeat split; discriminate.
Qed.

Lemma age_column_spec_witness :
  (0 <= digitsValue "37" < 2 ^ 53)%Z
  /\ CreateAppointmentDialog.ageColumn "37" = Some 37%Z
  /\ CreateAppointmentDialog.ageColumn "37.5" = Some 37%Z.
Proof.
  refine (proj2 (age_column_spec "37" "5") eq_refl _ _); [ discriminate | cbn; lia ].
Defined.

(* ================================================================== *)
(** ** Submitting the edit form *)

Lemma update_schedule_map (now doc day time key : string) (s : AppointmentStatus)
      (rows : list Appointment.t) :
  Store.update now (Appointment.with_schedule doc day time s) key rows
  = map (fun r => if Appointment.id r =? key then rescheduled now doc day time s r else r)
        rows.
Proof. reflexivity. Qed.

Lemma edit_submit_valid (now : string) (apt : Appointment.t)
      (doc day time : string) (s : AppointmentStatus) (rows : list Appointment.t) :
  doc <> "" -> time <> "" ->
  EditAppointmentForm.handleSubmit now (Some apt) doc (Some day) time s rows
  = match EditAppointmentForm.checkTimeConflict rows doc day time (Appointment.id apt) with
    | JS.Throws _ => (rows, toast_error "Failed to update appointment")
    | JS.Returns true => (rows, conflictToast)
    | JS.Returns false =>
        (map (fun r => if Appointment.id r =? Appointment.id apt
                       then rescheduled now doc day time s r else r) rows,
         toast_success "Appointment updated successfully")
    end.
Proof.
  intros Hd Ht. unfold EditAppointmentForm.handleSubmit.
  apply String.eqb_neq in Hd, Ht. now rewrite Hd, Ht.
Qed.

Lemma edit_submit_invalid (now : string) (apt : Appointment.t)
      (doc : string) (date : option string) (time : string)
      (s : AppointmentStatus) (rows : list Appointment.t) :
  date = None \/ doc = "" \/ time = "" ->
  EditAppointmentForm.handleSubmit now (Some apt) doc date time s rows
  = (rows, toast_error "Please fill in all required fields").
Proof.
  unfold EditAppointmentForm.handleSubmit.
  intros [-> | H]; [ reflexivity | ].
  destruct date; [ | reflexivity ].
  destruct H as [-> | ->]; [ reflexivity | ].
  now rewrite orb_true_r.
Qed.

Lemma Forall2_map_same {A : Type} (R : A -> A -> Prop) (g : A -> A) (l : list A) :
  (forall a, R a (g a)) -> Forall2 R l (map g l).
Proof. intros H. induction l; cbn; constructor; auto. Qed.

Lemma sameIdentity_refl (r : Appointment.t) : sameIdentity r r.
Proof. repeat split. Qed.

Lemma sameIdentity_update (now key : string) (patch : Appointment.t -> Appointment.t)
      (r : Appointment.t) :
  sameIdentity r (patch r) ->
  sameIdentity r (if Appointment.id r =? key
                  then Appointment.with_updated_at now (patch r) else r).
Proof.
  intros H. destruct (Appointment.id r =? key); [ | apply sameIdentity_refl ].
  exact H.
Qed.

(** X11.  Submitting the edit form either shows an error and leaves the
    table as it is, or shows the success toast and rewrites, in every row
    of the edited id, the doctor, date, time and status to the form's
    values and [updated_at] to the time of the update; the second happens
    exactly when doctor, date and time are given and the check finds no
    conflict.  In both cases the table keeps its length, and every row its
    place, id, patient, complaint and creation time. *)
Theorem edit_submit_outcomes
        (now : string) (apt : Appointment.t) (doc : string) (date : option string)
        (time : string) (s : AppointmentStatus) (rows : list Appointment.t) :
  let r := EditAppointmentForm.handleSubmit now (Some apt) doc date time s rows in
  let accepted :=
    exists day,
      date = Some day /\ doc <> "" /\ time <> ""
      /\ EditAppointmentForm.checkTimeConflict rows doc day time (Appointment.id apt)
         = JS.Returns false in
  (accepted ->
   snd r = toast_success "Appointment updated successfully"
   /\ exists day,
        date = Some day
        /\ fst r = map (fun a => if Appointment.id a =? Appointment.id apt
                                 then rescheduled now doc day time s a else a) rows)
  /\ (~ accepted -> fst r = rows /\ exists msg, snd r = toast_error msg)
  /\ length (fst r) = length rows
  /\ Forall2 sameIdentity rows (fst r).
Proof.
  intros r accepted.
  assert (Hcases : (accepted /\ exists day, date = Some day
                      /\ r = (map (fun a => if Appointment.id a =? Appointment.id apt
                                            then rescheduled now doc day time s a else a) rows,
                              toast_success "Appointment updated successfully"))
                   \/ (~ accepted /\ exists msg, r = (rows, toast_error msg))).
  { unfold r, accepted.
    destruct date as [day|];
      [ | right; split; [ intros (d & H & _); discriminate H
                        | rewrite edit_submit_invalid by auto; eauto ] ].
    destruct (String.eqb_spec doc "") as [Hd|Hd];
      [ right; split; [ intros (d & _ & H & _); contradiction
                      | rewrite edit_submit_invalid by auto; eauto ] | ].
    destruct (String.eqb_spec time "") as [Ht|Ht];
      [ right; split; [ intros (d & _ & _ & H & _); contradiction
                      | rewrite edit_submit_invalid by auto; eauto ] | ].
    rewrite (edit_submit_valid now apt doc day time s rows Hd Ht).
    destruct (edit_check_returns rows doc day time (Appointment.id apt)) as [E | E];
      rewrite E.
    - right. split; [ | eexists; reflexivity ].
      intros (d & Hday & _ & _ & Hc). injection Hday as <-. rewrite E in Hc. discriminate Hc.
    - left. split; [ exists day; auto | exists day; auto ]. }
  destruct Hcases as [(Hacc & day & Hday & Hr) | (Hno & msg & Hr)]; rewrite Hr; cbn [fst snd].
  - split; [ intros _; split; [ reflexivity | exists day; auto ] | ].
    split; [ intros Hn; contradiction | ].
    split; [ apply length_map | ].
    apply Forall2_map_same. intros a.
    destruct (Appointment.id a =? Appointment.id apt);
      [ repeat split | apply sameIdentity_refl ].
  - split; [ intros Ha; contradiction | ].
    split; [ intros _; split; [ reflexivity | now exists msg ] | ].
    split; [ reflexivity | ].
    rewrite <- (map_id rows) at 2. apply Forall2_map_same. intros a. apply sameIdentity_refl.
Qed.

Lemma edit_submit_outcomes_witness :
  snd (EditAppointmentForm.handleSubmit
         "2025-03-09T10:00" (Some (row "a-2" "D" "2025-03-10" "09:20" scheduled))
         "D" (Some "2025-03-10") "09:40" scheduled exampleDay)
  = toast_success "Appointment updated successfully"
  /\ exists day,
       Some "2025-03-10" = Some day
       /\ fst (EditAppointmentForm.handleSubmit
                 "2025-03-09T10:00" (Some (row "a-2" "D" "2025-03-10" "09:20" scheduled))
                 "D" (Some "2025-03-10") "09:40" scheduled exampleDay)
          = map (fun a => if Appointment.id a =? "a-2"
                          then rescheduled "2025-03-09T10:00" "D" day "09:40" scheduled a
                          else a) exampleDay.
Proof.
  refine (proj1 (edit_submit_outcomes
                   "2025-03-09T10:00" (row "a-2" "D" "2025-03-10" "09:20" scheduled)
                   "D" (Some "2025-03-10") "09:40" scheduled exampleDay) _).
  exists "2025-03-10". repeat split; try discriminate; reflexivity.
Defined.

Lemma filter_others_update (now key : string) (patch : Appointment.t -> Appointment.t)
      (rows : list Appointment.t) :
  (forall a, Appointment.id (patch a) = Appointment.id a) ->
  filter (fun a => negb (Appointment.id a =? key)) (Store.update now patch key rows)
  = filter (fun a => negb (Appointment.id a =? key)) rows.
Proof.
  intros Hid. unfold Store.update.
  induction rows as [|a rows IH]; [ reflexivity | ].
  cbn [map filter]. rewrite IH.
  destruct (Appointment.id a =? key) eqn:E.
  - cbn [Appointment.with_updated_at Appointment.id]. rewrite Hid, E. reflexivity.
  - rewrite E. reflexivity.
Qed.

(** The edit form's check is blind to any update of the rows of the
    edited id. *)
Lemma edit_check_after_update (now key : string) (patch : Appointment.t -> Appointment.t)
      (rows : list Appointment.t) (doc day time : string) :
  (forall a, Appointment.id (patch a) = Appointment.id a) ->
  EditAppointmentForm.checkTimeConflict (Store.update now patch key rows) doc day time key
  = EditAppointmentForm.checkTimeConflict rows doc day time key.
Proof.
  intros Hid. rewrite !edit_check_others. now rewrite filter_others_update.
Qed.

(** X12.  Saving the same edit twice is the same as saving it once: a
    second submit of the edit form with the same fields, at the same
    instant of the store's clock, leaves the table exactly as the first
    submit made it, whether the first was accepted or refused. *)
Theorem edit_submit_idempotent
        (now : string) (apt : Appointment.t) (doc : string) (date : option string)
        (time : string) (s : AppointmentStatus) (rows : list Appointment.t) :
  let once := fst (EditAppointmentForm.handleSubmit now (Some apt) doc date time s rows) in
  EditAppointmentForm.handleSubmit now (Some apt) doc date time s once
  = (once, snd (EditAppointmentForm.handleSubmit now (Some apt) doc date time s rows)).
Proof.
  intros once. unfold once.
  destruct date as [day|]; [ | now rewrite !edit_submit_invalid by auto ].
  destruct (String.eqb_spec doc "") as [Hd|Hd];
    [ now rewrite !edit_submit_invalid by auto | ].
  destruct (String.eqb_spec time "") as [Ht|Ht];
    [ now rewrite !edit_submit_invalid by auto | ].
  rewrite !(edit_submit_valid now apt doc day time s) by assumption.
  destruct (EditAppointmentForm.checkTimeConflict rows doc day time (Appointment.id apt))
    as [[|]|e] eqn:E; cbn [fst snd]; try now rewrite E.
  rewrite <- update_schedule_map.
  rewrite edit_check_after_update, E by reflexivity.
  f_equal. unfold Store.update. rewrite map_map. apply map_ext. intros a.
  destruct (Appointment.id a =? Appointment.id apt) eqn:Ea; cbn.
  - now rewrite Ea.
  - now rewrite Ea.
Qed.

(** X13.  A cancellation can be taken back through the edit form: for an
    appointment of a table with unique ids whose slot no other booked
    appointment is within 30 minutes of, cancelling it and then saving
    the edit form with its own doctor, date, time and former status is
    accepted and gives back the table as it was before the cancellation,
    but for the [updated_at] of that appointment. *)
Theorem cancel_then_reinstate
        (now1 now2 : string) (apt : Appointment.t) (rows : list Appointment.t) :
  Clinic.unique_ids rows -> In apt rows ->
  Appointment.doctor_id apt <> "" -> Appointment.appointment_time apt <> "" ->
  EditAppointmentForm.checkTimeConflict
    rows (Appointment.doctor_id apt) (Appointment.appointment_date apt)
    (Appointment.appointment_time apt) (Appointment.id apt) = JS.Returns false ->
  EditAppointmentForm.handleSubmit
    now2 (Some apt) (Appointment.doctor_id apt) (Some (Appointment.appointment_date apt))
    (Appointment.appointment_time apt) (Appointment.status apt)
    (AppointmentDetailsModal.handleCancel now1 apt rows)
  = (map (touched now2 (Appointment.id apt)) rows,
     toast_success "Appointment updated successfully").
Proof.
  intros Hu Hin Hd Ht Hcheck.
  rewrite edit_submit_valid by assumption.
  unfold AppointmentDetailsModal.handleCancel.
  rewrite edit_check_after_update, Hcheck by reflexivity.
  f_equal. unfold Store.update. rewrite map_map. apply map_ext_in. intros r Hr.
  unfold touched.
  destruct (String.eqb_spec (Appointment.id r) (Appointment.id apt)) as [E | E].
  - assert (r = apt) by (now apply (unique_ids_inj rows)). subst r.
    cbn [Appointment.with_updated_at Appointment.with_status Appointment.id].
    rewrite String.eqb_refl. reflexivity.
  - apply String.eqb_neq in E. now rewrite E.
Qed.

Lemma cancel_then_reinstate_witness :
  EditAppointmentForm.handleSubmit
    "2025-03-09T18:00" (Some (row "a-2" "D" "2025-03-10" "10:00" scheduled))
    "D" (Some "2025-03-10") "10:00" scheduled
    (AppointmentDetailsModal.handleCancel
       "2025-03-09T17:00" (row "a-2" "D" "2025-03-10" "10:00" scheduled) twoWaiting)
  = (map (touched "2025-03-09T18:00" "a-2") twoWaiting,
     toast_success "Appointment updated successfully").
Proof.
  refine (cancel_then_reinstate
            "2025-03-09T17:00" "2025-03-09T18:00"
            (row "a-2" "D" "2025-03-10" "10:00" scheduled) twoWaiting _ _ _ _ eq_refl).
  - unfold Clinic.unique_ids. simpl. repeat constructor; simpl; intuition discriminate.
  - simpl. auto.
  - discriminate.
  - discriminate.
Defined.

(* ================================================================== *)
(** ** Updates by id *)

Lemma update_unknown_id (now key : string) (patch : Appointment.t -> Appointment.t)
      (rows : list Appointment.t) :
  (forall r, In r rows -> Appointment.id r <> key) ->
  Store.update now patch key rows = rows.
Proof.
  intros H. unfold Store.update. rewrite <- (map_id rows) at 2.
  apply map_ext_in. intros r Hr.
  specialize (H r Hr). apply String.eqb_neq in H. now rewrite H.
Qed.

(** X14.  An action on an appointment whose id is in no row of the table
    changes nothing: starting a consultation, marking a no-show and
    cancelling leave the table as it is, and so does an accepted edit,
    which nevertheless shows its success toast. *)
Theorem unknown_id_changes_nothing
        (now : string) (apt : Appointment.t) (rows : list Appointment.t)
        (doc day time : string) (s : AppointmentStatus) :
  (forall r, In r rows -> Appointment.id r <> Appointment.id apt) ->
  DoctorDashboard.handleStartConsultation now (Appointment.id apt) rows = rows
  /\ DoctorDashboard.handleMarkNoShow now (Some apt) rows = rows
  /\ AppointmentDetailsModal.handleCancel now apt rows = rows
  /\ (doc <> "" -> time <> "" ->
      EditAppointmentForm.checkTimeConflict rows doc day time (Appointment.id apt)
      = JS.Returns false ->
      EditAppointmentForm.handleSubmit now (Some apt) doc (Some day) time s rows
      = (rows, toast_success "Appointment updated successfully")).
Proof.
  intros Hnone.
  split; [ now apply update_unknown_id | ].
  split; [ now apply update_unknown_id | ].
  split; [ now apply update_unknown_id | ].
  intros Hd Ht Hcheck. rewrite edit_submit_valid, Hcheck by assumption.
  f_equal. rewrite <- update_schedule_map. now apply update_unknown_id.
Qed.

Lemma unknown_id_changes_nothing_witness :
  DoctorDashboard.handleStartConsultation "2025-03-10T09:00" "a-9" exampleDay = exampleDay
  /\ AppointmentDetailsModal.handleCancel
       "2025-03-10T09:00" (row "a-9" "D" "2025-03-10" "09:00" scheduled) exampleDay
     = exampleDay.
Proof.
  destruct (unknown_id_changes_nothing
              "2025-03-10T09:00" (row "a-9" "D" "2025-03-10" "09:00" scheduled)
              exampleDay "D" "2025-03-10" "12:00" scheduled)
    as (Hstart & _ & Hcancel & _).
  - intros r Hr. simpl in Hr. destruct Hr as [<- | [<- | []]]; discriminate.
  - split; [ exact Hstart | exact Hcancel ].
Defined.

Lemma update_nth_identity (now key : string) (patch : Appointment.t -> Appointment.t)
      (rows : list Appointment.t) (i : nat) (r : Appointment.t) :
  (forall a, sameIdentity a (patch a)) ->
  nth_error rows i = Some r ->
  exists r', nth_error (Store.update now patch key rows) i = Some r' /\ sameIdentity r r'.
Proof.
  intros Hpatch Hi. unfold Store.update.
  exists (if Appointment.id r =? key then Appointment.with_updated_at now (patch r) else r).
  split; [ | apply sameIdentity_update, Hpatch ].
  exact (map_nth_error
           (fun a => if Appointment.id a =? key
                     then Appointment.with_updated_at now (patch a) else a)
           i rows Hi).
Qed.

Lemma step_keeps_rows (rows rows' : list Appointment.t) (i : nat) (r : Appointment.t) :
  Clinic.step rows rows' ->
  nth_error rows i = Some r ->
  exists r', nth_error rows' i = Some r' /\ sameIdentity r r'.
Proof.
  intros Hstep Hi.
  assert (Hstatus : forall now key s,
             exists r', nth_error (Store.update now (Appointment.with_status s) key rows) i
                        = Some r' /\ sameIdentity r r').
  { intros now key s. apply update_nth_identity; [ | exact Hi ]. intros a. repeat split. }
  assert (Hsame : exists r', nth_error rows i = Some r' /\ sameIdentity r r')
    by (exists r; split; [ exact Hi | apply sameIdentity_refl ]).
  destruct Hstep as [rows gen f Hfresh
                    | rows now apt doc date time st
                    | rows now patients doc day apt q Hin Hen
                    | rows now patients doc day q
                    | rows now patients doc day apt q Hin
                    | rows now apt].
  - destruct (create_submit_cases gen f rows) as [-> | (day & _ & _ & ->)];
      [ exact Hsame | ].
    exists r. split; [ | apply sameIdentity_refl ].
    rewrite nth_error_app1; [ exact Hi | ]. apply nth_error_Some. congruence.
  - destruct (edit_submit_cases now apt doc date time st rows)
      as [-> | (day & _ & _ & ->)]; [ exact Hsame | ].
    apply update_nth_identity; [ | exact Hi ]. intros a. repeat split.
  - apply Hstatus.
  - unfold DoctorDashboard.handleCompleteConsultation.
    destruct (DoctorDashboard.currentAppointment q); [ apply Hstatus | exact Hsame ].
  - apply Hstatus.
  - apply Hstatus.
Qed.

(** X15.  Nothing the application does removes or re-identifies an
    appointment: after any sequence of actions every row of the table is
    still at its place, with the same id, patient, complaint, telegram id
    and creation time. *)
Theorem rows_are_never_removed
        (rows rows' : list Appointment.t) (i : nat) (r : Appointment.t) :
  clos_refl_trans (list Appointment.t) Clinic.step rows rows' ->
  nth_error rows i = Some r ->
  exists r', nth_error rows' i = Some r' /\ sameIdentity r r'.
Proof.
  intros Hsteps. revert r.
  induction Hsteps as [rows rows' Hstep | rows | rows mid rows' _ IH1 _ IH2]; intros r Hi.
  - now apply (step_keeps_rows rows rows').
  - exists r. split; [ exact Hi | apply sameIdentity_refl ].
  - destruct (IH1 r Hi) as (r1 & H1 & S1).
    destruct (IH2 r1 H1) as (r2 & H2 & S2).
    exists r2. split; [ exact H2 | ].
    destruct S1 as (A1 & B1 & C1 & D1 & E1), S2 as (A2 & B2 & C2 & D2 & E2).
    repeat split; congruence.
Qed.

Lemma rows_are_never_removed_witness :
  exists r',
    nth_error (AppointmentDetailsModal.handleCancel
                 "2025-03-09T17:00" (row "a-1" "D" "2025-03-10" "09:00" scheduled)
                 exampleDay) 0
    = Some r'
    /\ sameIdentity (row "a-1" "D" "2025-03-10" "09:00" scheduled) r'.
Proof.
  refine (rows_are_never_removed
            exampleDay
            (AppointmentDetailsModal.handleCancel
               "2025-03-09T17:00" (row "a-1" "D" "2025-03-10" "09:00" scheduled) exampleDay)
            0 (row "a-1" "D" "2025-03-10" "09:00" scheduled) _ eq_refl).
  apply rt_step. apply Clinic.step_cancel.
Defined.

(* ================================================================== *)
(** ** The doctor's actions *)

Lemma Forall2_map_in {A : Type} (R : A -> A -> Prop) (g : A -> A) (l : list A) :
  (forall a, In a l -> R a (g a)) -> Forall2 R l (map g l).
Proof.
  induction l as [|x l IH]; intros H; cbn; constructor.
  - apply H. now left.
  - apply IH. intros a Ha. apply H. now right.
Qed.

(** A card of the queue is a scheduled row of the table. *)
Lemma queue_member_row (patients : list Patient.t) (rows : list Appointment.t)
      (doctor_id day : string) (apt : Appointment.t) :
  In apt (DoctorDashboard.nextAppointments
            (DoctorDashboard.organizeAppointments
               (DoctorDashboard.dayList patients rows doctor_id day))) ->
  exists r, In r rows /\ apt = Store.join_patient patients r
            /\ Appointment.status r = scheduled
            /\ Appointment.doctor_id r = doctor_id
            /\ Appointment.appointment_date r = day.
Proof.
  rewrite organize_next. intros Hin.
  apply In_firstn, filter_In in Hin. destruct Hin as [Hday Hs].
  apply dayList_In in Hday. destruct Hday as (r & Hr & -> & Hd & Hdate & _).
  exists r. repeat split; try assumption.
  unfold isScheduled in Hs. rewrite join_patient_status in Hs. now apply status_eqb_eq.
Qed.

(** The current appointment is an in-consultation row of the table. *)
Lemma current_member_row (patients : list Patient.t) (rows : list Appointment.t)
      (doctor_id day : string) (cur : Appointment.t) :
  DoctorDashboard.currentAppointment
    (DoctorDashboard.organizeAppointments
       (DoctorDashboard.dayList patients rows doctor_id day)) = Some cur ->
  exists r, In r rows /\ cur = Store.join_patient patients r
            /\ Appointment.status r = in_consultation.
Proof.
  rewrite organize_current. intros Hcur.
  apply find_some in Hcur. destruct Hcur as [Hin Hs].
  apply dayList_In in Hin. destruct Hin as (r & Hr & -> & _).
  exists r. repeat split; try assumption.
  unfold isInConsultation in Hs. rewrite join_patient_status in Hs. now apply status_eqb_eq.
Qed.

Lemma sameButStatus_restamped (now key : string) (s : AppointmentStatus)
      (r : Appointment.t) :
  sameButStatus r (restamped now key s r).
Proof.
  unfold restamped. destruct (Appointment.id r =? key); repeat split.
Qed.

(** A status update that finds the rows of its id in the status [from]
    moves exactly those rows from [from] to [s]. *)
Lemma status_update_transition (now key : string) (from s : AppointmentStatus)
      (rows : list Appointment.t) :
  (forall r, In r rows -> Appointment.id r = key -> Appointment.status r = from) ->
  Forall2 (fun r r' =>
             sameButStatus r r'
             /\ (r' = r
                 \/ (Appointment.id r = key /\ Appointment.status r = from
                     /\ Appointment.status r' = s)))
          rows (map (restamped now key s) rows).
Proof.
  intros Hfrom. apply Forall2_map_in. intros r Hr.
  split; [ apply sameButStatus_restamped | ].
  destruct (String.eqb_spec (Appointment.id r) key) as [E | E].
  - right. split; [ exact E | ]. split; [ now apply Hfrom | ].
    now rewrite (restamped_hit _ _ _ _ E).
  - left. now apply restamped_miss.
Qed.

(** X16.  The doctor dashboard only makes the three status changes of its
    buttons: on a table with unique ids, starting a card, completing the
    current consultation or marking a card as no-show leaves every row
    with all fields but status and [updated_at] as they were, changes the
    status of the rows of one id at most, and only from scheduled to in
    consultation, from in consultation to completed or from scheduled to
    no-show. *)
Theorem doctor_transitions_legal (rows rows' : list Appointment.t) :
  Clinic.unique_ids rows -> doctor_step rows rows' ->
  exists key,
    Forall2 (fun r r' =>
               sameButStatus r r'
               /\ (r' = r
                   \/ (Appointment.id r = key
                       /\ doctorTransition (Appointment.status r) (Appointment.status r'))))
            rows rows'.
Proof.
  intros Hu Hstep.
  assert (Hweaken : forall now key from s,
             doctorTransition from s ->
             (forall r, In r rows -> Appointment.id r = key -> Appointment.status r = from) ->
             Forall2 (fun r r' =>
                        sameButStatus r r'
                        /\ (r' = r
                            \/ (Appointment.id r = key
                                /\ doctorTransition (Appointment.status r)
                                                    (Appointment.status r'))))
                     rows (Store.update now (Appointment.with_status s) key rows)).
  { intros now key from s Hlegal Hfrom. rewrite update_status_map.
    eapply Forall2_impl; [ | exact (status_update_transition now key from s rows Hfrom) ].
    intros r r' [Hsame [-> | (Hk & Hf & Hs)]]; split; auto.
    right. split; [ exact Hk | ]. now rewrite Hf, Hs. }
  destruct Hstep as [rows now patients doc day apt q Hin Hen
                    | rows now patients doc day q
                    | rows now patients doc day apt q Hin].
  - exists (Appointment.id apt). apply (Hweaken now _ scheduled in_consultation).
    + left. split; reflexivity.
    + intros r Hr E. apply queue_member_row in Hin.
      destruct Hin as (r0 & Hr0 & -> & Hs & _).
      assert (r = r0) by (now apply (unique_ids_inj rows)). now subst r0.
  - unfold DoctorDashboard.handleCompleteConsultation.
    destruct (DoctorDashboard.currentAppointment q) as [cur|] eqn:Hcur.
    + exists (Appointment.id cur). apply (Hweaken now _ in_consultation completed).
      * right. left. split; reflexivity.
      * intros r Hr E. apply current_member_row in Hcur.
        destruct Hcur as (r0 & Hr0 & -> & Hs).
        assert (r = r0) by (now apply (unique_ids_inj rows)). now subst r0.
    + exists "". rewrite <- (map_id rows) at 2. apply Forall2_map_in.
      intros r _. split; [ repeat split | now left ].
  - exists (Appointment.id apt). apply (Hweaken now _ scheduled no_show).
    + right. right. split; reflexivity.
    + intros r Hr E. apply queue_member_row in Hin.
      destruct Hin as (r0 & Hr0 & -> & Hs & _).
      assert (r = r0) by (now apply (unique_ids_inj rows)). now subst r0.
Qed.

Lemma doctor_transitions_legal_witness :
  exists key,
    Forall2 (fun r r' =>
               sameButStatus r r'
               /\ (r' = r
                   \/ (Appointment.id r = key
                       /\ doctorTransition (Appointment.status r) (Appointment.status r'))))
            inProgress
            (DoctorDashboard.handleCompleteConsultation
               "2025-03-10T09:25"
               (DoctorDashboard.organizeAppointments
                  (DoctorDashboard.dayList [] inProgress "D" "2025-03-10"))
               inProgress).
Proof.
  refine (doctor_transitions_legal inProgress _ _ _).
  - unfold Clinic.unique_ids. simpl. repeat constructor; simpl; intuition discriminate.
  - apply (doctor_complete inProgress "2025-03-10T09:25" [] "D" "2025-03-10").
Defined.

(** The doctor's day after an enabled card is started: the started
    appointment, now in consultation, and apart from it only appointments
    of other ids that were there before, none of them in consultation. *)
Lemma started_day
      (now : string) (patients : list Patient.t) (rows : list Appointment.t)
      (doctor_id day : string) (apt : Appointment.t) :
  Clinic.unique_ids rows ->
  let q := DoctorDashboard.organizeAppointments
             (DoctorDashboard.dayList patients rows doctor_id day) in
  In apt (DoctorDashboard.nextAppointments q) ->
  DoctorDashboard.startDisabled q = false ->
  let rows' := DoctorDashboard.handleStartConsultation now (Appointment.id apt) rows in
  let target := Appointment.with_updated_at now (Appointment.with_status in_consultation apt) in
  In target (DoctorDashboard.dayList patients rows' doctor_id day)
  /\ (forall x, In x (DoctorDashboard.dayList patients rows' doctor_id day) ->
        x = target
        \/ (Appointment.id x <> Appointment.id apt
            /\ isInConsultation x = false
            /\ In x (DoctorDashboard.dayList patients rows doctor_id day))).
Proof.
  intros Hu q Hin Hen rows' target.
  set (key := Appointment.id apt) in *.
  apply queue_member_row in Hin. destruct Hin as (r0 & Hr0 & Eapt & Hs0 & Hd0 & Hday0).
  assert (Hkey : Appointment.id r0 = key) by (unfold key; now rewrite Eapt).
  assert (Hnone : forall x, In x (DoctorDashboard.dayList patients rows doctor_id day) ->
                            isInConsultation x = false).
  { apply find_none_iff. unfold DoctorDashboard.startDisabled, q in Hen.
    rewrite organize_current in Hen.
    now destruct (find isInConsultation
                       (DoctorDashboard.dayList patients rows doctor_id day)). }
  assert (Etarget : target = Store.join_patient patients (restamped now key in_consultation r0)).
  { unfold target. rewrite restamped_join_patient, <- Eapt.
    symmetry. now apply restamped_hit. }
  assert (Hrows' : rows' = map (restamped now key in_consultation) rows) by reflexivity.
  split.
  - apply dayList_In. exists (restamped now key in_consultation r0).
    split; [ rewrite Hrows'; now apply in_map | ].
    split; [ exact Etarget | ].
    rewrite restamped_doctor_id, restamped_date, (restamped_hit _ _ _ _ Hkey).
    repeat split; assumption.
  - intros x Hx. pose proof Hx as Hl. apply dayList_In in Hl.
    destruct Hl as (r' & _ & Ex' & _ & _ & Hlisted').
    rewrite Hrows', <- update_status_map in Hx. apply dayList_In_after in Hx.
    destruct Hx as (r & Hr & -> & Hd & Hdate).
    destruct (String.eqb_spec (Appointment.id r) key) as [E | E].
    + left. assert (r = r0) by (apply (unique_ids_inj rows); congruence). subst r.
      now rewrite Etarget.
    + right. rewrite (restamped_miss _ _ _ _ E). split; [ exact E | ].
      assert (Hold : In (Store.join_patient patients r)
                        (DoctorDashboard.dayList patients rows doctor_id day)).
      { apply dayList_In. exists r. repeat split; try assumption.
        assert (Es : Appointment.status r = Appointment.status r').
        { apply (f_equal Appointment.status) in Ex'.
          rewrite !join_patient_status, (restamped_miss _ _ _ _ E) in Ex'. exact Ex'. }
        now rewrite Es. }
      split; [ now apply Hnone | exact Hold ].
Qed.

(** X17.  Starting a consultation moves the card into the current-patient
    slot: on a table with unique ids, after the doctor starts an enabled
    card and the day is fetched again, the current appointment is that
    very appointment, now in consultation, every remaining card has its
    start button disabled, and the started appointment is no longer among
    the cards. *)
Theorem start_makes_current
        (now : string) (patients : list Patient.t) (rows : list Appointment.t)
        (doctor_id day : string) (apt : Appointment.t) :
  Clinic.unique_ids rows ->
  let q := DoctorDashboard.organizeAppointments
             (DoctorDashboard.dayList patients rows doctor_id day) in
  In apt (DoctorDashboard.nextAppointments q) ->
  DoctorDashboard.startDisabled q = false ->
  let rows' := DoctorDashboard.handleStartConsultation now (Appointment.id apt) rows in
  let q' := DoctorDashboard.organizeAppointments
              (DoctorDashboard.dayList patients rows' doctor_id day) in
  DoctorDashboard.currentAppointment q'
  = Some (Appointment.with_updated_at now (Appointment.with_status in_consultation apt))
  /\ (forall c, In c (DoctorDashboard.nextPatients q') ->
                DoctorDashboard.card_start_disabled c = true)
  /\ (forall a, In a (DoctorDashboard.nextAppointments q') ->
                Appointment.id a <> Appointment.id apt).
Proof.
  intros Hu q Hin Hen rows' q'.
  destruct (started_day now patients rows doctor_id day apt Hu Hin Hen)
    as [Hthere Hafter].
  set (target := Appointment.with_updated_at now (Appointment.with_status in_consultation apt))
    in *.
  assert (Hcur : DoctorDashboard.currentAppointment q' = Some target).
  { unfold q'. rewrite organize_current.
    destruct (find isInConsultation
                   (DoctorDashboard.dayList patients rows' doctor_id day)) as [y|] eqn:Ey.
    - apply find_some in Ey. destruct Ey as [Hy Hsy].
      destruct (Hafter y Hy) as [-> | (_ & Hno & _)]; [ reflexivity | ].
      rewrite Hno in Hsy. discriminate Hsy.
    - rewrite find_none_iff in Ey. specialize (Ey target Hthere). discriminate Ey. }
  split; [ exact Hcur | ]. split.
  - intros c Hc. unfold DoctorDashboard.nextPatients in Hc. apply in_map_iff in Hc.
    destruct Hc as (a & <- & _). cbn [DoctorDashboard.card_start_disabled].
    unfold DoctorDashboard.startDisabled. now rewrite Hcur.
  - intros a Ha. unfold q' in Ha. rewrite organize_next in Ha.
    apply In_firstn, filter_In in Ha. destruct Ha as [Ha Hsa].
    destruct (Hafter a Ha) as [-> | (Hne & _)]; [ discriminate Hsa | exact Hne ].
Qed.

Lemma start_makes_current_witness :
  DoctorDashboard.currentAppointment
    (DoctorDashboard.organizeAppointments
       (DoctorDashboard.dayList []
          (DoctorDashboard.handleStartConsultation "2025-03-10T09:01" "a-1" twoWaiting)
          "D" "2025-03-10"))
  = Some (Appointment.with_updated_at
            "2025-03-10T09:01"
            (Appointment.with_status in_consultation
                                     (row "a-1" "D" "2025-03-10" "09:00" scheduled))).
Proof.
  refine (proj1 (start_makes_current
                   "2025-03-10T09:01" [] twoWaiting "D" "2025-03-10"
                   (row "a-1" "D" "2025-03-10" "09:00" scheduled) _ _ eq_refl)).
  - unfold Clinic.unique_ids. simpl. repeat constructor; simpl; intuition discriminate.
  - vm_compute. left. reflexivity.
Defined.

(** The doctor's day after a status update to a status the dashboard does
    not list: the appointments of that id are gone, the others stay. *)
Lemma dayList_after_unlisted (now key : string) (s : AppointmentStatus)
      (patients : list Patient.t) (rows : list Appointment.t)
      (doctor_id day : string) (a : Appointment.t) :
  status_in s DoctorDashboard.listedStatuses = false ->
  In a (DoctorDashboard.dayList patients
          (Store.update now (Appointment.with_status s) key rows) doctor_id day)
  <-> In a (DoctorDashboard.dayList patients rows doctor_id day)
      /\ Appointment.id a <> key.
Proof.
  intros Hs. rewrite update_status_map, !dayList_In. split.
  - intros (r' & Hr' & -> & Hd & Hday & Hl).
    apply in_map_iff in Hr'. destruct Hr' as (r & <- & Hr).
    rewrite join_patient_id, restamped_id.
    destruct (String.eqb_spec (Appointment.id r) key) as [E | E].
    + rewrite (restamped_hit _ _ _ _ E) in Hl.
      cbn [Appointment.status Appointment.with_updated_at Appointment.with_status] in Hl.
      congruence.
    + rewrite (restamped_miss _ _ _ _ E) in *. split; [ | exact E ].
      exists r. repeat split; assumption.
  - intros [(r & Hr & -> & Hd & Hday & Hl) Hne]. rewrite join_patient_id in Hne.
    exists r. split; [ | repeat split; assumption ].
    apply in_map_iff. exists r. split; [ now apply restamped_miss | exact Hr ].
Qed.

(** X18.  An appointment marked as no-show or cancelled leaves the
    doctor's day: after either action the day's list of every doctor and
    date holds exactly the appointments it held before that have another
    id. *)
Theorem closed_appointment_leaves_day
        (now : string) (apt : Appointment.t)
        (patients : list Patient.t) (rows : list Appointment.t)
        (doctor_id day : string) (a : Appointment.t) :
  (In a (DoctorDashboard.dayList
           patients (DoctorDashboard.handleMarkNoShow now (Some apt) rows) doctor_id day)
   <-> In a (DoctorDashboard.dayList patients rows doctor_id day)
       /\ Appointment.id a <> Appointment.id apt)
  /\ (In a (DoctorDashboard.dayList
              patients (AppointmentDetailsModal.handleCancel now apt rows) doctor_id day)
      <-> In a (DoctorDashboard.dayList patients rows doctor_id day)
          /\ Appointment.id a <> Appointment.id apt).
Proof.
  split; now apply dayList_after_unlisted.
Qed.

Lemma length_filter_order {A : Type} (le : A -> A -> bool) (p : A -> bool) (l : list A) :
  length (filter p (Store.order le l)) = length (filter p l).
Proof.
  assert (Hins : forall x l0, length (filter p (Store.insert_sorted le x l0))
                              = length (filter p (x :: l0))).
  { intros x l0. induction l0 as [|y l0 IH]; [ reflexivity | ].
    cbn [Store.insert_sorted]. destruct (le x y); [ reflexivity | ].
    cbn [filter] in *. destruct (p y), (p x); cbn [length] in *; lia. }
  induction l as [|x l IH]; [ reflexivity | ].
  cbn [Store.order]. rewrite Hins. cbn [filter]. destruct (p x); cbn [length]; lia.
Qed.

(** How many appointments of one status the doctor's day holds: as many
    as the table has rows of that doctor, date and status. *)
Lemma dayList_count (patients : list Patient.t) (rows : list Appointment.t)
      (doctor_id day : string) (s : AppointmentStatus) :
  status_in s DoctorDashboard.listedStatuses = true ->
  length (filter (fun a => status_eqb (Appointment.status a) s)
                 (DoctorDashboard.dayList patients rows doctor_id day))
  = length (filter (fun r => onDay doctor_id day r
                             && status_eqb (Appointment.status r) s) rows).
Proof.
  intros Hs. rewrite dayList_eq, length_filter_order.
  induction rows as [|r rows IH]; [ reflexivity | ].
  cbn [filter]. unfold onDay at 1.
  destruct ((Appointment.doctor_id r =? doctor_id)
            && (Appointment.appointment_date r =? day)) eqn:Eday.
  - destruct (status_eqb (Appointment.status r) s) eqn:Es.
    + apply status_eqb_eq in Es. rewrite Es, Hs. cbn [andb map filter].
      rewrite join_patient_status, Es.
      assert (Hrefl : status_eqb s s = true) by now apply status_eqb_eq.
      rewrite Hrefl. cbn [length]. now rewrite IH.
    + cbn [andb]. destruct (status_in (Appointment.status r) DoctorDashboard.listedStatuses).
      * cbn [map filter]. rewrite join_patient_status, Es. exact IH.
      * exact IH.
  - cbn [andb]. exact IH.
Qed.

(** X19.  The figures of the doctor's day: its list is made of the
    scheduled, the in-consultation and the completed appointments and of
    nothing else; the "Completed" figure is the number of completed rows
    of that doctor and date in the table; and the "Waiting" figure is the
    number of scheduled rows of that doctor and date exactly when there
    are at most five of them, and 5 otherwise. *)
Theorem queue_figures
        (patients : list Patient.t) (rows : list Appointment.t)
        (doctor_id day : string) :
  let appointments := DoctorDashboard.dayList patients rows doctor_id day in
  let q := DoctorDashboard.organizeAppointments appointments in
  let scheduledRows :=
    length (filter (fun r => onDay doctor_id day r && isScheduled r) rows) in
  length appointments
  = length (filter isScheduled appointments)
    + length (filter isInConsultation appointments)
    + DoctorDashboard.completedCount q
  /\ DoctorDashboard.completedCount q
     = length (filter (fun r => onDay doctor_id day r && isCompleted r) rows)
  /\ DoctorDashboard.waiting q = Nat.min 5 scheduledRows
  /\ (DoctorDashboard.waiting q = scheduledRows <-> scheduledRows <= 5).
Proof.
  intros appointments q scheduledRows.
  assert (Hsched : length (filter isScheduled appointments) = scheduledRows)
    by (apply (dayList_count patients rows doctor_id day scheduled); reflexivity).
  assert (Hwait : DoctorDashboard.waiting q = Nat.min 5 scheduledRows).
  { unfold DoctorDashboard.waiting, q. rewrite organize_next, length_firstn.
    now rewrite Hsched. }
  split; [ | split; [ | split ] ].
  - assert (Hlisted : forall a, In a appointments ->
                         status_in (Appointment.status a) DoctorDashboard.listedStatuses = true).
    { intros a Ha. apply dayList_In in Ha. destruct Ha as (r & _ & -> & _ & _ & Hl).
      exact Hl. }
    change (DoctorDashboard.completedCount q) with (length (filter isCompleted appointments)).
    clearbody appointments. clear - Hlisted.
    induction appointments as [|a l IH]; [ reflexivity | ].
    assert (Ha := Hlisted a (or_introl eq_refl)).
    assert (IH' := IH (fun x Hx => Hlisted x (or_intror Hx))).
    cbn [filter length]. unfold isScheduled, isInConsultation, isCompleted in *.
    destruct (Appointment.status a); cbn in Ha |- *; try discriminate Ha; lia.
  - apply (dayList_count patients rows doctor_id day completed). reflexivity.
  - exact Hwait.
  - rewrite Hwait. lia.
Qed.

Lemma find_split {A : Type} (p : A -> bool) (l : list A) (x : A) :
  find p l = Some x ->
  exists before after,
    l = before ++ x :: after /\ forall y, In y before -> p y = false.
Proof.
  induction l as [|a l IH]; [ discriminate | ].
  cbn [find]. destruct (p a) eqn:Ea.
  - intros H. injection H as <-. exists [], l. split; [ reflexivity | intros y [] ].
  - intros H. destruct (IH H) as (before & after & -> & Hb).
    exists (a :: before), after. split; [ reflexivity | ].
    intros y [<- | Hy]; [ exact Ea | now apply Hb ].
Qed.

(** X20.  When several appointments of the day are in consultation, as an
    edit by the nurse can bring about, the current-patient slot shows the
    earliest of them: every in-consultation appointment of the day is at
    the same time as the current one or later. *)
Theorem current_is_earliest
        (patients : list Patient.t) (rows : list Appointment.t)
        (doctor_id day : string) (cur other : Appointment.t) :
  let appointments := DoctorDashboard.dayList patients rows doctor_id day in
  DoctorDashboard.currentAppointment (DoctorDashboard.organizeAppointments appointments)
  = Some cur ->
  In other appointments ->
  Appointment.status other = in_consultation ->
  In cur appointments
  /\ Appointment.status cur = in_consultation
  /\ earlierOrSame cur other.
Proof.
  intros appointments Hcur Hin Hs. rewrite organize_current in Hcur.
  pose proof (find_some _ _ Hcur) as [Hc Hsc].
  split; [ exact Hc | ]. split; [ now apply status_eqb_eq | ].
  destruct (find_split _ _ _ Hcur) as (before & after & E & Hbefore).
  pose proof (dayList_sorted patients rows doctor_id day) as Hsorted.
  fold appointments in Hsorted. rewrite E in Hsorted, Hin.
  apply StronglySorted_app in Hsorted. destruct Hsorted as (_ & Htail & _).
  inversion Htail as [|? ? _ Hall]; subst.
  apply in_app_or in Hin. destruct Hin as [Hb | [<- | Ha]].
  - specialize (Hbefore other Hb). unfold isInConsultation in Hbefore.
    rewrite Hs in Hbefore. discriminate Hbefore.
  - destruct (earlierOrSame_total cur cur); assumption.
  - rewrite Forall_forall in Hall. now apply Hall.
Qed.

Lemma current_is_earliest_witness :
  earlierOrSame (row "a-1" "D" "2025-03-10" "09:00" in_consultation)
                (row "a-3" "D" "2025-03-10" "11:00" in_consultation).
Proof.
  refine (proj2 (proj2
            (current_is_earliest
               []
               [ row "a-3" "D" "2025-03-10" "11:00" in_consultation;
                 row "a-1" "D" "2025-03-10" "09:00" in_consultation ]
               "D" "2025-03-10"
               (row "a-1" "D" "2025-03-10" "09:00" in_consultation)
               (row "a-3" "D" "2025-03-10" "11:00" in_consultation)
               eq_refl _ eq_refl))).
  vm_compute. right. left. reflexivity.
Defined.

(* ================================================================== *)
(** ** The nurse's list *)

Lemma string_compare_refl (s : string) : String.compare s s = Eq.
Proof.
  pose proof (String.compare_antisym s s) as H.
  destruct (String.compare s s); try reflexivity; discriminate H.
Qed.

Lemma earlierDayOrTime_total (a b : Appointment.t) :
  earlierDayOrTime a b \/ earlierDayOrTime b a.
Proof.
  unfold earlierDayOrTime, Store.by_date_then_time.
  rewrite (String.compare_antisym (Appointment.appointment_date b)
                                  (Appointment.appointment_date a)).
  destruct (String.compare (Appointment.appointment_date a)
                           (Appointment.appointment_date b)); cbn [CompOpp]; auto.
  apply earlierOrSame_total.
Qed.

Lemma earlierDayOrTime_trans (a b c : Appointment.t) :
  earlierDayOrTime a b -> earlierDayOrTime b c -> earlierDayOrTime a c.
Proof.
  unfold earlierDayOrTime, Store.by_date_then_time.
  destruct (String.compare (Appointment.appointment_date a)
                           (Appointment.appointment_date b)) eqn:Eab; try discriminate;
    destruct (String.compare (Appointment.appointment_date b)
                             (Appointment.appointment_date c)) eqn:Ebc; try discriminate;
    intros Hab Hbc.
  - apply String.compare_eq_iff in Eab, Ebc. rewrite Eab, Ebc, string_compare_refl.
    now apply (earlierOrSame_trans a b c).
  - apply String.compare_eq_iff in Eab. now rewrite Eab, Ebc.
  - apply String.compare_eq_iff in Ebc. now rewrite <- Ebc, Eab.
  - now rewrite (string_compare_lt_trans _ _ _ Eab Ebc).
Qed.

(** X21.  The nurse's list leaves nothing out and is in order: the fetch
    returns every row of the table exactly once, whatever its status,
    each with its patient and doctor embedded, in ascending order of date
    and, within a date, of time. *)
Theorem nurse_list_complete_and_sorted
        (patients : list Patient.t) (doctors : list Doctor.t)
        (rows : list Appointment.t) :
  let fetched := NurseDashboard.fetchAppointments patients doctors rows in
  Permutation fetched (map (joined patients doctors) rows)
  /\ length fetched = length rows
  /\ StronglySorted earlierDayOrTime fetched.
Proof.
  intros fetched.
  assert (Hperm : Permutation fetched (map (joined patients doctors) rows))
    by apply order_perm.
  split; [ exact Hperm | ]. split.
  - rewrite (Permutation_length Hperm). apply length_map.
  - apply (order_sorted Store.by_date_then_time).
    + intros a b. apply earlierDayOrTime_total.
    + intros a b c. apply earlierDayOrTime_trans.
Qed.

Lemma filterAppointments_eq (l : list Appointment.t)
      (selectedDoctor selectedDate searchQuery : string) :
  NurseDashboard.filterAppointments l selectedDoctor selectedDate searchQuery
  = filter (fun a =>
              ((selectedDoctor =? "all") || (Appointment.doctor_id a =? selectedDoctor))
              && (Appointment.appointment_date a =? selectedDate)
              && ((searchQuery =? "") || NurseDashboard.matchesSearch searchQuery a))
           l.
Proof.
  unfold NurseDashboard.filterAppointments.
  destruct (selectedDoctor =? "all"), (searchQuery =? ""); cbn [negb orb].
  - apply filter_ext. intros a. now rewrite andb_true_r.
  - induction l as [|a l IH]; [ reflexivity | ]. cbn [filter].
    destruct (Appointment.appointment_date a =? selectedDate); cbn [filter andb];
      [ | exact IH ].
    destruct (NurseDashboard.matchesSearch searchQuery a); now rewrite IH.
  - induction l as [|a l IH]; [ reflexivity | ]. cbn [filter].
    destruct (Appointment.doctor_id a =? selectedDoctor); cbn [filter andb];
      [ | exact IH ].
    destruct (Appointment.appointment_date a =? selectedDate); cbn [andb];
      now rewrite IH.
  - induction l as [|a l IH]; [ reflexivity | ]. cbn [filter].
    destruct (Appointment.doctor_id a =? selectedDoctor); cbn [filter andb];
      [ | exact IH ].
    destruct (Appointment.appointment_date a =? selectedDate); cbn [filter andb];
      [ | exact IH ].
    destruct (NurseDashboard.matchesSearch searchQuery a); now rewrite IH.
Qed.

Lemma filter_filter {A : Type} (p q : A -> bool) (l : list A) :
  filter p (filter q l) = filter (fun a => q a && p a) l.
Proof.
  induction l as [|a l IH]; [ reflexivity | ]. cbn [filter].
  destruct (q a); cbn [filter andb]; now rewrite IH.
Qed.

(** X22.  What the nurse's list shows: an appointment is shown exactly
    when it was fetched, is of the selected doctor (or "all" is
    selected), is on the selected date and matches the search text (or
    the text is empty); searching within an already filtered list gives
    the list of all three filters at once, and filtering a filtered list
    again changes nothing. *)
Theorem nurse_filter_spec
        (l : list Appointment.t) (selectedDoctor selectedDate searchQuery : string)
        (a : Appointment.t) :
  (In a (NurseDashboard.filterAppointments l selectedDoctor selectedDate searchQuery)
   <-> In a l /\ passesFilters selectedDoctor selectedDate searchQuery a)
  /\ NurseDashboard.filterAppointments
       (NurseDashboard.filterAppointments l selectedDoctor selectedDate "")
       "all" selectedDate searchQuery
     = NurseDashboard.filterAppointments l selectedDoctor selectedDate searchQuery
  /\ NurseDashboard.filterAppointments
       (NurseDashboard.filterAppointments l selectedDoctor selectedDate searchQuery)
       selectedDoctor selectedDate searchQuery
     = NurseDashboard.filterAppointments l selectedDoctor selectedDate searchQuery.
Proof.
  split; [ | split ].
  - rewrite filterAppointments_eq, filter_In. unfold passesFilters.
    rewrite !andb_true_iff, !orb_true_iff, !String.eqb_eq. tauto.
  - rewrite !filterAppointments_eq, filter_filter. apply filter_ext. intros x.
    cbn [String.eqb orb].
    destruct ((selectedDoctor =? "all") || (Appointment.doctor_id x =? selectedDoctor)),
             (Appointment.appointment_date x =? selectedDate),
             ((searchQuery =? "") || NurseDashboard.matchesSearch searchQuery x);
      reflexivity.
  - rewrite !filterAppointments_eq, filter_filter. apply filter_ext. intros x.
    destruct ((selectedDoctor =? "all") || (Appointment.doctor_id x =? selectedDoctor)),
             (Appointment.appointment_date x =? selectedDate),
             ((searchQuery =? "") || NurseDashboard.matchesSearch searchQuery x);
      reflexivity.
Qed.

Lemma toLowerCase_empty_iff (s : string) : JS.toLowerCase s = "" <-> s = "".
Proof. destruct s; cbn; split; intros H; try reflexivity; discriminate H. Qed.

(** X23.  The search does not look at the case of what is typed: two
    search texts of ASCII characters that are equal once put in lower
    case give the same list, so typing a name in capitals finds what
    typing it in small letters finds. *)
Theorem search_ignores_case
        (l : list Appointment.t) (selectedDoctor selectedDate q q' : string) :
  isAscii q = true -> isAscii q' = true ->
  JS.toLowerCase q = JS.toLowerCase q' ->
  NurseDashboard.filterAppointments l selectedDoctor selectedDate q
  = NurseDashboard.filterAppointments l selectedDoctor selectedDate q'.
Proof.
  intros _ _ E. rewrite !filterAppointments_eq.
  assert (Hempty : (q =? "") = (q' =? "")).
  { destruct (String.eqb_spec q "") as [Hq | Hq], (String.eqb_spec q' "") as [Hq' | Hq'];
      try reflexivity; exfalso.
    - apply Hq'. apply toLowerCase_empty_iff. rewrite <- E. now apply toLowerCase_empty_iff.
    - apply Hq. apply toLowerCase_empty_iff. rewrite E. now apply toLowerCase_empty_iff. }
  apply filter_ext. intros a. rewrite Hempty.
  unfold NurseDashboard.matchesSearch. now rewrite E.
Qed.

Lemma search_ignores_case_witness :
  NurseDashboard.filterAppointments [loadedAppointment] "all" "2025-03-10" "ANA"
  = NurseDashboard.filterAppointments [loadedAppointment] "all" "2025-03-10" "ana".
Proof.
  exact (search_ignores_case [loadedAppointment] "all" "2025-03-10" "ANA" "ana"
                             eq_refl eq_refl eq_refl).
Defined.

Lemma prefix_refl (s : string) : String.prefix s s = true.
Proof.
  induction s as [|c s IH]; [ reflexivity | ].
  cbn [String.prefix]. destruct (ascii_dec c c); [ exact IH | contradiction ].
Qed.

Lemma includes_suffix (a b : string) : JS.includes (a ++ b) b = true.
Proof.
  induction a as [|c a IH].
  - cbn [String.append]. destruct b; cbn [JS.includes]; now rewrite prefix_refl.
  - cbn [String.append JS.includes]. rewrite IH. apply orb_true_r.
Qed.

Lemma toLowerCase_app (a b : string) :
  JS.toLowerCase (a ++ b) = (JS.toLowerCase a ++ JS.toLowerCase b)%string.
Proof.
  induction a as [|c a IH]; [ reflexivity | ]. cbn. now rewrite IH.
Qed.

Lemma append_assoc (a b c : string) : ((a ++ b) ++ c)%string = (a ++ (b ++ c))%string.
Proof. induction a as [|x a IH]; [ reflexivity | ]. cbn. now rewrite IH. Qed.

(** X24.  A missing name is searched as the word the template prints for
    it: an appointment whose patient could not be loaded is found by the
    search text "undefined", and one whose patient has no last name is
    found by the search text "null". *)
Theorem missing_names_match_placeholder (apt : Appointment.t) (p : Patient.t) :
  (Appointment.patient apt = None ->
   NurseDashboard.matchesSearch "undefined" apt = true)
  /\ (Appointment.patient apt = Some p -> Patient.last_name p = None ->
      NurseDashboard.matchesSearch "null" apt = true).
Proof.
  split.
  - intros Hp. unfold NurseDashboard.matchesSearch. rewrite Hp. reflexivity.
  - intros Hp Hl. unfold NurseDashboard.matchesSearch. rewrite Hp, Hl.
    cbn [option_map JS.template].
    change (Patient.first_name p ++ " " ++ "null")%string
      with (Patient.first_name p ++ (" " ++ "null"))%string.
    rewrite toLowerCase_app.
    change (JS.toLowerCase (" " ++ "null")) with (" " ++ "null")%string.
    rewrite <- append_assoc.
    change (JS.toLowerCase "null") with "null".
    now rewrite includes_suffix.
Qed.

Lemma missing_names_match_placeholder_witness :
  NurseDashboard.matchesSearch
    "null" (Appointment.with_patient (Some mononymPatient)
                                     (row "a-1" "D" "2025-03-10" "09:00" scheduled))
  = true.
Proof.
  exact (proj2 (missing_names_match_placeholder
                  (Appointment.with_patient (Some mononymPatient)
                                            (row "a-1" "D" "2025-03-10" "09:00" scheduled))
                  mononymPatient)
               eq_refl eq_refl).
Defined.

(* ================================================================== *)
(** ** The reschedule request without patient or doctor *)

(** X25.  The reschedule request is sent only for an appointment with
    both patient and doctor loaded: when either is missing no request
    leaves the browser, whatever the network would answer, and the toast
    says that the information is missing; in every case at most one
    request is sent and the sending flag is off afterwards. *)
Theorem reschedule_needs_patient_and_doctor
        (appointment : Appointment.t)
        (network : AppointmentDetailsModal.request -> AppointmentDetailsModal.fetched) :
  let r := AppointmentDetailsModal.handleRequestReschedule appointment network in
  (AppointmentDetailsModal.sent r = []
   <-> Appointment.patient appointment = None \/ Appointment.doctor appointment = None)
  /\ (Appointment.patient appointment = None \/ Appointment.doctor appointment = None ->
      AppointmentDetailsModal.shown r = toast_error "Missing patient or doctor information")
  /\ length (AppointmentDetailsModal.sent r) <= 1
  /\ AppointmentDetailsModal.isRescheduling r = false.
Proof.
  intros r. unfold r, AppointmentDetailsModal.handleRequestReschedule.
  destruct (Appointment.patient appointment) as [p|],
           (Appointment.doctor appointment) as [d|].
  - set (req := AppointmentDetailsModal.mkRequest _ _ _ _).
    destruct (network req) as [status|reason];
      [ destruct (AppointmentDetailsModal.ok status) | ];
      cbn; repeat split; try lia; try discriminate;
        intros [H | H]; discriminate H.
  - cbn. repeat split; auto; lia.
  - cbn. repeat split; auto; lia.
  - cbn. repeat split; auto; lia.
Qed.

Lemma reschedule_needs_patient_and_doctor_witness :
  AppointmentDetailsModal.shown
    (AppointmentDetailsModal.handleRequestReschedule
       (row "a-1" "D" "2025-03-10" "09:00" scheduled)
       (fun _ => AppointmentDetailsModal.Response 200))
  = toast_error "Missing patient or doctor information".
Proof.
  refine (proj1 (proj2 (reschedule_needs_patient_and_doctor
                          (row "a-1" "D" "2025-03-10" "09:00" scheduled)
                          (fun _ => AppointmentDetailsModal.Response 200))) _).
  left. reflexivity.
Defined.

(* ================================================================== *)
(** ** More on masked phone numbers *)

Lemma substring_whole (s : string) (n : nat) :
  String.length s = n -> String.substring 0 n s = s.
Proof.
  revert n. induction s as [|c s IH]; intros n Hn.
  - cbn in Hn. subst n. reflexivity.
  - cbn [String.length] in Hn. subst n. cbn [String.substring]. now rewrite IH.
Qed.

(** X26.  Masking is stable and of fixed width: a phone of at least four
    characters is printed in exactly twelve characters, and masking an
    already masked phone gives the same text again. *)
Theorem maskPhone_idempotent (phone : string) :
  DoctorDashboard.maskPhone (DoctorDashboard.maskPhone phone)
  = DoctorDashboard.maskPhone phone
  /\ (4 <= String.length phone ->
      String.length (DoctorDashboard.maskPhone phone) = 12).
Proof.
  destruct (Nat.ltb_spec (String.length phone) 4) as [Hlt | Hge].
  - assert (E : DoctorDashboard.maskPhone phone = phone).
    { unfold DoctorDashboard.maskPhone.
      assert (Hb : (String.length phone <? 4)%nat = true) by (apply Nat.ltb_lt; lia).
      now rewrite Hb, orb_true_r. }
    rewrite !E. split; [ reflexivity | lia ].
  - destruct (substring_split phone (String.length phone - 4)) as [_ Hl]; [ lia | ].
    replace (String.length phone - (String.length phone - 4)) with 4 in Hl by lia.
    set (last4 := String.substring (String.length phone - 4) 4 phone) in *.
    assert (E : DoctorDashboard.maskPhone phone = ("***-***-" ++ last4)%string).
    { unfold DoctorDashboard.maskPhone.
      assert (Hne : (phone =? "") = false).
      { apply String.eqb_neq. intros H. rewrite H in Hge. cbn in Hge. lia. }
      assert (Hb : (String.length phone <? 4)%nat = false) by (apply Nat.ltb_ge; lia).
      rewrite Hne, Hb. cbn [orb]. now rewrite slice_last4. }
    assert (Hlen : String.length ("***-***-" ++ last4) = 12).
    { cbn [String.append String.length]. now rewrite Hl. }
    rewrite !E. split; [ | intros _; exact Hlen ].
    unfold DoctorDashboard.maskPhone at 1.
    assert (Hb : (String.length ("***-***-" ++ last4) <? 4)%nat = false)
      by (apply Nat.ltb_ge; lia).
    rewrite Hb. cbn [String.append String.eqb Ascii.eqb Bool.eqb orb].
    change (String "*" (String "*" (String "*" (String "-" (String "*" (String "*"
              (String "*" (String "-" last4))))))))
      with ("***-***-" ++ last4)%string.
    rewrite slice_last4 by lia. rewrite Hlen.
    cbn [Nat.sub String.append String.substring].
    now rewrite (substring_whole last4 4 Hl).
Qed.

Lemma maskPhone_idempotent_witness :
  String.length (DoctorDashboard.maskPhone "5551234567") = 12.
Proof.
  refine (proj2 (maskPhone_idempotent "5551234567") _). vm_compute. lia.
Defined.

(* ================================================================== *)
(** ** Status badges *)

(** X27.  No two statuses are drawn alike: the five statuses have five
    different labels and five different colour classes, and every status
    is among the five. *)
Theorem status_badges_distinct :
  NoDup (map StatusBadge.getStatusLabel allStatuses)
  /\ NoDup (map StatusBadge.getStatusStyles allStatuses)
  /\ forall s, In s allStatuses.
Proof.
  split; [ | split ].
  - cbn. repeat constructor; cbn; intuition discriminate.
  - cbn. repeat constructor; cbn; intuition discriminate.
  - intros []; cbn; auto 6.
Qed.

(* ================================================================== *)
(** ** The doctor's day, and a consultation from start to end *)

(** X28.  What the doctor's day holds: exactly the table's rows of that
    doctor and date that are scheduled, in consultation or completed,
    each once and with its patient embedded; a cancelled or no-show
    appointment, or one of another doctor or date, is never in it. *)
Theorem doctor_day_spec
        (patients : list Patient.t) (rows : list Appointment.t)
        (doctor_id day : string) (a : Appointment.t) :
  let appointments := DoctorDashboard.dayList patients rows doctor_id day in
  (In a appointments
   <-> exists r, In r rows /\ a = Store.join_patient patients r
                 /\ Appointment.doctor_id r = doctor_id
                 /\ Appointment.appointment_date r = day
                 /\ (Appointment.status r = scheduled
                     \/ Appointment.status r = in_consultation
                     \/ Appointment.status r = completed))
  /\ Permutation appointments
       (map (Store.join_patient patients)
            (filter (fun r => onDay doctor_id day r
                              && status_in (Appointment.status r)
                                           DoctorDashboard.listedStatuses) rows))
  /\ (In a appointments ->
      Appointment.doctor_id a = doctor_id
      /\ Appointment.appointment_date a = day
      /\ Appointment.status a <> cancelled
      /\ Appointment.status a <> no_show).
Proof.
  intros appointments.
  assert (Hlisted : forall s, status_in s DoctorDashboard.listedStatuses = true
                              <-> s = scheduled \/ s = in_consultation \/ s = completed).
  { intros []; cbn; split; intros H; auto; try discriminate H;
      destruct H as [H | [H | H]]; discriminate H. }
  split; [ | split ].
  - unfold appointments. rewrite dayList_In. split.
    + intros (r & Hr & E & Hd & Hday & Hl). exists r. rewrite <- Hlisted. auto.
    + intros (r & Hr & E & Hd & Hday & Hl). exists r. rewrite Hlisted. auto.
  - unfold appointments. rewrite dayList_eq. apply order_perm.
  - unfold appointments. rewrite dayList_In.
    intros (r & Hr & -> & Hd & Hday & Hl). apply Hlisted in Hl. cbn.
    repeat split; try assumption; intros E; rewrite E in Hl;
      destruct Hl as [H | [H | H]]; discriminate H.
Qed.

Lemma count_after_one_change (P : Appointment.t -> bool)
      (g : Appointment.t -> Appointment.t) (rows : list Appointment.t)
      (r0 : Appointment.t) :
  Clinic.unique_ids rows -> In r0 rows ->
  P r0 = false -> P (g r0) = true ->
  (forall r, Appointment.id r <> Appointment.id r0 -> g r = r) ->
  length (filter P (map g rows)) = S (length (filter P rows)).
Proof.
  unfold Clinic.unique_ids. intros Hu Hin Hbefore Hafter Hother.
  induction rows as [|a rows IH]; [ destruct Hin | ].
  cbn [map] in Hu. inversion Hu as [|? ? Hnotin Hu']; subst.
  cbn [map filter]. destruct Hin as [-> | Hin].
  - rewrite Hafter, Hbefore. cbn [length]. f_equal.
    assert (Hsame : map g rows = rows).
    { rewrite <- (map_id rows) at 2. apply map_ext_in. intros r Hr. apply Hother.
      intros E. apply Hnotin. rewrite <- E. now apply in_map. }
    now rewrite Hsame.
  - assert (Ha : g a = a).
    { apply Hother. intros E. apply Hnotin. rewrite E. now apply in_map. }
    rewrite Ha. destruct (P a); cbn [length]; now rewrite (IH Hu' Hin).
Qed.

(** X29.  A consultation from start to end: on a table with unique ids,
    after the doctor starts an enabled card and then completes the
    consultation, each followed by a fetch, the started appointment is
    completed, the current-patient slot is empty and the start buttons
    are enabled again, and the "Completed" figure is one more than before
    the start. *)
Theorem start_then_complete
        (now1 now2 : string) (patients : list Patient.t) (rows : list Appointment.t)
        (doctor_id day : string) (apt : Appointment.t) :
  Clinic.unique_ids rows ->
  let q := DoctorDashboard.organizeAppointments
             (DoctorDashboard.dayList patients rows doctor_id day) in
  In apt (DoctorDashboard.nextAppointments q) ->
  DoctorDashboard.startDisabled q = false ->
  let started := DoctorDashboard.handleStartConsultation now1 (Appointment.id apt) rows in
  let q1 := DoctorDashboard.organizeAppointments
              (DoctorDashboard.dayList patients started doctor_id day) in
  let finished := DoctorDashboard.handleCompleteConsultation now2 q1 started in
  let q2 := DoctorDashboard.organizeAppointments
              (DoctorDashboard.dayList patients finished doctor_id day) in
  (forall r, In r finished -> Appointment.id r = Appointment.id apt ->
             Appointment.status r = completed)
  /\ DoctorDashboard.currentAppointment q2 = None
  /\ DoctorDashboard.startDisabled q2 = false
  /\ DoctorDashboard.completedCount q2 = S (DoctorDashboard.completedCount q).
Proof.
  intros Hu q Hin Hen started q1 finished q2.
  destruct (started_day now1 patients rows doctor_id day apt Hu Hin Hen)
    as [Hthere Hafter].
  set (key := Appointment.id apt) in *.
  set (target := Appointment.with_updated_at now1 (Appointment.with_status in_consultation apt))
    in *.
  assert (Hcur1 : DoctorDashboard.currentAppointment q1 = Some target).
  { unfold q1. rewrite organize_current.
    destruct (find isInConsultation
                   (DoctorDashboard.dayList patients started doctor_id day)) as [y|] eqn:Ey.
    - apply find_some in Ey. destruct Ey as [Hy Hsy].
      destruct (Hafter y Hy) as [-> | (_ & Hno & _)]; [ reflexivity | ].
      rewrite Hno in Hsy. discriminate Hsy.
    - rewrite find_none_iff in Ey. specialize (Ey target Hthere). discriminate Ey. }
  assert (Hfinished : finished = map (restamped now2 key completed) started).
  { unfold finished, DoctorDashboard.handleCompleteConsultation. now rewrite Hcur1. }
  assert (Hstarted : started = map (restamped now1 key in_consultation) rows) by reflexivity.
  assert (Hnone : DoctorDashboard.currentAppointment q2 = None).
  { unfold q2. rewrite organize_current. apply find_none_iff. intros x Hx.
    pose proof Hx as Hl. apply dayList_In in Hl.
    destruct Hl as (r' & _ & Ex' & _ & _ & Hlisted').
    rewrite Hfinished, <- update_status_map in Hx. apply dayList_In_after in Hx.
    destruct Hx as (r1 & Hr1 & -> & Hd & Hdate).
    unfold isInConsultation. rewrite join_patient_status.
    destruct (String.eqb_spec (Appointment.id r1) key) as [E | E].
    - now rewrite (restamped_hit _ _ _ _ E).
    - rewrite (restamped_miss _ _ _ _ E).
      assert (Hold : In (Store.join_patient patients r1)
                        (DoctorDashboard.dayList patients started doctor_id day)).
      { apply dayList_In. exists r1. repeat split; try assumption.
        assert (Es : Appointment.status r1 = Appointment.status r').
        { apply (f_equal Appointment.status) in Ex'.
          rewrite !join_patient_status, (restamped_miss _ _ _ _ E) in Ex'. exact Ex'. }
        now rewrite Es. }
      destruct (Hafter _ Hold) as [Et | (_ & Hno & _)].
      + exfalso. apply E. apply (f_equal Appointment.id) in Et.
        rewrite join_patient_id in Et. exact Et.
      + unfold isInConsultation in Hno. now rewrite join_patient_status in Hno. }
  split; [ | split; [ exact Hnone | split ] ].
  - intros r Hr E. rewrite Hfinished in Hr. apply in_map_iff in Hr.
    destruct Hr as (r1 & <- & _). rewrite restamped_id in E.
    now rewrite (restamped_hit _ _ _ _ E).
  - unfold DoctorDashboard.startDisabled. now rewrite Hnone.
  - apply queue_member_row in Hin. destruct Hin as (r0 & Hr0 & Eapt & Hs0 & Hd0 & Hday0).
    assert (Hkey : Appointment.id r0 = key) by (unfold key; now rewrite Eapt).
    change (DoctorDashboard.completedCount q2)
      with (length (filter (fun a => status_eqb (Appointment.status a) completed)
                           (DoctorDashboard.dayList patients finished doctor_id day))).
    change (DoctorDashboard.completedCount q)
      with (length (filter (fun a => status_eqb (Appointment.status a) completed)
                           (DoctorDashboard.dayList patients rows doctor_id day))).
    rewrite !dayList_count by reflexivity.
    rewrite Hfinished, Hstarted, map_map.
    apply (count_after_one_change _ _ rows r0 Hu Hr0).
    + rewrite Hs0. apply andb_false_r.
    + rewrite (restamped_hit now1 _ _ _ Hkey).
      rewrite restamped_hit by exact Hkey.
      cbn [Appointment.status Appointment.with_updated_at Appointment.with_status].
      unfold onDay.
      cbn [Appointment.doctor_id Appointment.appointment_date
           Appointment.with_updated_at Appointment.with_status].
      rewrite Hd0, Hday0, !String.eqb_refl. reflexivity.
    + intros r E. rewrite Hkey in E.
      now rewrite (restamped_miss now1 _ _ _ E), (restamped_miss now2 _ _ _ E).
Qed.

Lemma start_then_complete_witness :
  DoctorDashboard.completedCount
    (DoctorDashboard.organizeAppointments
       (DoctorDashboard.dayList []
          (DoctorDashboard.handleCompleteConsultation
             "2025-03-10T09:20"
             (DoctorDashboard.organizeAppointments
                (DoctorDashboard.dayList []
                   (DoctorDashboard.handleStartConsultation "2025-03-10T09:01" "a-1" twoWaiting)
                   "D" "2025-03-10"))
             (DoctorDashboard.handleStartConsultation "2025-03-10T09:01" "a-1" twoWaiting))
          "D" "2025-03-10"))
  = 1.
Proof.
  refine (proj2 (proj2 (proj2
            (start_then_complete
               "2025-03-10T09:01" "2025-03-10T09:20" [] twoWaiting "D" "2025-03-10"
               (row "a-1" "D" "2025-03-10" "09:00" scheduled) _ _ eq_refl)))).
  - unfold Clinic.unique_ids. simpl. repeat constructor; simpl; intuition discriminate.
  - vm_compute. left. reflexivity.
Defined.

Lemma doctor_day_spec_witness :
  Appointment.doctor_id (row "a-1" "D" "2025-03-10" "09:00" scheduled) = "D"
  /\ Appointment.appointment_date (row "a-1" "D" "2025-03-10" "09:00" scheduled)
     = "2025-03-10"
  /\ Appointment.status (row "a-1" "D" "2025-03-10" "09:00" scheduled) <> cancelled
  /\ Appointment.status (row "a-1" "D" "2025-03-10" "09:00" scheduled) <> no_show.
Proof.
  refine (proj2 (proj2 (doctor_day_spec [] exampleDay "D" "2025-03-10"
                                        (row "a-1" "D" "2025-03-10" "09:00" scheduled))) _).
  vm_compute. left. reflexivity.
Defined.
